(** * txcosm: the PAWS socket client and the HTTP client's timeout bookkeeping

    A shallow embedding of [txcosm/PAWSClient.py] and of the request
    bookkeeping of [txcosm/HTTPClient.py].

    Python objects that are mutated in place (the client's dicts, the
    protocol's buffer, the factory's attributes) become fields of explicit
    state records that every operation threads through.  A Python
    exception keeps the mutations made before it was raised, so a
    computation returns an [outcome] that carries the state in both cases.
    Calls to [logging], to the reactor and to user callbacks are recorded
    as entries of a trace, in program order. *)

From stdpp Require Import base strings list gmap.
From Stdlib Require Import Ascii String ZArith Lia DecimalString.

Open Scope string_scope.
Open Scope list_scope.

Set Warnings "-register-all".

(** ** Exceptions and outcomes *)

Inductive exn :=
| KeyError (key : string)
| TypeError
| ValueError
| IndexError
| AlreadyCalledError
| AlreadyCancelled
| AlreadyCalled
| CancelledError
| ConnectError
| AttributeError
| Exception (err_str : string).

Inductive outcome (S A : Type) :=
| Return (a : A) (s : S)
| Raise (e : exn) (s : S).
Arguments Return {S A} a s.
Arguments Raise {S A} e s.

Definition M (S A : Type) : Type := S -> outcome S A.

Definition ret {S A} (a : A) : M S A := fun s => Return a s.
Definition raise {S A} (e : exn) : M S A := fun s => Raise e s.
Definition bind {S A B} (m : M S A) (k : A -> M S B) : M S B :=
  fun s => match m s with
           | Return a s' => k a s'
           | Raise e s' => Raise e s'
           end.
Definition get_state {S} : M S S := fun s => Return s s.
Definition modify {S} (f : S -> S) : M S unit := fun s => Return tt (f s).

Declare Scope py_scope.
Delimit Scope py_scope with py.
Notation "x <- m ;; k" := (bind m (fun x => k))
  (at level 100, m at next level, right associativity) : py_scope.
Notation "m ;;; k" := (bind m (fun _ => k))
  (at level 100, right associativity) : py_scope.

Definition final_state {S A} (o : outcome S A) : S :=
  match o with Return _ s => s | Raise _ s => s end.

Definition returned {S A} (o : outcome S A) : option A :=
  match o with Return a _ => Some a | Raise _ _ => None end.

(** ** Logging *)

Inductive level := DEBUG | INFO | WARNING | ERROR.

#[global] Instance level_eq_dec : EqDecision level.
Proof. solve_decision. Defined.

(** ** PAWSProtocol: framing of the byte stream *)

Module PAWSProtocol.

Definition delimiter : ascii := "010"%char.

(** [c in s] for a one-character [c]. *)
Fixpoint contains (c : ascii) (s : string) : bool :=
  match s with
  | EmptyString => false
  | String a rest => Ascii.eqb a c || contains c rest
  end.

(** [s.split(sep)] for a one-character separator: never empty, one more
    element than there are separators in [s]. *)
Fixpoint split (sep : ascii) (s : string) : list string :=
  match s with
  | EmptyString => [EmptyString]
  | String a rest =>
      if Ascii.eqb a sep then EmptyString :: split sep rest
      else match split sep rest with
           | [] => [String a EmptyString]
           | w :: ws => String a w :: ws
           end
  end.

(** [msgs[:-1]] and [msgs[-1]]. *)
Definition all_but_last (msgs : list string) : list string := removelast msgs.
Definition last_item (msgs : list string) : outcome unit string :=
  match msgs with
  | [] => Raise IndexError tt
  | _ => Return (List.last msgs EmptyString) tt
  end.

Section Protocol.
(** The factory behind [self.factory]: its state and its
    [messageHandler]. *)
Context {W : Type}.
Variable messageHandler : string -> M W unit.

Record protocol := {
  buffer : string;
  debug_log : list string;
  factory : W;
}.

(** [for msg in msgs[:-1]: self.factory.messageHandler(msg)] *)
Fixpoint for_msgs (msgs : list string) : M W unit :=
  match msgs with
  | [] => ret tt
  | msg :: rest => (messageHandler msg ;;; for_msgs rest)%py
  end.

Definition dataReceived (data : string) (p : protocol)
  : outcome protocol unit :=
  let buf := buffer p +:+ data in
  if contains delimiter buf then
    let msgs := split delimiter buf in
    match for_msgs (all_but_last msgs) (factory p) with
    | Raise e w =>
        Raise e {| buffer := buf; debug_log := debug_log p; factory := w |}
    | Return _ w =>
        match last_item msgs with
        | Raise e _ =>
            Raise e {| buffer := buf; debug_log := debug_log p;
                       factory := w |}
        | Return l _ =>
            Return tt {| buffer := l; debug_log := debug_log p;
                         factory := w |}
        end
    end
  else
    Return tt {| buffer := buf;
                 debug_log := debug_log p ++
                                ["No message delimiter found yet."];
                 factory := factory p |}.
End Protocol.

Arguments protocol : clear implicits.

(** The wire layout the framing assumes: each message followed by the
    delimiter, then an unterminated remainder. *)
Fixpoint framed (msgs : list string) (rest : string) : string :=
  match msgs with
  | [] => rest
  | m :: ms => m +:+ String delimiter (framed ms rest)
  end.

Definition delimiter_free (s : string) : Prop := contains delimiter s = false.

(** A message callback that only records what it is handed. *)
Definition record_msg (msg : string) : M (list string) unit :=
  modify (fun seen => seen ++ [msg]).

(** The state a protocol is left in when [dataReceived] has handed
    [msgs] to the callback and kept [rest], or when the callback raised
    on the way. *)
Definition delivered {W} (messageHandler : string -> M W unit)
    (msgs : list string) (rest : string) (data : string)
    (p : protocol W) : outcome (protocol W) unit :=
  match for_msgs messageHandler msgs (factory p) with
  | Return _ w =>
      Return tt
        {| buffer := rest;
           debug_log := match msgs with
                        | [] => debug_log p ++
                                  ["No message delimiter found yet."]
                        | _ => debug_log p
                        end;
           factory := w |}
  | Raise e w =>
      Raise e {| buffer := buffer p +:+ data; debug_log := debug_log p;
                 factory := w |}
  end.

(** Sample traffic: two whole JSON messages and the start of a third. *)
Definition dq : string := String "034"%char EmptyString.
Definition nl : string := String delimiter EmptyString.
Definition msg_a : string := "{" +:+ dq +:+ "a" +:+ dq +:+ ":1}".
Definition msg_b : string := "{" +:+ dq +:+ "b" +:+ dq +:+ ":2}".
Definition part_c : string := "{" +:+ dq +:+ "c" +:+ dq.
Definition sample_chunk : string :=
  msg_a +:+ nl +:+ msg_b +:+ nl +:+ part_c.
Definition fresh_protocol : protocol (list string) :=
  {| buffer := EmptyString; debug_log := []; factory := [] |}.

End PAWSProtocol.

(** ** Python values that cross the wire *)

(** What [json.loads] produces and [json.dumps] consumes; [JNull] is
    Python's [None].  A dict is kept as an association list; the
    numbers are the integers, which is what status codes are. *)
Inductive json :=
| JNull
| JBool (b : bool)
| JNum (n : Z)
| JStr (s : string)
| JList (items : list json)
| JDict (items : list (string * json)).

(** Truth value of a Python object in [if x:]. *)
Definition truthy (j : json) : bool :=
  match j with
  | JNull => false
  | JBool b => b
  | JNum n => negb (n =? 0)%Z
  | JStr s => negb (String.eqb s "")
  | JList l => match l with [] => false | _ => true end
  | JDict l => match l with [] => false | _ => true end
  end.

Fixpoint assoc {A} (k : string) (l : list (string * A)) : option A :=
  match l with
  | [] => None
  | (k', v) :: rest => if String.eqb k k' then Some v else assoc k rest
  end.

(** [d[key]] with a string key: [KeyError] on a dict without the key,
    [TypeError] on anything that is not a dict. *)
Definition subscript {S} (d : json) (key : string) : M S json :=
  match d with
  | JDict items =>
      match assoc key items with
      | Some v => ret v
      | None => raise (KeyError key)
      end
  | _ => raise TypeError
  end.

(** [needle in haystack] for two strings. *)
Fixpoint is_prefix (p s : string) : bool :=
  match p, s with
  | EmptyString, _ => true
  | String a p', String b s' => Ascii.eqb a b && is_prefix p' s'
  | String _ _, EmptyString => false
  end.

Fixpoint is_substring (needle haystack : string) : bool :=
  is_prefix needle haystack ||
  match haystack with
  | EmptyString => false
  | String _ rest => is_substring needle rest
  end.

(** [key in d] for a string [key]: a key of a dict, a substring of a
    string, an element of a list; [TypeError] on what is not iterable. *)
Definition has_key {S} (key : string) (d : json) : M S bool :=
  match d with
  | JDict items => ret (bool_decide (is_Some (assoc key items)))
  | JStr s => ret (is_substring key s)
  | JList l =>
      ret (existsb (fun j => match j with
                             | JStr s => String.eqb s key
                             | _ => false
                             end) l)
  | _ => raise TypeError
  end.

(** [x == n] for an integer literal [n]. *)
Definition eq_int (x : json) (n : Z) : bool :=
  match x with
  | JNum m => (m =? n)%Z
  | JBool b => ((if b then 1 else 0) =? n)%Z
  | _ => false
  end.

(** The text of an integer, as [str] and the [%s] of a format give
    it. *)
Definition decimal (n : Z) : string :=
  NilZero.string_of_int (Z.to_int n).

(** The text of a value that is not a list or a dict, as [str],
    [unicode] and the [%s] of a format give it.  The text of a list or
    a dict is its [repr], which is left to the runtime; here it gets
    no text. *)
Definition scalar_text (x : json) : string :=
  match x with
  | JNull => "None"
  | JBool true => "True"
  | JBool false => "False"
  | JNum n => decimal n
  | JStr s => s
  | JList _ | JDict _ => EmptyString
  end.

(** The record kinds of the data-structure layer that the clients name. *)
Inductive kind :=
| Datastream | Environment
| List_Feeds_Msg | View_Feed_Msg | View_Datastream_Msg
| View_Datapoint_Msg | List_Keys_Msg | View_Key_Msg
| List_Triggers_Msg | View_Trigger_Msg | List_Users_Msg | View_User_Msg.

(** [txcosm.DataFormats] *)
Inductive DataFormats := JSON | XML | CSV | PNG.

#[global] Instance kind_eq_dec : EqDecision kind.
Proof. solve_decision. Defined.

(** A decoded record: the core is agnostic to its fields. *)
Record dataStructure := { ds_kind : kind; ds_content : json }.

(** What a public operation hands back to its caller. *)
Inductive value :=
| VNone
| VBool (b : bool)
| VStr (s : string)
| VStruct (d : dataStructure)
| VTokenStatus (token : string) (response_code : bool)
| VResponse (response : json).

(** How a deferred ends: [callback(v)] or [errback(e)]. *)
Inductive result :=
| Success (v : value)
| Failure (e : exn).

(** Library and data-layer functions the clients call but do not define:
    [json.loads] ([None] for a [ValueError]), [json.dumps], the text
    that the [%s] of a format puts for a value, the uuid generators as
    the sequence of their successive results, the construction of a
    record class from the keyword arguments in a dict, and
    [DataStructure.decode]. *)
Class Runtime := {
  json_loads : string -> option json;
  json_dumps : json -> string;
  str : json -> string;
  uuid1 : nat -> string;
  uuid4_hex : nat -> string;
  construct : kind -> list (string * json) -> exn + dataStructure;
  decode : kind -> json -> exn + dataStructure;
}.

(** ** PAWSProtocolFactory: the connection state *)

Module PAWSProtocolFactory.

Inductive event :=
| Log (lvl : level) (text : string)
| ConnectTCP
| LoseConnection
| Write (data : string)
| Fired (d : nat) (state : bool)
| Retry.

(** What [connect] and [disconnect] return: a deferred that already
    carries its result, or a fresh one that fires later. *)
Inductive handle :=
| Succeed (state : bool)
| Pending (d : nat).

Record factory := {
  connection : option nat;
  connected : bool;
  _connectDeferred : option nat;
  _disconnectDeferred : option nat;
  continueTrying : bool;
  next_object : nat;
  trace : list event;
}.

(** [__init__]; [continueTrying] is the class default of Twisted's
    [ReconnectingClientFactory]. *)
Definition init : factory :=
  {| connection := None; connected := false;
     _connectDeferred := None; _disconnectDeferred := None;
     continueTrying := true; next_object := 0; trace := [] |}.

Definition emit (e : event) : M factory unit :=
  modify (fun f =>
    {| connection := connection f; connected := connected f;
       _connectDeferred := _connectDeferred f;
       _disconnectDeferred := _disconnectDeferred f;
       continueTrying := continueTrying f; next_object := next_object f;
       trace := trace f ++ [e] |}).

Definition set_connection (c : option nat) : M factory unit :=
  modify (fun f =>
    {| connection := c; connected := connected f;
       _connectDeferred := _connectDeferred f;
       _disconnectDeferred := _disconnectDeferred f;
       continueTrying := continueTrying f; next_object := next_object f;
       trace := trace f |}).

Definition set_connected (b : bool) : M factory unit :=
  modify (fun f =>
    {| connection := connection f; connected := b;
       _connectDeferred := _connectDeferred f;
       _disconnectDeferred := _disconnectDeferred f;
       continueTrying := continueTrying f; next_object := next_object f;
       trace := trace f |}).

Definition set_connectDeferred (d : option nat) : M factory unit :=
  modify (fun f =>
    {| connection := connection f; connected := connected f;
       _connectDeferred := d;
       _disconnectDeferred := _disconnectDeferred f;
       continueTrying := continueTrying f; next_object := next_object f;
       trace := trace f |}).

Definition set_disconnectDeferred (d : option nat) : M factory unit :=
  modify (fun f =>
    {| connection := connection f; connected := connected f;
       _connectDeferred := _connectDeferred f;
       _disconnectDeferred := d;
       continueTrying := continueTrying f; next_object := next_object f;
       trace := trace f |}).

Definition set_continueTrying (b : bool) : M factory unit :=
  modify (fun f =>
    {| connection := connection f; connected := connected f;
       _connectDeferred := _connectDeferred f;
       _disconnectDeferred := _disconnectDeferred f;
       continueTrying := b; next_object := next_object f;
       trace := trace f |}).

(** A new Python object ([defer.Deferred()], [PAWSProtocol()]). *)
Definition new_object : M factory nat :=
  fun f =>
    Return (next_object f)
      {| connection := connection f; connected := connected f;
         _connectDeferred := _connectDeferred f;
         _disconnectDeferred := _disconnectDeferred f;
         continueTrying := continueTrying f;
         next_object := S (next_object f);
         trace := trace f |}.

Definition _connectionStateHandler (state : bool) : M factory unit :=
  (set_connected state ;;;
   f <- get_state ;;
   match _connectDeferred f with
   | Some d => emit (Fired d state) ;;; set_connectDeferred None
   | None => ret tt
   end ;;;
   f <- get_state ;;
   match _disconnectDeferred f with
   | Some d =>
       let disconnectedState := negb state in
       emit (Fired d disconnectedState) ;;; set_disconnectDeferred None
   | None => ret tt
   end)%py.

Definition connect : M factory handle :=
  (f <- get_state ;;
   match connection f with
   | None =>
       emit ConnectTCP ;;;
       d <- new_object ;;
       set_connectDeferred (Some d) ;;;
       ret (Pending d)
   | Some _ =>
       emit (Log WARNING "Already connected, ignoring connect request") ;;;
       ret (Succeed true)
   end)%py.

Definition disconnect : M factory handle :=
  (f <- get_state ;;
   match connection f with
   | Some _ =>
       emit LoseConnection ;;;
       set_continueTrying false ;;;
       d <- new_object ;;
       set_disconnectDeferred (Some d) ;;;
       ret (Pending d)
   | None =>
       emit (Log WARNING
               "Already disconnected, ignoring disconnect request") ;;;
       ret (Succeed true)
   end)%py.

(** The shutdown trigger it also installs with the reactor is left
    out. *)
Definition registerConnection (proto : nat) : M factory unit :=
  (set_connection (Some proto) ;;;
   _connectionStateHandler true)%py.

(** Twisted's [resetDelay] only touches the back-off delay, which is not
    modelled. *)
Definition buildProtocol : M factory nat :=
  (set_continueTrying true ;;;
   new_object)%py.

(** [ReconnectingClientFactory.clientConnectionLost] and
    [clientConnectionFailed] of Twisted: [if self.continueTrying:
    self.retry()]. *)
Definition reconnecting_retry : M factory unit :=
  (f <- get_state ;;
   if continueTrying f then emit Retry else ret tt)%py.

Definition clientConnectionLost : M factory unit :=
  (emit (Log DEBUG "PAWS connection lost") ;;;
   _connectionStateHandler false ;;;
   reconnecting_retry)%py.

Definition clientConnectionFailed : M factory unit :=
  (emit (Log ERROR "PAWS connection failed") ;;;
   _connectionStateHandler false ;;;
   reconnecting_retry)%py.

(** [self.connection.send(data)]: an attribute lookup on [None] when no
    protocol was ever registered. *)
Definition send (data : string) : M factory unit :=
  (f <- get_state ;;
   match connection f with
   | Some _ => emit (Write data)
   | None => raise AttributeError
   end)%py.

End PAWSProtocolFactory.

(** ** PAWSClient: requests, subscriptions and the message handler *)

Module PAWSClient.

Inductive log_text :=
| Received (msg : string)
| AboutToSend (message : json)
| Unrecognised (token : json)
| PendingTokens (tokens : list string)
| SubscriptionTokens (tokens : list string)
| NoHandler (data : json)
| Expected200 (responseCode : json)
| NoLocationField
| Expected201 (status : json)
| SendFailed.

(** The generator of an [inlineCallbacks] operation, suspended at its
    [yield]: which operation it is and the locals it still needs. *)
Inductive frame :=
| list_feeds_frame
| create_feed_frame
| read_feed_frame
| update_feed_frame
| delete_feed_frame
| create_datastream_frame
| read_datastream_frame
| update_datastream_frame
| delete_datastream_frame
| subscribe_frame (token : string) (subscriptionHandler : nat)
    (dataStructureClass : kind)
| unsubscribe_frame.

Inductive event :=
| Log (lvl : level) (text : log_text)
| Callback (token : string) (data : json)
| Handler (subscriptionHandler : nat) (d : dataStructure)
| Finished (op : frame) (r : result).

(** The operations whose result is the success of the status code, and
    those whose result is taken from the location header. *)
Definition returns_status (op : frame) : bool :=
  match op with
  | update_feed_frame | delete_feed_frame | update_datastream_frame
  | delete_datastream_frame | unsubscribe_frame => true
  | _ => false
  end.

Definition returns_location (op : frame) : bool :=
  match op with
  | create_feed_frame | create_datastream_frame => true
  | _ => false
  end.

(** A [defer.Deferred()] made by [_sendRequest], with the generator
    that has yielded on it, if any. *)
Record deferred := { waiter : option frame }.

Record client := {
  api_key : json;
  feed_id : json;
  pendingResponses : gmap string deferred;
  subscriptionHandlers : gmap string (nat * kind);
  headers : json;
  factory : PAWSProtocolFactory.factory;
  uuid1_calls : nat;
  trace : list event;
}.

Definition init (api_key feed_id : json) : client :=
  {| api_key := api_key; feed_id := feed_id;
     pendingResponses := ∅; subscriptionHandlers := ∅;
     headers := JDict [("X-ApiKey", api_key)];
     factory := PAWSProtocolFactory.init;
     uuid1_calls := 0; trace := [] |}.

Definition set_pendingResponses (m : gmap string deferred) (c : client) :=
  {| api_key := api_key c; feed_id := feed_id c;
     pendingResponses := m;
     subscriptionHandlers := subscriptionHandlers c;
     headers := headers c; factory := factory c;
     uuid1_calls := uuid1_calls c; trace := trace c |}.

Definition set_subscriptionHandlers (m : gmap string (nat * kind))
    (c : client) :=
  {| api_key := api_key c; feed_id := feed_id c;
     pendingResponses := pendingResponses c;
     subscriptionHandlers := m;
     headers := headers c; factory := factory c;
     uuid1_calls := uuid1_calls c; trace := trace c |}.

Definition set_factory (f : PAWSProtocolFactory.factory) (c : client) :=
  {| api_key := api_key c; feed_id := feed_id c;
     pendingResponses := pendingResponses c;
     subscriptionHandlers := subscriptionHandlers c;
     headers := headers c; factory := f;
     uuid1_calls := uuid1_calls c; trace := trace c |}.

Definition emit (e : event) : M client unit :=
  modify (fun c =>
    {| api_key := api_key c; feed_id := feed_id c;
       pendingResponses := pendingResponses c;
       subscriptionHandlers := subscriptionHandlers c;
       headers := headers c; factory := factory c;
       uuid1_calls := uuid1_calls c; trace := trace c ++ [e] |}).

Definition logging (lvl : level) (text : log_text) : M client unit :=
  emit (Log lvl text).

(** The client with further entries on its trace. *)
Definition add_events (evs : list event) (c : client) : client :=
  {| api_key := api_key c; feed_id := feed_id c;
     pendingResponses := pendingResponses c;
     subscriptionHandlers := subscriptionHandlers c;
     headers := headers c; factory := factory c;
     uuid1_calls := uuid1_calls c; trace := trace c ++ evs |}.

(** A method of [self.factory] run on the client's own factory. *)
Definition on_factory {A} (m : M PAWSProtocolFactory.factory A)
  : M client A :=
  fun c => match m (factory c) with
           | Return a f => Return a (set_factory f c)
           | Raise e f => Raise e (set_factory f c)
           end.

Definition connect : M client PAWSProtocolFactory.handle :=
  on_factory PAWSProtocolFactory.connect.

Definition disconnect : M client PAWSProtocolFactory.handle :=
  on_factory PAWSProtocolFactory.disconnect.

Definition connected (c : client) : bool :=
  PAWSProtocolFactory.connected (factory c).

(** The transport is connected: a protocol has registered itself with
    the factory and the connection has not been lost since. *)
Definition is_online (c : client) : Prop :=
  connected c = true /\
  is_Some (PAWSProtocolFactory.connection (factory c)).

(** [lift e]: an [exn + A] of the data layer as a computation. *)
Definition lift {S A} (r : exn + A) : M S A :=
  match r with inl e => raise e | inr a => ret a end.

Section WithRuntime.
Context `{Runtime}.

Definition _generateToken : M client string :=
  fun c =>
    Return (uuid1 (uuid1_calls c))
      {| api_key := api_key c; feed_id := feed_id c;
         pendingResponses := pendingResponses c;
         subscriptionHandlers := subscriptionHandlers c;
         headers := headers c; factory := factory c;
         uuid1_calls := S (uuid1_calls c); trace := trace c |}.

Definition _getResponseBody (response : json) : M client json :=
  subscript response "body".

Definition _convertToCosmStructure (data : json) (k : kind)
  : M client dataStructure :=
  lift (decode k data).

Definition _getResponseCodeStatusFromHeader (response : json)
  : M client bool :=
  (responseCode <- subscript response "status" ;;
   let success := eq_int responseCode 200 in
   (if negb success then logging ERROR (Expected200 responseCode)
    else ret tt) ;;;
   ret success)%py.

Definition _getLocationFromHeader (response : json) : M client json :=
  (status <- subscript response "status" ;;
   if eq_int status 201 then
     hdrs <- subscript response "headers" ;;
     present <- has_key "LOCATION" hdrs ;;
     if (present : bool) then
       location <- subscript hdrs "LOCATION" ;;
       ret location
     else
       let err_str := "No response header 'Location' field found" in
       logging ERROR NoLocationField ;;;
       raise (Exception err_str)
   else
     status' <- subscript response "status" ;;
     let err_str :=
       "Unexpected response. Expected 201 but got => " +:+ str status' in
     logging ERROR (Expected201 status') ;;;
     raise (Exception err_str))%py.

(** The token [_sendRequest] uses: the one it is given, or the next
    one of the generator. *)
Definition token_used (token : option string) (c : client) : string :=
  match token with
  | Some t => t
  | None => uuid1 (uuid1_calls c)
  end.

(** The message dict of [_sendRequest], keys in insertion order. *)
Definition build_message (method resource : string)
    (hdrs parameters body : json) (token : string) : json :=
  JDict ([("method", JStr method); ("resource", JStr resource);
          ("headers", hdrs)]
         ++ (if truthy parameters then [("parameters", parameters)]
             else [])
         ++ (if truthy body then [("body", body)] else [])
         ++ [("token", JStr token)]).

(** Returns the key under which the new deferred sits in
    [pendingResponses], or [None] when nothing was sent. *)
Definition _sendRequest (method resource : string)
    (parameters body : json) (token : option string)
  : M client (option string) :=
  (c <- get_state ;;
   token <- match token with
            | None => _generateToken
            | Some t => ret t
            end ;;
   let message :=
     build_message method resource (headers c) parameters body token in
   logging DEBUG (AboutToSend message) ;;;
   c <- get_state ;;
   if connected c then
     on_factory (PAWSProtocolFactory.send (json_dumps message)) ;;;
     modify (fun c =>
       set_pendingResponses
         (<[token := {| waiter := None |}]> (pendingResponses c)) c) ;;;
     c <- get_state ;;
     match pendingResponses c !! token with
     | Some _ => ret (Some token)
     | None => raise (KeyError token)
     end
   else
     logging ERROR SendFailed ;;;
     ret None)%py.

Definition _get (resource : string) (parameters : json) :=
  _sendRequest "get" resource JNull JNull None.
Definition _put (resource : string) (data : json) :=
  _sendRequest "put" resource JNull data None.
Definition _post (resource : string) (data : json) :=
  _sendRequest "post" resource JNull data None.
Definition _delete (resource : string) :=
  _sendRequest "delete" resource JNull JNull None.
Definition _unsubscribe (resource token : string) :=
  _sendRequest "unsubscribe" resource JNull JNull (Some token).

(** [location.split("/")[-1]] *)
Definition last_segment (location : json) : M client string :=
  match location with
  | JStr s => ret (List.last (PAWSProtocol.split "/"%char s) EmptyString)
  | _ => raise AttributeError
  end.

(** The call of [dataStructureClass] with the body's items as its
    keyword arguments. *)
Definition instantiate (dataStructureClass : kind) (body : json)
  : M client dataStructure :=
  match body with
  | JDict items => lift (construct dataStructureClass items)
  | _ => raise TypeError
  end.

Definition register_subscription (token : string)
    (subscriptionHandler : nat) (dataStructureClass : kind)
  : M client unit :=
  modify (fun c =>
    set_subscriptionHandlers
      (<[token := (subscriptionHandler, dataStructureClass)]>
         (subscriptionHandlers c)) c).

(** The code of each operation after its [yield], up to its
    [defer.returnValue]. *)
Definition after_yield (op : frame) (response : json) : M client value :=
  match op with
  | list_feeds_frame =>
      (body <- _getResponseBody response ;;
       d <- _convertToCosmStructure body List_Feeds_Msg ;;
       ret (VStruct d))%py
  | read_feed_frame =>
      (body <- _getResponseBody response ;;
       d <- _convertToCosmStructure body View_Feed_Msg ;;
       ret (VStruct d))%py
  | read_datastream_frame =>
      (body <- _getResponseBody response ;;
       d <- _convertToCosmStructure body View_Datastream_Msg ;;
       ret (VStruct d))%py
  | create_feed_frame =>
      (location <- _getLocationFromHeader response ;;
       feed_id <- last_segment location ;;
       ret (VStr feed_id))%py
  | create_datastream_frame =>
      (location <- _getLocationFromHeader response ;;
       datastream_id <- last_segment location ;;
       ret (VStr datastream_id))%py
  | update_feed_frame | delete_feed_frame
  | update_datastream_frame | delete_datastream_frame
  | unsubscribe_frame =>
      (status_code <- _getResponseCodeStatusFromHeader response ;;
       ret (VBool status_code))%py
  | subscribe_frame token subscriptionHandler dataStructureClass =>
      (response_code <- _getResponseCodeStatusFromHeader response ;;
       register_subscription token subscriptionHandler
         dataStructureClass ;;;
       ret (VTokenStatus token response_code))%py
  end.

(** [inlineCallbacks] resumes the generator with the response; what
    the generator returns or raises fires the deferred the operation
    gave to its caller.  The caller's own callbacks are user code and
    are recorded, not run. *)
Definition resume (op : frame) (response : json) : M client unit :=
  fun c =>
    match after_yield op response c with
    | Return v c' => emit (Finished op (Success v)) c'
    | Raise e c' => emit (Finished op (Failure e)) c'
    end.

(** [response = yield d]: the generator waits on the deferred, or
    goes on at once with [None] when what it yields is not one. *)
Definition await (op : frame) (d : option string) : M client unit :=
  match d with
  | Some token =>
      modify (fun c =>
        set_pendingResponses
          (<[token := {| waiter := Some op |}]> (pendingResponses c)) c)
  | None => resume op JNull
  end.

Definition feeds_resource (feed_id : string) : string :=
  "/feeds/" +:+ feed_id.
Definition datastreams_resource (feed_id datastream_id : string) : string :=
  "/feeds/" +:+ feed_id +:+ "/datastreams/" +:+ datastream_id.

Definition list_feeds (parameters : json) : M client unit :=
  (d <- _get "/feeds" parameters ;; await list_feeds_frame d)%py.
Definition create_feed (data : json) : M client unit :=
  (d <- _post "/feeds" data ;; await create_feed_frame d)%py.
Definition read_feed (feed_id : string) (parameters : json)
  : M client unit :=
  (d <- _get (feeds_resource feed_id) parameters ;;
   await read_feed_frame d)%py.
Definition update_feed (feed_id : string) (data : json) : M client unit :=
  (d <- _put (feeds_resource feed_id) data ;;
   await update_feed_frame d)%py.
Definition delete_feed (feed_id : string) : M client unit :=
  (d <- _delete (feeds_resource feed_id) ;;
   await delete_feed_frame d)%py.
Definition create_datastream (feed_id datastream_id : string)
    (data : json) : M client unit :=
  (d <- _post (datastreams_resource feed_id datastream_id) data ;;
   await create_datastream_frame d)%py.
Definition read_datastream (feed_id datastream_id : string)
    (parameters : json) : M client unit :=
  (d <- _get (datastreams_resource feed_id datastream_id) parameters ;;
   await read_datastream_frame d)%py.
Definition update_datastream (feed_id datastream_id : string)
    (data : json) : M client unit :=
  (d <- _put (datastreams_resource feed_id datastream_id) data ;;
   await update_datastream_frame d)%py.
Definition delete_datastream (feed_id datastream_id : string)
  : M client unit :=
  (d <- _delete (datastreams_resource feed_id datastream_id) ;;
   await delete_datastream_frame d)%py.

(** [subscribe] down to the [yield] inside [_subscribe]; the rest of
    both generators is the [subscribe_frame] case of [after_yield]. *)
Definition subscribe (resource : string) (subscriptionHandler : nat)
  : M client unit :=
  (let dataStructureClass :=
     if is_substring "datastreams" resource then Datastream
     else Environment in
   token <- _generateToken ;;
   d <- _sendRequest "subscribe" resource JNull JNull (Some token) ;;
   await (subscribe_frame token subscriptionHandler dataStructureClass)
     d)%py.

Definition remove_subscription (token : string) : M client unit :=
  (c <- get_state ;;
   if bool_decide (is_Some (subscriptionHandlers c !! token)) then
     modify (fun c =>
       set_subscriptionHandlers (delete token (subscriptionHandlers c)) c)
   else ret tt)%py.

Definition unsubscribe (resource token : string) : M client unit :=
  (remove_subscription token ;;;
   d <- _unsubscribe resource token ;;
   await unsubscribe_frame d)%py.

(** A token read from a message as a dict key: a list or dict is
    unhashable; any other non-string equals no key of the tables,
    whose keys are strings. *)
Definition as_key (token : json) : M client (option string) :=
  match token with
  | JStr s => ret (Some s)
  | JList _ | JDict _ => raise TypeError
  | _ => ret None
  end.

(** [self.pendingResponses[token].callback(data)]: the deferred fires
    and the generator waiting on it runs to its end. *)
Definition callback (token : string) (d : deferred) (data : json)
  : M client unit :=
  (emit (Callback token data) ;;;
   match waiter d with
   | Some op => resume op data
   | None => ret tt
   end)%py.

(** [del self.pendingResponses[token]] *)
Definition del_pendingResponse (token : string) : M client unit :=
  (c <- get_state ;;
   match pendingResponses c !! token with
   | Some _ =>
       modify (fun c =>
         set_pendingResponses (delete token (pendingResponses c)) c)
   | None => raise (KeyError token)
   end)%py.

Definition log_unrecognised (token data : json) : M client unit :=
  (c <- get_state ;;
   logging ERROR (Unrecognised token) ;;;
   logging ERROR (PendingTokens (elements (dom (pendingResponses c)))) ;;;
   logging ERROR
     (SubscriptionTokens (elements (dom (subscriptionHandlers c)))) ;;;
   logging ERROR (NoHandler data))%py.

Definition _messageHandler (msg : string) : M client unit :=
  (logging DEBUG (Received msg) ;;;
   data <- match json_loads msg with
           | Some data => ret data
           | None => raise ValueError
           end ;;
   token <- subscript data "token" ;;
   key <- as_key token ;;
   c <- get_state ;;
   match key ≫= (fun k => (fun d => (k, d)) <$> pendingResponses c !! k)
   with
   | Some (k, d) =>
       callback k d data ;;;
       del_pendingResponse k
   | None =>
       match key ≫= (fun k => subscriptionHandlers c !! k) with
       | Some (handler, dataStructureClass) =>
           body <- _getResponseBody data ;;
           dataStructure <- instantiate dataStructureClass body ;;
           emit (Handler handler dataStructure)
       | None => log_unrecognised token data
       end
   end)%py.

(** What can happen to a client: a call of one of its public
    operations, a message from the service, or the connection
    coming up or going down. *)
Inductive action :=
| do_list_feeds (parameters : json)
| do_create_feed (data : json)
| do_read_feed (feed_id : string) (parameters : json)
| do_update_feed (feed_id : string) (data : json)
| do_delete_feed (feed_id : string)
| do_create_datastream (feed_id datastream_id : string) (data : json)
| do_read_datastream (feed_id datastream_id : string) (parameters : json)
| do_update_datastream (feed_id datastream_id : string) (data : json)
| do_delete_datastream (feed_id datastream_id : string)
| do_subscribe (resource : string) (subscriptionHandler : nat)
| do_unsubscribe (resource token : string)
| do_connect
| do_disconnect
| message_arrives (msg : string)
| connection_made (proto : nat)
| connection_lost
| connection_failed.

Definition perform (a : action) : M client unit :=
  match a with
  | do_list_feeds parameters => list_feeds parameters
  | do_create_feed data => create_feed data
  | do_read_feed feed_id parameters => read_feed feed_id parameters
  | do_update_feed feed_id data => update_feed feed_id data
  | do_delete_feed feed_id => delete_feed feed_id
  | do_create_datastream feed_id datastream_id data =>
      create_datastream feed_id datastream_id data
  | do_read_datastream feed_id datastream_id parameters =>
      read_datastream feed_id datastream_id parameters
  | do_update_datastream feed_id datastream_id data =>
      update_datastream feed_id datastream_id data
  | do_delete_datastream feed_id datastream_id =>
      delete_datastream feed_id datastream_id
  | do_subscribe resource subscriptionHandler =>
      subscribe resource subscriptionHandler
  | do_unsubscribe resource token => unsubscribe resource token
  | do_connect => (_ <- connect ;; ret tt)%py
  | do_disconnect => (_ <- disconnect ;; ret tt)%py
  | message_arrives msg => _messageHandler msg
  | connection_made proto =>
      on_factory (PAWSProtocolFactory.registerConnection proto)
  | connection_lost => on_factory PAWSProtocolFactory.clientConnectionLost
  | connection_failed =>
      on_factory PAWSProtocolFactory.clientConnectionFailed
  end.

(** The actions that draw a token from [_generateToken]. *)
Definition generates_token (a : action) : bool :=
  match a with
  | do_unsubscribe _ _ | do_connect | do_disconnect
  | message_arrives _ | connection_made _ | connection_lost
  | connection_failed => false
  | _ => true
  end.

(** What [uuid.uuid1] is relied on for: the token it gives next is in
    use in neither table. *)
Definition unused_token (c : client) : Prop :=
  pendingResponses c !! uuid1 (uuid1_calls c) = None /\
  subscriptionHandlers c !! uuid1 (uuid1_calls c) = None.

(** The states a client gets into, between two actions, when every
    generated token is unused at the time it is generated. *)
Inductive reachable : client -> Prop :=
| reachable_init api_key feed_id : reachable (init api_key feed_id)
| reachable_step c a :
    reachable c ->
    (generates_token a = true -> unused_token c) ->
    reachable (final_state (perform a c)).

(** Bytes arriving on the connection: [PAWSProtocol.dataReceived] with
    the factory's [messageHandler], which is the client's. *)
Definition dataReceived (data : string)
    (p : PAWSProtocol.protocol client)
  : outcome (PAWSProtocol.protocol client) unit :=
  PAWSProtocol.dataReceived _messageHandler data p.

End WithRuntime.

End PAWSClient.

(** ** HTTPClient: one request, its deadline and its result *)

Module HTTPClient.

(** A [twisted.web.client.Response]: Twisted keeps the raw headers
    under their lower-cased names. *)
Record response := {
  code : Z;
  phrase : string;
  _rawHeaders : list (string * list string);
}.

Definition lower_ascii (a : ascii) : ascii :=
  let n := nat_of_ascii a in
  if (65 <=? n)%nat && (n <=? 90)%nat then ascii_of_nat (n + 32) else a.

Fixpoint lower (s : string) : string :=
  match s with
  | EmptyString => EmptyString
  | String a rest => String (lower_ascii a) (lower rest)
  end.

Definition hasHeader (r : response) (name : string) : bool :=
  bool_decide (is_Some (assoc (lower name) (_rawHeaders r))).

Definition getRawHeaders (r : response) (name : string)
  : option (list string) :=
  assoc (lower name) (_rawHeaders r).

(** What a deferred of this client is fired with. *)
Inductive dresult :=
| RNone
| RTuple (r : response) (responseBody : string)
| RFailure (e : exn).

Inductive deferred :=
| Unfired
| Fired (r : dresult).

#[global] Instance deferred_inhabited : Inhabited deferred :=
  populate Unfired.

(** A [DelayedCall] of the reactor. *)
Inductive delayed_call := Armed | Cancelled | Called.

Inductive log_text :=
| RequestTimeout (url : string)
| SuccessCommunicating (url : string)
| UnexpectedResponse (code : Z) (phrase : string)
| UnexpectedLocationCount (locations : list string)
| NoLocationContent
| NoLocationField
| SendingRequest (method url : string)
| ProblemExpected (expected got : Z)
| RequestFailed
| DatapointNotFound.

Inductive event :=
| Log (lvl : level) (text : log_text)
| AgentRequest (method url : string) (d : nat)
| CallLater (request_id url : string)
| CancelOperation (d : nat)
| DeliverBody (finished : nat).

(** The three dicts hold references; the deferreds themselves live in
    [deferreds], where the caller's reference to a response deferred
    still finds it after its entry has left [pendingResponses].  A
    reference that was never written reads as a new, unfired one. *)
Record client := {
  pendingRequests : gmap string nat;
  pendingResponses : gmap string nat;
  pendingTimeouts : gmap string delayed_call;
  deferreds : gmap nat deferred;
  next_object : nat;
  uuid4_calls : nat;
  trace : list event;
}.

Definition init : client :=
  {| pendingRequests := ∅; pendingResponses := ∅; pendingTimeouts := ∅;
     deferreds := ∅; next_object := 0; uuid4_calls := 0; trace := [] |}.

Definition set_pendingRequests (m : gmap string nat) (c : client) :=
  {| pendingRequests := m; pendingResponses := pendingResponses c;
     pendingTimeouts := pendingTimeouts c; deferreds := deferreds c;
     next_object := next_object c; uuid4_calls := uuid4_calls c;
     trace := trace c |}.

Definition set_pendingResponses (m : gmap string nat) (c : client) :=
  {| pendingRequests := pendingRequests c; pendingResponses := m;
     pendingTimeouts := pendingTimeouts c; deferreds := deferreds c;
     next_object := next_object c; uuid4_calls := uuid4_calls c;
     trace := trace c |}.

Definition set_pendingTimeouts (m : gmap string delayed_call)
    (c : client) :=
  {| pendingRequests := pendingRequests c;
     pendingResponses := pendingResponses c;
     pendingTimeouts := m; deferreds := deferreds c;
     next_object := next_object c; uuid4_calls := uuid4_calls c;
     trace := trace c |}.

Definition set_deferreds (m : gmap nat deferred) (c : client) :=
  {| pendingRequests := pendingRequests c;
     pendingResponses := pendingResponses c;
     pendingTimeouts := pendingTimeouts c; deferreds := m;
     next_object := next_object c; uuid4_calls := uuid4_calls c;
     trace := trace c |}.

Definition emit (e : event) : M client unit :=
  modify (fun c =>
    {| pendingRequests := pendingRequests c;
       pendingResponses := pendingResponses c;
       pendingTimeouts := pendingTimeouts c; deferreds := deferreds c;
       next_object := next_object c; uuid4_calls := uuid4_calls c;
       trace := trace c ++ [e] |}).

Definition logging (lvl : level) (text : log_text) : M client unit :=
  emit (Log lvl text).

(** The client with further entries on its trace. *)
Definition add_events (evs : list event) (c : client) : client :=
  {| pendingRequests := pendingRequests c;
     pendingResponses := pendingResponses c;
     pendingTimeouts := pendingTimeouts c; deferreds := deferreds c;
     next_object := next_object c; uuid4_calls := uuid4_calls c;
     trace := trace c ++ evs |}.

(** [defer.Deferred()] *)
Definition new_deferred : M client nat :=
  fun c =>
    Return (next_object c)
      {| pendingRequests := pendingRequests c;
         pendingResponses := pendingResponses c;
         pendingTimeouts := pendingTimeouts c;
         deferreds := <[next_object c := Unfired]> (deferreds c);
         next_object := S (next_object c); uuid4_calls := uuid4_calls c;
         trace := trace c |}.

Definition state_of (c : client) (d : nat) : deferred := deferreds c !!! d.

(** [d.callback(result)] *)
Definition callback (d : nat) (r : dresult) : M client unit :=
  (c <- get_state ;;
   match state_of c d with
   | Unfired => modify (fun c => set_deferreds (<[d := Fired r]> (deferreds c)) c)
   | Fired _ => raise AlreadyCalledError
   end)%py.

(** [d.addErrback(ignore_cancelled_error)]: run at once when [d] has
    already failed; [failure.trap] lets any other failure through. *)
Definition add_ignore_cancelled_error (d : nat) : M client unit :=
  (c <- get_state ;;
   match state_of c d with
   | Fired (RFailure CancelledError) =>
       modify (fun c => set_deferreds (<[d := Fired RNone]> (deferreds c)) c)
   | _ => ret tt
   end)%py.

(** [d.cancel()] on a request deferred whose errback is
    [ignore_cancelled_error]: the operation is aborted, the
    [CancelledError] is trapped; nothing happens to a deferred that has
    fired. *)
Definition cancel (d : nat) : M client unit :=
  (c <- get_state ;;
   match state_of c d with
   | Unfired =>
       emit (CancelOperation d) ;;;
       modify (fun c => set_deferreds (<[d := Fired RNone]> (deferreds c)) c)
   | Fired _ => ret tt
   end)%py.

(** [DelayedCall.cancel()] *)
Definition cancel_call (t : delayed_call) : exn + delayed_call :=
  match t with
  | Armed => inr Cancelled
  | Cancelled => inl AlreadyCancelled
  | Called => inl AlreadyCalled
  end.

Definition lift {A} (r : exn + A) : M client A :=
  match r with inl e => raise e | inr a => ret a end.

(** [d[key]] and [del d[key]] on the three dicts. *)
Definition item {V} (tbl : client -> gmap string V) (key : string)
  : M client V :=
  (c <- get_state ;;
   match tbl c !! key with
   | Some v => ret v
   | None => raise (KeyError key)
   end)%py.

Definition del_item {V} (tbl : client -> gmap string V)
    (set : gmap string V -> client -> client) (key : string)
  : M client unit :=
  (_ <- item tbl key ;;
   modify (fun c => set (delete key (tbl c)) c))%py.

Definition set_item {V} (tbl : client -> gmap string V)
    (set : gmap string V -> client -> client) (key : string) (v : V)
  : M client unit :=
  modify (fun c => set (<[key := v]> (tbl c)) c).

Definition _handle_request_timeout (request_id url : string)
  : M client unit :=
  (logging ERROR (RequestTimeout url) ;;;
   del_item pendingTimeouts set_pendingTimeouts request_id ;;;
   request_d <- item pendingRequests request_id ;;
   add_ignore_cancelled_error request_d ;;;
   cancel request_d ;;;
   response_d <- item pendingResponses request_id ;;
   callback response_d RNone)%py.

(** The reactor reaching the deadline of a call that is still armed:
    it marks the call as called and runs it. *)
Definition timer_fires (request_id url : string) : M client unit :=
  (c <- get_state ;;
   match pendingTimeouts c !! request_id with
   | Some Armed =>
       set_item pendingTimeouts set_pendingTimeouts request_id Called ;;;
       _handle_request_timeout request_id url
   | _ => ret tt
   end)%py.

Definition _handleResponseHeader (r : response) (url : string)
  : M client nat :=
  (logging DEBUG (SuccessCommunicating url) ;;;
   finished <- new_deferred ;;
   emit (DeliverBody finished) ;;;
   ret finished)%py.

(** [_handle_response] up to its [yield]: the deferred it waits on. *)
Definition _handle_response_to_yield (r : response)
    (request_id url : string) : M client nat :=
  (del_item pendingRequests set_pendingRequests request_id ;;;
   timeout <- item pendingTimeouts request_id ;;
   timeout <- lift (cancel_call timeout) ;;
   set_item pendingTimeouts set_pendingTimeouts request_id timeout ;;;
   _handleResponseHeader r url)%py.

(** [_handle_response] from its [yield] on, resumed with the response
    and the body that [ResponseBodyProtocol] collected. *)
Definition _handle_response_from_yield (r : response)
    (responseBody request_id url : string) : M client unit :=
  (let result := RTuple r responseBody in
   response_d <- item pendingResponses request_id ;;
   del_item pendingResponses set_pendingResponses request_id ;;;
   callback response_d result)%py.

(** A response whose body is read to its end: both halves of
    [_handle_response], joined by [ResponseBodyProtocol.connectionLost]
    firing [finished].  That the agent has fired the request deferred
    to get here is not recorded. *)
Definition _handle_response (r : response)
    (responseBody request_id url : string) : M client unit :=
  (finished <- _handle_response_to_yield r request_id url ;;
   callback finished (RTuple r responseBody) ;;;
   _handle_response_from_yield r responseBody request_id url)%py.

(** The agent failing a request: [_handle_response] is skipped and
    [ignore_cancelled_error] traps nothing but a cancellation. *)
Definition request_fails (request_d : nat) (e : exn) : M client unit :=
  (c <- get_state ;;
   match state_of c request_d with
   | Unfired =>
       modify (fun c =>
         set_deferreds (<[request_d := Fired (RFailure e)]> (deferreds c)) c)
       ;;; add_ignore_cancelled_error request_d
   | Fired _ => raise AlreadyCalledError
   end)%py.

Section WithRuntime.
Context `{Runtime}.

Definition next_request_id (c : client) : string :=
  uuid4_hex (uuid4_calls c).

Definition uuid4 : M client string :=
  fun c =>
    Return (next_request_id c)
      {| pendingRequests := pendingRequests c;
         pendingResponses := pendingResponses c;
         pendingTimeouts := pendingTimeouts c; deferreds := deferreds c;
         next_object := next_object c; uuid4_calls := S (uuid4_calls c);
         trace := trace c |}.

(** The request headers and the body producer go to the agent and
    nowhere else; they are left out.  Returns [response_d]. *)
Definition _sendRequest (method url : string) : M client nat :=
  (logging DEBUG (SendingRequest method url) ;;;
   request_id <- uuid4 ;;
   request_d <- new_deferred ;;
   emit (AgentRequest method url request_d) ;;;
   set_item pendingRequests set_pendingRequests request_id request_d ;;;
   emit (CallLater request_id url) ;;;
   set_item pendingTimeouts set_pendingTimeouts request_id Armed ;;;
   response_d <- new_deferred ;;
   set_item pendingResponses set_pendingResponses request_id response_d ;;;
   ret response_d)%py.

Definition _get (url : string) := _sendRequest "GET" url.
Definition _put (url : string) := _sendRequest "PUT" url.
Definition _post (url : string) := _sendRequest "POST" url.
Definition _delete (url : string) := _sendRequest "DELETE" url.

Definition _convertToCosmStructure (data : string) (k : kind)
  : M client dataStructure :=
  lift (decode k (JStr data)).
End WithRuntime.

Definition _getResponseCodeStatusFromHeader (r : response)
  : M client bool :=
  (let success := (code r =? 200)%Z in
   (if negb success then
      logging ERROR (UnexpectedResponse (code r) (phrase r))
    else ret tt) ;;;
   ret success)%py.

Definition _getLocationFromHeader (r : response) : M client string :=
  (if (code r =? 201)%Z then
     if hasHeader r "Location" then
       match getRawHeaders r "Location" with
       | Some (location :: more) =>
           (match more with
            | [] => ret tt
            | _ => logging WARNING
                     (UnexpectedLocationCount (location :: more))
            end) ;;;
           ret location
       | _ =>
           let err_str := "No content in response header 'Location' field" in
           logging ERROR NoLocationContent ;;;
           raise (Exception err_str)
       end
     else
       let err_str := "No response header 'Location' field found" in
       logging ERROR NoLocationField ;;;
       raise (Exception err_str)
   else
     let err_str :=
       "Unexpected response => " +:+ decimal (code r) +:+ ":" +:+ phrase r in
     logging ERROR (UnexpectedResponse (code r) (phrase r)) ;;;
     raise (Exception err_str))%py.

Definition last_segment (location : string) : string :=
  List.last (PAWSProtocol.split "/"%char location) EmptyString.

(** What [create_feed] does with the result of its [_post]; the same
    code ends [create_datastream], [create_trigger], [create_user] and
    [create_api_key]. *)
Definition create_feed_result (result : option (response * string))
  : M client value :=
  (match result with
   | Some (r, responseBody) =>
       if (code r =? 201)%Z then
         location <- _getLocationFromHeader r ;;
         let feed_id := last_segment location in
         ret (VStr feed_id)
       else
         logging ERROR (ProblemExpected 201 (code r)) ;;;
         ret VNone
   | None =>
       logging ERROR RequestFailed ;;;
       ret VNone
   end)%py.

(** What [update_feed] does with the result of its [_put];
    [delete_feed], [update_datastream] and [delete_datastream] end the
    same way. *)
Definition update_feed_result (result : option (response * string))
  : M client value :=
  (match result with
   | Some (r, responseBody) =>
       success <- _getResponseCodeStatusFromHeader r ;;
       ret (VBool success)
   | None =>
       logging ERROR RequestFailed ;;;
       ret (VBool false)
   end)%py.

(** What [create_datapoints] does with the result of its [_post]: the
    status as [update_feed] gives it, but [None] for a request that
    failed.  [update_datapoint], [delete_datapoint],
    [delete_datapoints], [update_trigger], [delete_trigger],
    [update_user], [delete_user] and [delete_api_key] end the same
    way. *)
Definition create_datapoints_result (result : option (response * string))
  : M client value :=
  (match result with
   | Some (r, responseBody) =>
       success <- _getResponseCodeStatusFromHeader r ;;
       ret (VBool success)
   | None =>
       logging ERROR RequestFailed ;;;
       ret VNone
   end)%py.

(** What [list_feeds] does with the result of its [_get]; the read and
    list operations all treat a failed request and a status other than
    200 this way. *)
Definition list_feeds_result `{Runtime}
    (result : option (response * string)) : M client value :=
  (match result with
   | Some (r, responseBody) =>
       if (code r =? 200)%Z then
         d <- _convertToCosmStructure responseBody List_Feeds_Msg ;;
         ret (VStruct d)
       else
         logging ERROR (ProblemExpected 200 (code r)) ;;;
         ret VNone
   | None =>
       logging ERROR RequestFailed ;;;
       ret VNone
   end)%py.

(** What [read_feed] does with the result of its [_get]; the other
    read and list operations that follow end the same way, each with
    the kind of record it reads. *)
Definition read_feed_result `{Runtime} (k : kind)
    (result : option (response * string)) : M client value :=
  (match result with
   | Some (r, responseBody) =>
       if (code r =? 200)%Z then
         d <- _convertToCosmStructure responseBody k ;;
         ret (VStruct d)
       else
         logging ERROR (ProblemExpected 200 (code r)) ;;;
         ret VNone
   | None =>
       logging ERROR RequestFailed ;;;
       ret VNone
   end)%py.

(** [read_datastream]: a picture is handed over as it came. *)
Definition read_datastream_result `{Runtime} (format : DataFormats)
    (result : option (response * string)) : M client value :=
  (match result with
   | Some (r, responseBody) =>
       if (code r =? 200)%Z then
         match format with
         | PNG => ret (VStr responseBody)
         | _ =>
             d <- _convertToCosmStructure responseBody View_Datastream_Msg ;;
             ret (VStruct d)
         end
       else
         logging ERROR (ProblemExpected 200 (code r)) ;;;
         ret VNone
   | None =>
       logging ERROR RequestFailed ;;;
       ret VNone
   end)%py.

(** [read_datapoint]: the service answers 200 for a datapoint it does
    not have, with a body that says so. *)
Definition read_datapoint_result `{Runtime}
    (result : option (response * string)) : M client value :=
  (match result with
   | Some (r, responseBody) =>
       if (code r =? 200)%Z then
         if is_substring "Not found" responseBody then
           logging INFO DatapointNotFound ;;;
           ret VNone
         else
           d <- _convertToCosmStructure responseBody View_Datapoint_Msg ;;
           ret (VStruct d)
       else
         logging ERROR (ProblemExpected 200 (code r)) ;;;
         ret VNone
   | None =>
       logging ERROR RequestFailed ;;;
       ret VNone
   end)%py.

(** The public operations of the client. *)
Inductive operation :=
| list_feeds | create_feed | read_feed | update_feed | delete_feed
| create_datastream | read_datastream (format : DataFormats)
| update_datastream | delete_datastream
| create_datapoints | read_datapoint | update_datapoint
| delete_datapoint | delete_datapoints
| list_triggers | create_trigger | read_trigger | update_trigger
| delete_trigger
| list_users | create_user | read_user | update_user | delete_user
| list_api_keys | create_api_key | read_api_key | delete_api_key.

(** The code of each operation after its [yield], up to its
    [defer.returnValue]. *)
Definition after_yield `{Runtime} (op : operation)
    (result : option (response * string)) : M client value :=
  match op with
  | list_feeds => list_feeds_result result
  | read_feed => read_feed_result View_Feed_Msg result
  | read_datastream format => read_datastream_result format result
  | read_datapoint => read_datapoint_result result
  | list_triggers => read_feed_result List_Triggers_Msg result
  | read_trigger => read_feed_result View_Trigger_Msg result
  | list_users => read_feed_result List_Users_Msg result
  | read_user => read_feed_result View_User_Msg result
  | list_api_keys => read_feed_result List_Keys_Msg result
  | read_api_key => read_feed_result View_Key_Msg result
  | create_feed | create_datastream | create_trigger | create_user
  | create_api_key => create_feed_result result
  | update_feed | delete_feed | update_datastream | delete_datastream =>
      update_feed_result result
  | create_datapoints | update_datapoint | delete_datapoint
  | delete_datapoints | update_trigger | delete_trigger | update_user
  | delete_user | delete_api_key => create_datapoints_result result
  end.

(** The operations whose result is the success of the status code, and
    those whose result is taken from the Location header. *)
Definition returns_status (op : operation) : bool :=
  match op with
  | update_feed | delete_feed | update_datastream | delete_datastream
  | create_datapoints | update_datapoint | delete_datapoint
  | delete_datapoints | update_trigger | delete_trigger | update_user
  | delete_user | delete_api_key => true
  | _ => false
  end.

Definition returns_location (op : operation) : bool :=
  match op with
  | create_feed | create_datastream | create_trigger | create_user
  | create_api_key => true
  | _ => false
  end.

(** The status code an operation expects. *)
Definition expected_status (op : operation) : Z :=
  if returns_location op then 201%Z else 200%Z.

End HTTPClient.

(** ** Reading traces *)

Module Trace.
Import PAWSClient.

(** An invocation of a subscription handler. *)
Definition is_handler_call (e : event) : bool :=
  match e with Handler _ _ => true | _ => false end.

(** The log entry that opens the report of an unroutable message. *)
Definition is_unroutable_log (e : event) : bool :=
  match e with Log ERROR (Unrecognised _) => true | _ => false end.

Definition handler_calls (tr : list event) : nat :=
  List.length (List.filter is_handler_call tr).

Definition unroutable_logs (tr : list event) : nat :=
  List.length (List.filter is_unroutable_log tr).

(** Events that are neither a handler invocation nor the report of an
    unroutable message. *)
Definition quiet (e : event) : Prop :=
  is_handler_call e = false /\ is_unroutable_log e = false.

(** A computation is tame when all it does to the client is to put
    quiet entries on the trace, whether it returns or raises. *)
Definition tame {A} (m : M client A) : Prop :=
  forall c, exists evs,
    Forall quiet evs /\ final_state (m c) = add_events evs c.

(** No token is in both tables. *)
Definition disjoint_tables (c : client) : Prop :=
  forall t, is_Some (pendingResponses c !! t) ->
            subscriptionHandlers c !! t = None.

(** A suspended [subscribe] waits under its own token. *)
Definition well_keyed (c : client) : Prop :=
  forall t d tok handler cls,
    pendingResponses c !! t = Some d ->
    waiter d = Some (subscribe_frame tok handler cls) ->
    tok = t.

Definition tables_ok (c : client) : Prop :=
  disjoint_tables c /\ well_keyed c.

(** Bytes written to the transport. *)
Definition writes (f : PAWSProtocolFactory.factory) : list string :=
  omap (fun e => match e with
                 | PAWSProtocolFactory.Write data => Some data
                 | _ => None
                 end) (PAWSProtocolFactory.trace f).
End Trace.

(** ** A small runtime to run the model on *)

Module Sample.

Fixpoint nth_token (n : nat) : string :=
  match n with
  | O => "t"
  | S n' => String "x" (nth_token n')
  end.

(** [json.loads] on a fixed set of texts.  [decode] hands its
    argument to [json.loads], which raises [TypeError] for anything but
    a string and [ValueError] for a text it cannot parse; what it
    parses is taken as the record. *)
Definition table_runtime (texts : list (string * json)) : Runtime :=
  {| json_loads := fun msg => assoc msg texts;
     json_dumps := fun _ => "{}";
     str := scalar_text;
     uuid1 := nth_token;
     uuid4_hex := nth_token;
     construct := fun k items =>
                    inr {| ds_kind := k; ds_content := JDict items |};
     decode := fun k j =>
                 match j with
                 | JStr data =>
                     match assoc data texts with
                     | Some inDict =>
                         inr {| ds_kind := k; ds_content := inDict |}
                     | None => inl ValueError
                     end
                 | _ => inl TypeError
                 end |}.

(** A message with the given token and status. *)
Definition fields (token : string) (status : Z) : list (string * json) :=
  [("token", JStr token); ("status", JNum status);
   ("headers", JDict []); ("body", JDict [("id", JStr "0")])].

Definition message (token : string) (status : Z) : json :=
  JDict (fields token status).

(** The texts ["ack"], ["push"] and ["refused"] stand for messages
    carrying the first generated token, with status 200, 200 and 404;
    ["stray"] carries a token nobody issued. *)
Definition texts : list (string * json) :=
  [("ack", message (nth_token 0) 200);
   ("push", message (nth_token 0) 200);
   ("refused", message (nth_token 0) 404);
   ("stray", message "nobody" 200)].

Definition runtime : Runtime := table_runtime texts.

(** A client whose connection has been registered by the protocol. *)
Definition online : PAWSClient.client :=
  PAWSClient.set_factory
    (final_state (PAWSProtocolFactory.registerConnection 0
                    PAWSProtocolFactory.init))
    (PAWSClient.init (JStr "key") JNull).

Definition offline : PAWSClient.client :=
  PAWSClient.init (JStr "key") JNull.

(** A run: subscribe, the acknowledgement (accepted or refused),
    unsubscribe, and a push message that arrives right after. *)
Definition subscribing : PAWSClient.client :=
  final_state (@PAWSClient.subscribe runtime "/feeds/1" 7 online).
Definition subscribed : PAWSClient.client :=
  final_state (@PAWSClient._messageHandler runtime "ack" subscribing).
Definition refused : PAWSClient.client :=
  final_state (@PAWSClient._messageHandler runtime "refused" subscribing).
Definition unsubscribing : PAWSClient.client :=
  final_state (@PAWSClient.unsubscribe runtime "/feeds/1" (nth_token 0)
                 subscribed).
Definition pushed : PAWSClient.client :=
  final_state (@PAWSClient._messageHandler runtime "push" unsubscribing).

(** A creation response with a status other than 201 that does carry a
    location, and a 201 that carries none. *)
Definition not_created : json :=
  JDict [("token", JStr "t"); ("status", JNum 404);
         ("headers", JDict [("LOCATION", JStr "/feeds/1")]);
         ("body", JNull)].
Definition created_nowhere : json :=
  JDict [("token", JStr "t"); ("status", JNum 201);
         ("headers", JDict []); ("body", JNull)].

(** An HTTP client with one request in flight, the same client after
    the deadline of that request, and after a response to it. *)
Definition url : string := "https://api.cosm.com/v2/keys.json".
Definition request_id : string := nth_token 0.
Definition in_flight : HTTPClient.client :=
  final_state (@HTTPClient._get runtime url HTTPClient.init).
Definition timed_out : HTTPClient.client :=
  final_state (HTTPClient.timer_fires request_id url in_flight).
Definition ok_response : HTTPClient.response :=
  {| HTTPClient.code := 200; HTTPClient.phrase := "OK";
     HTTPClient._rawHeaders := [] |}.
Definition answered : HTTPClient.client :=
  final_state
    (HTTPClient._handle_response ok_response "[]" request_id url in_flight).
(** The connection attempt of the request fails; the deadline comes
    afterwards. *)
Definition failed_then_timed_out : HTTPClient.client :=
  final_state
    (HTTPClient.timer_fires request_id url
       (final_state (HTTPClient.request_fails 0 ConnectError in_flight))).

End Sample.

(** ** Further sample states *)

Module Scenario.

(** A protocol with nothing buffered, in front of a client that is
    online.  The sample runtime parses none of the texts used here. *)
Definition idle : PAWSProtocol.protocol PAWSClient.client :=
  {| PAWSProtocol.buffer := EmptyString; PAWSProtocol.debug_log := [];
     PAWSProtocol.factory := Sample.online |}.

Definition garbage_line : string := "garbage" +:+ PAWSProtocol.nl.

End Scenario.

(** ** Runs of a client *)

Module Run.
Import PAWSClient.

(** The client after a list of actions, one after the other; an action
    that raises leaves the client as it was when it raised. *)
Fixpoint perform_all `{Runtime} (acts : list action) (c : client) : client :=
  match acts with
  | [] => c
  | a :: rest => perform_all rest (final_state (perform a c))
  end.

(** The events of [count] push messages handled one after the other:
    for each its debug entry and the call of the handler. *)
Definition pushed_events (handler : nat)
    (pushes : list (string * dataStructure)) : list event :=
  flat_map (fun '(msg, d) => [Log DEBUG (Received msg); Handler handler d])
           pushes.

End Run.

(** ** ResponseBodyProtocol: collecting the body of an HTTP response *)

Module ResponseBodyProtocol.
Import HTTPClient.

(** The failure the transport hands to [connectionLost], by its class:
    the body is complete, the body may be cut short, or reading it
    failed. *)
Inductive reason := ResponseDone | PotentialDataLoss | ResponseFailed.

#[global] Instance reason_eq_dec : EqDecision reason.
Proof. solve_decision. Defined.

(** The exception a failure raises again when it is not trapped, named
    after its class. *)
Definition exception_of (r : reason) : exn :=
  match r with
  | ResponseDone => Exception "ResponseDone"
  | PotentialDataLoss => Exception "PotentialDataLoss"
  | ResponseFailed => Exception "ResponseFailed"
  end.

(** Twisted's [Failure.trap]: the first of the error types that the
    failure is an instance of, or the failure raised again. *)
Definition trap (r : reason) (errorTypes : list reason) : exn + reason :=
  match List.find (fun t => bool_decide (t = r)) errorTypes with
  | Some t => inr t
  | None => inl (exception_of r)
  end.

(** The protocol object, with what it writes to the log. *)
Record protocol := {
  finished : nat;
  response : HTTPClient.response;
  buffer : list string;
  log : list (level * string);
}.

(** [ResponseBodyProtocol(finished, response)] *)
Definition new (finished : nat) (response : HTTPClient.response) : protocol :=
  {| finished := finished; response := response; buffer := []; log := [] |}.

Definition set_buffer (b : list string) (p : protocol) : protocol :=
  {| finished := finished p; response := response p; buffer := b;
     log := log p |}.

Definition add_log (lvl : level) (text : string) (p : protocol) : protocol :=
  {| finished := finished p; response := response p; buffer := buffer p;
     log := log p ++ [(lvl, text)] |}.

(** The protocol and the client whose deferreds it fires. *)
Definition world : Type := protocol * client.

Definition on_protocol (f : protocol -> protocol) : M world unit :=
  modify (fun w => (f (fst w), snd w)).

Definition on_client {A} (m : M client A) : M world A :=
  fun w => match m (snd w) with
           | Return a c => Return a (fst w, c)
           | Raise e c => Raise e (fst w, c)
           end.

Definition dataReceived (bytes : string) : M world unit :=
  on_protocol (fun p => set_buffer (buffer p ++ [bytes]) p).

Definition connectionLost (rsn : reason) : M world unit :=
  (r <- match trap rsn [ResponseDone] with
        | inr r => ret r
        | inl e => raise e
        end ;;
   if bool_decide (r = ResponseDone) then
     on_protocol (add_log DEBUG "Response body fully received") ;;;
     w <- get_state ;;
     let responseData := String.concat EmptyString (buffer (fst w)) in
     on_protocol (set_buffer []) ;;;
     let result := RTuple (response (fst w)) responseData in
     on_client (callback (finished (fst w)) result)
   else
     on_protocol (add_log ERROR "Problem reading response body"))%py.

(** The chunks of a body, one [dataReceived] each. *)
Fixpoint receive_all (chunks : list string) : M world unit :=
  match chunks with
  | [] => ret tt
  | bytes :: rest => (dataReceived bytes ;;; receive_all rest)%py
  end.

(** The generator of [_handle_response] waits on [finished]: when that
    deferred has fired with a result, it goes on with it. *)
Definition resume_handle_response (request_id url : string) : M world unit :=
  (w <- get_state ;;
   match state_of (snd w) (finished (fst w)) with
   | Fired (RTuple r responseBody) =>
       on_client (_handle_response_from_yield r responseBody request_id url)
   | _ => ret tt
   end)%py.

(** A response from its headers to the end of its body: the first half
    of [_handle_response], the protocol that [deliverBody] is given, the
    chunks, the end of the connection, and the second half of
    [_handle_response] when [finished] has fired. *)
Definition response_arrives (r : HTTPClient.response)
    (chunks : list string) (rsn : reason) (request_id url : string)
    (c : client) : outcome world unit :=
  match _handle_response_to_yield r request_id url c with
  | Raise e c' => Raise e (new 0 r, c')
  | Return finished c' =>
      (receive_all chunks ;;;
       connectionLost rsn ;;;
       resume_handle_response request_id url)%py (new finished r, c')
  end.

End ResponseBodyProtocol.

(** ** Requests side by side *)

Module Exchange.
Import HTTPClient.

(** Two requests sent one after the other, both in flight. *)
Definition second_url : string := "https://api.cosm.com/v2/feeds.json".
Definition second_request_id : string := Sample.nth_token 1.
Definition two_in_flight : client :=
  final_state (@_put Sample.runtime second_url Sample.in_flight).

(** A creation response with its Location header. *)
Definition created_response : response :=
  {| code := 201; phrase := "Created";
     _rawHeaders := [("location", ["http://api.cosm.com/v2/feeds/1234"])] |}.

(** A response that refuses the request, and a creation response
    that says where nothing. *)
Definition not_found_response : response :=
  {| code := 404; phrase := "Not Found"; _rawHeaders := [] |}.
Definition created_nowhere_response : response :=
  {| code := 201; phrase := "Created"; _rawHeaders := [] |}.

End Exchange.

(** ** The data layer: records as dicts go in and out of them *)

Module txcosm.

(** An object of a record class: its attributes by name. *)
#[warnings="-notation-for-abbreviation"]
Notation object := (gmap string json) (only parsing).

(** [getattr(self, name, None)] and [setattr(self, name, v)] *)
Definition getattr (self : object) (name : string) : json :=
  default JNull (self !! name).

Definition setattr (name : string) (v : json) (self : object) : object :=
  <[name := v]> self.

(** [inDict.get(key, None)] *)
Definition get (inDict : list (string * json)) (key : string) : json :=
  default JNull (assoc key inDict).

(** [d[key] = v] on a dict kept in the order its keys were set. *)
Fixpoint set_key (key : string) (v : json) (d : list (string * json))
  : list (string * json) :=
  match d with
  | [] => [(key, v)]
  | (k, x) :: rest =>
      if String.eqb key k then (k, v) :: rest else (k, x) :: set_key key v rest
  end.

(** The keyword arguments of a call with two stars on [j]: a mapping is
    needed, and [self] is taken already. *)
Definition keywords (j : json) : exn + list (string * json) :=
  match j with
  | JDict items =>
      match assoc "self" items with
      | Some _ => inl TypeError
      | None => inr items
      end
  | _ => inl TypeError
  end.

(** The items a [for] loop takes from [j]: the elements of a list, the
    characters of a string, the keys of a dict. *)
Fixpoint characters (s : string) : list json :=
  match s with
  | EmptyString => []
  | String a rest => JStr (String a EmptyString) :: characters rest
  end.

Definition iterate (j : json) : exn + list json :=
  match j with
  | JList items => inr items
  | JStr s => inr (characters s)
  | JDict items => inr (List.map (fun kv => JStr (fst kv)) items)
  | _ => inl TypeError
  end.

Definition lift {S A} (r : exn + A) : M S A :=
  match r with inl e => raise e | inr a => ret a end.

(** The loop that [Datapoint.fromDict] and [Waypoint.fromDict] share:
    a value that is false in a condition is passed over. *)
Fixpoint fromDict_loop (inDict : list (string * json))
    (attributes : list string) (self : object) : object :=
  match attributes with
  | [] => self
  | attribute :: rest =>
      let attribute_value := get inDict attribute in
      fromDict_loop inDict rest
        (if truthy attribute_value
         then setattr attribute attribute_value self
         else self)
  end.

Section WithUnicode.

(** [unicode(x)], the text of a value. *)
Variable unicode : json -> string.

(** The loop that [Datapoint.toDict], [Waypoint.toDict] and
    [Unit.toDict] share. *)
Fixpoint toDict_loop (self : object) (attributes : list string)
    (d : list (string * json)) : list (string * json) :=
  match attributes with
  | [] => d
  | attribute :: rest =>
      let attribute_value := getattr self attribute in
      toDict_loop self rest
        (if truthy attribute_value
         then set_key attribute (JStr (unicode attribute_value)) d
         else d)
  end.

End WithUnicode.

Module Datapoint.

Definition _attributes : list string := ["at"; "value"].

Definition fromDict (inDict : list (string * json)) (self : object)
  : object :=
  fromDict_loop inDict _attributes self.

(** [Datapoint(kwargs)], the keyword arguments as a dict. *)
Definition new (kwargs : list (string * json)) : object :=
  fromDict kwargs (setattr "value" JNull (setattr "at" JNull ∅)).

Definition toDict (unicode : json -> string) (self : object)
  : list (string * json) :=
  toDict_loop unicode self _attributes [].

End Datapoint.

Module Unit.

Definition Valid_Unit_Types : list string :=
  ["basicSI"; "derivedSI"; "conversionBasedUnits"; "derivedUnits";
   "contextDependentUnits"].

(** [x not in Unit.Valid_Unit_Types] *)
Definition not_in (x : json) (l : list string) : bool :=
  match x with
  | JStr s => negb (existsb (String.eqb s) l)
  | _ => true
  end.

Definition _attributes : list string := ["label"; "type"; "symbol"].

(** The [repr] of a list of plain strings. *)
Definition repr (l : list string) : string :=
  "[" +:+ String.concat ", " (List.map (fun s => "'" +:+ s +:+ "'") l)
  +:+ "]".

(** The message of the exception for a type that is not valid. *)
Definition invalid_unit_type (unicode : json -> string)
    (attribute_value : json) : string :=
  "Invalid unit type '" +:+ unicode attribute_value +:+ "' not in "
  +:+ repr Valid_Unit_Types.

Fixpoint fromDict_loop (unicode : json -> string)
    (inDict : list (string * json)) (attributes : list string)
  : M object unit :=
  match attributes with
  | [] => ret tt
  | attribute :: rest =>
      (let attribute_value := get inDict attribute in
       (if truthy attribute_value then
          (if String.eqb attribute "type"
              && not_in attribute_value Valid_Unit_Types
           then raise (Exception (invalid_unit_type unicode attribute_value))
           else ret tt) ;;;
          modify (setattr attribute attribute_value)
        else ret tt) ;;;
       fromDict_loop unicode inDict rest)%py
  end.

Definition fromDict (unicode : json -> string)
    (inDict : list (string * json)) : M object unit :=
  fromDict_loop unicode inDict _attributes.

(** [Unit(kwargs)]: no object when [fromDict] raises. *)
Definition new (unicode : json -> string) (kwargs : list (string * json))
  : exn + object :=
  match fromDict unicode kwargs
          (setattr "symbol" JNull
             (setattr "type" JNull (setattr "label" JNull ∅))) with
  | Return _ self => inr self
  | Raise e _ => inl e
  end.

Definition toDict (unicode : json -> string) (self : object)
  : list (string * json) :=
  toDict_loop unicode self _attributes [].

End Unit.

Module Datastream.

(** A datastream: its plain attributes by name, its datapoints and its
    unit, which are objects. *)
Record datastream := {
  plain : object;
  datapoints : list object;
  unit : option object;
}.

Definition set_plain (o : object) (self : datastream) : datastream :=
  {| plain := o; datapoints := datapoints self; unit := unit self |}.

Definition set_datapoints (l : list object) (self : datastream)
  : datastream :=
  {| plain := plain self; datapoints := l; unit := unit self |}.

Definition set_unit (u : option object) (self : datastream) : datastream :=
  {| plain := plain self; datapoints := datapoints self; unit := u |}.

Definition _attributes : list string :=
  ["at"; "current_value"; "datapoints"; "id"; "max_value"; "min_value";
   "tags"; "unit"; "updated"].

(** [x is not None and x != []] *)
Definition present (x : json) : bool :=
  match x with
  | JNull => false
  | JList [] => false
  | _ => true
  end.

(** The inner loop of [fromDict]: one datapoint appended for each item. *)
Fixpoint append_datapoints (datapoints_list : list json)
  : M datastream Datatypes.unit :=
  match datapoints_list with
  | [] => ret tt
  | datapointsKwargs :: rest =>
      (kwargs <- lift (keywords datapointsKwargs) ;;
       modify (fun self =>
         set_datapoints (datapoints self ++ [Datapoint.new kwargs]) self) ;;;
       append_datapoints rest)%py
  end.

Fixpoint fromDict_loop (unicode : json -> string)
    (inDict : list (string * json)) (attributes : list string)
  : M datastream Datatypes.unit :=
  match attributes with
  | [] => ret tt
  | attribute :: rest =>
      (let attribute_value := get inDict attribute in
       (if present attribute_value then
          if String.eqb attribute "datapoints" then
            datapoints_list <- lift (iterate attribute_value) ;;
            append_datapoints datapoints_list
          else if String.eqb attribute "unit" then
            unitKwargs <- lift (keywords attribute_value) ;;
            u <- lift (Unit.new unicode unitKwargs) ;;
            modify (set_unit (Some u))
          else
            modify (fun self =>
              set_plain (setattr attribute attribute_value (plain self)) self)
        else ret tt) ;;;
       fromDict_loop unicode inDict rest)%py
  end.

Definition fromDict (unicode : json -> string)
    (inDict : list (string * json)) : M datastream Datatypes.unit :=
  fromDict_loop unicode inDict _attributes.

(** The attributes as [__init__] sets them. *)
Definition init : datastream :=
  {| plain :=
       setattr "tags" (JList [])
         (setattr "updated" JNull
            (setattr "min_value" JNull
               (setattr "max_value" JNull
                  (setattr "current_value" JNull
                     (setattr "at" JNull (setattr "id" JNull ∅))))));
     datapoints := [];
     unit := None |}.

(** [Datastream(kwargs)]: no object when [fromDict] raises. *)
Definition new (unicode : json -> string) (kwargs : list (string * json))
  : exn + datastream :=
  match fromDict unicode kwargs init with
  | Return _ self => inr self
  | Raise e _ => inl e
  end.

Fixpoint toDict_loop (unicode : json -> string) (self : datastream)
    (attributes : list string) (d : list (string * json))
  : list (string * json) :=
  match attributes with
  | [] => d
  | attribute :: rest =>
      toDict_loop unicode self rest
        (if String.eqb attribute "datapoints" then
           match datapoints self with
           | [] => d
           | _ =>
               set_key attribute
                 (JList (List.map
                           (fun datapoint =>
                              JDict (Datapoint.toDict unicode datapoint))
                           (datapoints self))) d
           end
         else if String.eqb attribute "unit" then
           match unit self with
           | None => d
           | Some u => set_key attribute (JDict (Unit.toDict unicode u)) d
           end
         else
           let attribute_value := getattr (plain self) attribute in
           if present attribute_value
           then set_key attribute (JStr (unicode attribute_value)) d
           else d)
  end.

Definition toDict (unicode : json -> string) (self : datastream)
  : list (string * json) :=
  toDict_loop unicode self _attributes [].

Definition setCurrentValue (value : json) (self : datastream) : datastream :=
  set_plain (setattr "current_value" value (plain self)) self.

Definition addDatapoint (timestamp value : json) (self : datastream)
  : datastream :=
  let inDict := [("at", timestamp); ("value", value)] in
  set_datapoints (datapoints self ++ [Datapoint.new inDict]) self.

Definition clear (self : datastream) : datastream :=
  set_datapoints [] (set_plain (setattr "current_value" JNull (plain self)) self).

(** What [fromDict] does for an attribute that is neither the
    datapoints nor the unit. *)
Definition apply_plain (inDict : list (string * json)) (attribute : string)
    (self : datastream) : datastream :=
  if present (get inDict attribute)
  then set_plain (setattr attribute (get inDict attribute) (plain self)) self
  else self.

(** The keyword arguments of the datapoint of a time and a value. *)
Definition point_kwargs (point : string * string) : list (string * json) :=
  [("at", JStr (fst point)); ("value", JStr (snd point))].

(** The datapoints of a list recorded one after the other. *)
Definition record_points (points : list (string * string))
    (self : datastream) : datastream :=
  fold_left (fun self point =>
               addDatapoint (JStr (fst point)) (JStr (snd point)) self)
            points self.

End Datastream.

(** [None], or a string that is not empty. *)
Definition text_or_none (x : json) : bool :=
  match x with
  | JNull => true
  | JStr s => negb (String.eqb s "")
  | _ => false
  end.

End txcosm.

(** * Properties *)

(** ** Framing *)

Module PAWSProtocolFacts.
Import PAWSProtocol.

Lemma split_not_nil sep s : split sep s <> [].
Proof.
  destruct s as [|a rest]; simpl; [discriminate|].
  destruct (Ascii.eqb a sep); [discriminate|].
  destruct (split sep rest); discriminate.
Qed.

Lemma contains_append c s t :
  contains c (s +:+ t) = contains c s || contains c t.
Proof.
  induction s as [|a s IH]; simpl; [reflexivity|].
  rewrite IH. apply orb_assoc.
Qed.

(** Gluing the pieces of [split] back together gives the string. *)
Lemma split_framed s :
  framed (removelast (split delimiter s))
         (List.last (split delimiter s) EmptyString) = s.
Proof.
  induction s as [|a rest IH]; [reflexivity|].
  cbn [split].
  destruct (Ascii.eqb a delimiter) eqn:Ha.
  - apply Ascii.eqb_eq in Ha. subst a.
    pose proof (split_not_nil delimiter rest) as Hne.
    destruct (split delimiter rest) as [|w ws] eqn:Hs; [congruence|].
    change (removelast (EmptyString :: w :: ws))
      with (EmptyString :: removelast (w :: ws)).
    change (List.last (EmptyString :: w :: ws) EmptyString)
      with (List.last (w :: ws) EmptyString).
    cbn [framed]. rewrite IH. reflexivity.
  - pose proof (split_not_nil delimiter rest) as Hne.
    destruct (split delimiter rest) as [|w ws] eqn:Hs; [congruence|].
    destruct ws as [|w' ws'].
    + simpl in IH. simpl. congruence.
    + change (removelast (String a w :: w' :: ws'))
        with (String a w :: removelast (w' :: ws')).
      change (List.last (String a w :: w' :: ws') EmptyString)
        with (List.last (w' :: ws') EmptyString).
      change (removelast (w :: w' :: ws'))
        with (w :: removelast (w' :: ws')) in IH.
      change (List.last (w :: w' :: ws') EmptyString)
        with (List.last (w' :: ws') EmptyString) in IH.
      cbn [framed] in *. rewrite <- IH. reflexivity.
Qed.

(** No piece of [split] holds the delimiter. *)
Lemma split_delimiter_free s : Forall delimiter_free (split delimiter s).
Proof.
  induction s as [|a rest IH]; [repeat constructor|].
  cbn [split].
  destruct (Ascii.eqb a delimiter) eqn:Ha.
  - constructor; [reflexivity | exact IH].
  - destruct (split delimiter rest) as [|w ws].
    + constructor; [|constructor]. unfold delimiter_free. simpl.
      rewrite Ha. reflexivity.
    + inversion IH as [|? ? Hw Hws]; subst.
      constructor; [|exact Hws].
      unfold delimiter_free in *. simpl. rewrite Ha. exact Hw.
Qed.

Lemma Forall_removelast {A} (P : A -> Prop) l :
  Forall P l -> Forall P (removelast l).
Proof.
  induction 1 as [|x l Hx Hl IH]; [constructor|].
  destruct l; [constructor|]. simpl. constructor; assumption.
Qed.

Lemma Forall_last {A} (P : A -> Prop) l d :
  l <> [] -> Forall P l -> P (List.last l d).
Proof.
  induction l as [|x l IH]; [congruence|].
  intros _ Hall. inversion Hall as [|? ? Hx Hl]; subst.
  destruct l; [exact Hx|]. apply IH; [discriminate | exact Hl].
Qed.

Lemma split_no_delimiter s :
  contains delimiter s = false -> split delimiter s = [s].
Proof.
  induction s as [|a rest IH]; [reflexivity|].
  simpl. intros Hc. apply orb_false_iff in Hc as [Ha Hrest].
  rewrite Ha, (IH Hrest). reflexivity.
Qed.

Lemma split_with_delimiter s :
  contains delimiter s = true -> removelast (split delimiter s) <> [].
Proof.
  induction s as [|a rest IH]; [discriminate|].
  simpl. intros Hc.
  pose proof (split_not_nil delimiter rest) as Hne.
  destruct (Ascii.eqb a delimiter) eqn:Ha.
  - destruct (split delimiter rest); [congruence | discriminate].
  - simpl in Hc. specialize (IH Hc).
    destruct (split delimiter rest) as [|w [|w' ws]];
      [congruence | simpl in IH; congruence | discriminate].
Qed.

Lemma framed_contains msgs rest :
  msgs <> [] -> contains delimiter (framed msgs rest) = true.
Proof.
  destruct msgs as [|m ms]; [congruence|]. intros _.
  cbn [framed]. rewrite contains_append.
  cbn [contains]. rewrite Ascii.eqb_refl. apply orb_true_r.
Qed.

Lemma append_delimiter_inj m m' t t' :
  delimiter_free m -> delimiter_free m' ->
  m +:+ String delimiter t = m' +:+ String delimiter t' ->
  m = m' /\ t = t'.
Proof.
  unfold delimiter_free. revert m'.
  induction m as [|a m IH]; intros [|a' m'] Hm Hm' Heq; simpl in *.
  - inversion Heq. auto.
  - inversion Heq; subst. rewrite Ascii.eqb_refl in Hm'. discriminate.
  - inversion Heq; subst. rewrite Ascii.eqb_refl in Hm. discriminate.
  - inversion Heq; subst.
    apply orb_false_iff in Hm as [_ Hm].
    apply orb_false_iff in Hm' as [_ Hm'].
    destruct (IH m' Hm Hm' H1) as [-> ->]. auto.
Qed.

(** A byte string reads as delimiter-terminated messages and an
    unterminated remainder in one way only. *)
Lemma framed_unique msgs rest msgs' rest' :
  Forall delimiter_free msgs -> delimiter_free rest ->
  Forall delimiter_free msgs' -> delimiter_free rest' ->
  framed msgs rest = framed msgs' rest' ->
  msgs = msgs' /\ rest = rest'.
Proof.
  intros Hm Hr. revert msgs'.
  induction Hm as [|m ms Hm1 Hms IH]; intros msgs' Hm' Hr' Heq.
  - destruct msgs' as [|m' ms']; [auto|].
    exfalso.
    assert (Hc : contains delimiter (framed (m' :: ms') rest') = true)
      by (apply framed_contains; discriminate).
    rewrite <- Heq in Hc. unfold delimiter_free in Hr. simpl in Hc.
    congruence.
  - destruct msgs' as [|m' ms'].
    + exfalso.
      assert (Hc : contains delimiter (framed (m :: ms) rest) = true)
        by (apply framed_contains; discriminate).
      rewrite Heq in Hc. unfold delimiter_free in Hr'. simpl in Hc.
      congruence.
    + inversion Hm' as [|? ? Hm1' Hms']; subst. cbn [framed] in Heq.
      destruct (append_delimiter_inj _ _ _ _ Hm1 Hm1' Heq) as [-> Hrest].
      destruct (IH ms' Hms' Hr' Hrest) as [-> ->]. auto.
Qed.

Lemma for_msgs_record msgs seen :
  for_msgs record_msg msgs seen = Return tt (seen ++ msgs).
Proof.
  revert seen. induction msgs as [|m ms IH]; intros seen; simpl.
  - unfold ret. rewrite app_nil_r. reflexivity.
  - unfold bind, record_msg, modify. rewrite IH, <- app_assoc.
    reflexivity.
Qed.

(** C5.  Whatever the buffer holds and whatever chunk arrives,
    [dataReceived] reads buffer-plus-chunk as a run of
    delimiter-terminated messages followed by an unterminated
    remainder, hands exactly those messages to the message callback,
    first to last, and keeps the remainder as the new buffer; if the
    callback raises, the exception leaves [dataReceived] with the
    whole of buffer-plus-chunk still buffered.  With a callback that
    records what it gets, the messages seen grow by exactly those
    messages.  The chunk with two whole messages and the start of a
    third, fed to an empty buffer, dispatches the two and keeps the
    start of the third. *)
Theorem dataReceived_frames_stream :
  (forall (W : Type) (messageHandler : string -> M W unit)
          (data : string) (p : protocol W),
      exists msgs rest,
        buffer p +:+ data = framed msgs rest /\
        Forall delimiter_free msgs /\ delimiter_free rest /\
        dataReceived messageHandler data p
        = delivered messageHandler msgs rest data p) /\
  (forall (data buf : string) (log seen : list string),
      exists msgs rest,
        buf +:+ data = framed msgs rest /\
        Forall delimiter_free msgs /\ delimiter_free rest /\
        returned (dataReceived record_msg data
                    {| buffer := buf; debug_log := log; factory := seen |})
        = Some tt /\
        let p' := final_state (dataReceived record_msg data
                    {| buffer := buf; debug_log := log; factory := seen |})
        in buffer p' = rest /\ factory p' = seen ++ msgs) /\
  dataReceived record_msg sample_chunk fresh_protocol
  = Return tt {| buffer := part_c; debug_log := [];
                 factory := [msg_a; msg_b] |}.
Proof.
  assert (General : forall (W : Type) (messageHandler : string -> M W unit)
                           (data : string) (p : protocol W),
             exists msgs rest,
               buffer p +:+ data = framed msgs rest /\
               Forall delimiter_free msgs /\ delimiter_free rest /\
               dataReceived messageHandler data p
               = delivered messageHandler msgs rest data p).
  { intros W mh data p.
    set (buf := buffer p +:+ data).
    destruct (contains delimiter buf) eqn:Hc.
    - exists (removelast (split delimiter buf)),
             (List.last (split delimiter buf) EmptyString).
      pose proof (split_not_nil delimiter buf) as Hne.
      pose proof (split_with_delimiter buf Hc) as Hne'.
      pose proof (split_delimiter_free buf) as Hfree.
      split; [symmetry; apply split_framed|].
      split; [apply Forall_removelast; exact Hfree|].
      split; [apply Forall_last; assumption|].
      unfold dataReceived, delivered, all_but_last. fold buf. rewrite Hc.
      destruct (for_msgs mh (removelast (split delimiter buf)) (factory p))
        as [[] w|e w]; [|reflexivity].
      unfold last_item.
      destruct (split delimiter buf) as [|m ms] eqn:Hs; [congruence|].
      destruct (removelast (m :: ms)); [congruence | reflexivity].
    - exists [], buf.
      split; [reflexivity|]. split; [constructor|]. split; [exact Hc|].
      unfold dataReceived, delivered. fold buf. rewrite Hc. reflexivity. }
  split; [exact General|]. split; [|reflexivity].
  intros data buf log seen.
  destruct (General _ record_msg data
              {| buffer := buf; debug_log := log; factory := seen |})
    as (msgs & rest & Hframed & Hmsgs & Hrest & Hrun).
  exists msgs, rest. repeat (split; [assumption|]).
  rewrite Hrun. unfold delivered. simpl.
  rewrite for_msgs_record. simpl. auto.
Qed.

(** The theorem at the sample chunk and the recording callback. *)
Lemma dataReceived_frames_stream_witness :
  exists msgs rest,
    sample_chunk = framed msgs rest /\
    Forall delimiter_free msgs /\ delimiter_free rest /\
    dataReceived record_msg sample_chunk fresh_protocol
    = delivered record_msg msgs rest sample_chunk fresh_protocol.
Proof.
  exact (proj1 dataReceived_frames_stream _ record_msg sample_chunk
           fresh_protocol).
Defined.

End PAWSProtocolFacts.

(** ** The PAWS client *)

Module PAWSClientFacts.
Import PAWSClient Trace.

Lemma handler_calls_app tr tr' :
  handler_calls (tr ++ tr') = handler_calls tr + handler_calls tr'.
Proof.
  unfold handler_calls. rewrite List.filter_app, List.length_app.
  reflexivity.
Qed.

Lemma unroutable_logs_app tr tr' :
  unroutable_logs (tr ++ tr') = unroutable_logs tr + unroutable_logs tr'.
Proof.
  unfold unroutable_logs. rewrite List.filter_app, List.length_app.
  reflexivity.
Qed.

Lemma quiet_handler_calls evs : Forall quiet evs -> handler_calls evs = 0.
Proof.
  induction 1 as [|e evs [He _] _ IH]; [reflexivity|].
  unfold handler_calls in *. simpl. rewrite He. exact IH.
Qed.

Lemma quiet_unroutable_logs evs :
  Forall quiet evs -> unroutable_logs evs = 0.
Proof.
  induction 1 as [|e evs [_ He] _ IH]; [reflexivity|].
  unfold unroutable_logs in *. simpl. rewrite He. exact IH.
Qed.

Lemma add_events_nil c : add_events [] c = c.
Proof. destruct c. unfold add_events. simpl. rewrite app_nil_r. reflexivity. Qed.

Lemma add_events_app evs evs' c :
  add_events evs' (add_events evs c) = add_events (evs ++ evs') c.
Proof. unfold add_events. simpl. rewrite app_assoc. reflexivity. Qed.

Lemma tame_ret {A} (a : A) : tame (ret a).
Proof. intros c. exists []. split; [constructor|]. symmetry. apply add_events_nil. Qed.

Lemma tame_raise {A} e : tame (raise e : M client A).
Proof. intros c. exists []. split; [constructor|]. symmetry. apply add_events_nil. Qed.

Lemma tame_bind {A B} (m : M client A) (k : A -> M client B) :
  tame m -> (forall a, tame (k a)) -> tame (bind m k).
Proof.
  intros Hm Hk c. destruct (Hm c) as (evs & Hq & Hc).
  unfold bind. destruct (m c) as [a c1|e c1]; simpl in Hc; subst c1.
  - destruct (Hk a (add_events evs c)) as (evs' & Hq' & Hc').
    exists (evs ++ evs'). split; [apply Forall_app; auto|].
    rewrite Hc'. apply add_events_app.
  - exists evs. auto.
Qed.

Lemma tame_logging lvl text :
  quiet (Log lvl text) -> tame (logging lvl text).
Proof. intros Hq c. exists [Log lvl text]. split; [repeat constructor; apply Hq | reflexivity]. Qed.

Lemma tame_emit_finished op r : tame (emit (Finished op r)).
Proof. intros c. exists [Finished op r]. split; [repeat constructor | reflexivity]. Qed.

Lemma tame_subscript d key : tame (subscript d key : M client json).
Proof.
  unfold subscript. destruct d; try apply tame_raise.
  destruct (assoc key items); [apply tame_ret | apply tame_raise].
Qed.

Lemma tame_has_key key d : tame (has_key key d : M client bool).
Proof. unfold has_key. destruct d; first [apply tame_ret | apply tame_raise]. Qed.

Lemma tame_lift {A} (r : exn + A) : tame (lift r : M client A).
Proof. destruct r; [apply tame_raise | apply tame_ret]. Qed.

Lemma tame_if {A} (b : bool) (m1 m2 : M client A) :
  tame m1 -> tame m2 -> tame (if b then m1 else m2).
Proof. destruct b; auto. Qed.

Create HintDb tame.
#[local] Hint Resolve tame_ret tame_raise tame_subscript tame_has_key
  tame_lift tame_emit_finished : tame.

Ltac tame_step :=
  first [ apply tame_bind; [|intros ?]
        | apply tame_if
        | apply tame_logging; split; reflexivity
        | solve [auto with tame] ].

Section WithRuntime.
Context `{Runtime}.

Lemma tame_status response :
  tame (_getResponseCodeStatusFromHeader response).
Proof. unfold _getResponseCodeStatusFromHeader. repeat tame_step. Qed.

Lemma tame_location response : tame (_getLocationFromHeader response).
Proof. unfold _getLocationFromHeader. repeat tame_step. Qed.

Lemma tame_last_segment location : tame (last_segment location).
Proof. unfold last_segment. destruct location; auto with tame. Qed.

Lemma tame_body response : tame (_getResponseBody response).
Proof. apply tame_subscript. Qed.

Lemma tame_convert data k : tame (_convertToCosmStructure data k).
Proof. apply tame_lift. Qed.

#[local] Hint Resolve tame_status tame_location tame_last_segment
  tame_body tame_convert : tame.

(** Every operation but [subscribe] resumes tamely. *)
Lemma tame_after_yield op response :
  (forall token handler cls, op <> subscribe_frame token handler cls) ->
  tame (after_yield op response).
Proof.
  intros Hop. destruct op; cbn [after_yield]; try solve [repeat tame_step].
  exfalso. eapply Hop. reflexivity.
Qed.

(** What resuming an operation does to the client: it never raises
    into the message handler, leaves [pendingResponses] and the
    factory alone, logs quietly, and touches [subscriptionHandlers]
    only by the registration of a [subscribe]. *)
Lemma resume_effect op response c :
  exists c' evs,
    resume op response c = Return tt c' /\
    pendingResponses c' = pendingResponses c /\
    factory c' = factory c /\
    uuid1_calls c' = uuid1_calls c /\
    trace c' = trace c ++ evs /\
    Forall quiet evs /\
    (subscriptionHandlers c' = subscriptionHandlers c \/
     exists token handler cls,
       op = subscribe_frame token handler cls /\
       subscriptionHandlers c' =
         <[token := (handler, cls)]> (subscriptionHandlers c)).
Proof.
  unfold resume.
  destruct op as [| | | | | | | | |token handler cls|].
  10: {
    cbn [after_yield]. unfold bind at 1.
    destruct (tame_status response c) as (evs & Hq & Hc).
    destruct (_getResponseCodeStatusFromHeader response c) as [b c1|e c1];
      simpl in Hc; subst c1.
    - eexists _, (evs ++ [_]). split; [reflexivity|]. cbn.
      repeat split; try reflexivity.
      + rewrite app_assoc. reflexivity.
      + apply Forall_app. split; [exact Hq | repeat constructor].
      + right. eauto.
    - eexists _, (evs ++ [_]). split; [reflexivity|]. cbn.
      repeat split; try reflexivity.
      + rewrite app_assoc. reflexivity.
      + apply Forall_app. split; [exact Hq | repeat constructor].
      + left. reflexivity. }
  all: match goal with
       | |- context [after_yield ?op ?r ?c0] =>
           destruct (tame_after_yield op r
                       ltac:(intros; discriminate) c0)
             as (evs & Hq & Hc);
           destruct (after_yield op r c0) as [v c1|e c1];
           simpl in Hc; subst c1
       end.
  all: eexists _, (evs ++ [_]); (split; [reflexivity|]); cbn.
  all: repeat split; try reflexivity;
    [ rewrite app_assoc; reflexivity
    | apply Forall_app; split; [exact Hq | repeat constructor]
    | left; reflexivity ].
Qed.

(** [_sendRequest] on a connected transport: one write, one new
    pending entry under the token, nothing else. *)
Lemma _sendRequest_online method resource parameters body token c :
  is_online c ->
  exists c',
    _sendRequest method resource parameters body token c
    = Return (Some (token_used token c)) c' /\
    pendingResponses c' =
      <[token_used token c := {| waiter := None |}]> (pendingResponses c) /\
    subscriptionHandlers c' = subscriptionHandlers c /\
    connected c' = true /\
    PAWSProtocolFactory.connection (factory c')
    = PAWSProtocolFactory.connection (factory c) /\
    writes (factory c') =
      writes (factory c) ++
        [json_dumps (build_message method resource (headers c)
                       parameters body (token_used token c))] /\
    uuid1_calls c' = (match token with
                      | Some _ => uuid1_calls c
                      | None => S (uuid1_calls c)
                      end) /\
    trace c' =
      trace c ++
        [Log DEBUG (AboutToSend
           (build_message method resource (headers c) parameters body
              (token_used token c)))].
Proof.
  intros [Hconn [p Hp]].
  unfold _sendRequest, connected in *.
  destruct token as [t|]; cbn [token_used];
    unfold bind, get_state, ret, _generateToken, logging, emit, modify,
      on_factory, PAWSProtocolFactory.send, connected; cbn;
    rewrite Hconn; cbn; rewrite Hp; cbn;
    rewrite lookup_insert_eq;
    (eexists; split; [reflexivity|]); cbn;
    unfold writes; cbn; rewrite omap_app; cbn;
    repeat split; auto.
Qed.

(** C7.  A request issued while the transport is not connected
    returns at once with no deferred, the failure going to the error
    log: nothing is written to the transport, the factory is
    untouched, and [pendingResponses] and [subscriptionHandlers] are
    what they were. *)
Theorem _sendRequest_offline method resource parameters body token c :
  connected c = false ->
  exists c',
    _sendRequest method resource parameters body token c
    = Return None c' /\
    pendingResponses c' = pendingResponses c /\
    subscriptionHandlers c' = subscriptionHandlers c /\
    factory c' = factory c /\
    writes (factory c') = writes (factory c) /\
    trace c' =
      trace c ++
        [Log DEBUG (AboutToSend
           (build_message method resource (headers c) parameters body
              (token_used token c)));
         Log ERROR SendFailed].
Proof.
  intros Hconn. unfold _sendRequest, connected in *.
  destruct token as [t|];
    unfold bind, get_state, ret, _generateToken, logging, emit, modify;
    cbn; unfold connected; cbn; rewrite Hconn;
    (eexists; split; [reflexivity|]); cbn; rewrite <- app_assoc; auto 10.
Qed.

(** The message handler on a message whose token has a pending
    response: the deferred fires with the message, the operation
    waiting on it runs to its end, and the entry is removed. *)
Lemma _messageHandler_pending msg items token d c :
  json_loads msg = Some (JDict items) ->
  assoc "token" items = Some (JStr token) ->
  pendingResponses c !! token = Some d ->
  exists c' evs,
    _messageHandler msg c = Return tt c' /\
    pendingResponses c' = delete token (pendingResponses c) /\
    factory c' = factory c /\
    uuid1_calls c' = uuid1_calls c /\
    trace c' =
      trace c ++ [Log DEBUG (Received msg); Callback token (JDict items)]
              ++ evs /\
    Forall quiet evs /\
    (subscriptionHandlers c' = subscriptionHandlers c \/
     exists tok handler cls,
       waiter d = Some (subscribe_frame tok handler cls) /\
       subscriptionHandlers c' =
         <[tok := (handler, cls)]> (subscriptionHandlers c)).
Proof.
  intros Hmsg Htok Hpend.
  unfold _messageHandler, bind at 1, logging, emit, modify.
  rewrite Hmsg. unfold bind at 1, ret at 1.
  unfold bind at 1, subscript. rewrite Htok. unfold ret at 1.
  unfold bind at 1, as_key, ret at 1.
  unfold bind at 1, get_state at 1. cbn [pendingResponses mbind option_bind].
  rewrite Hpend. cbn [fmap option_fmap option_map].
  unfold bind at 1, callback, bind at 1, emit, modify.
  destruct (waiter d) as [op|] eqn:Hw.
  - match goal with
    | |- context [resume op ?r ?c0] =>
        destruct (resume_effect op r c0)
          as (c1 & evs & Hrun & Hp & Hf & Hu & Htr & Hq & Hsub)
    end.
    rewrite Hrun. unfold del_pendingResponse, bind, get_state, modify.
    rewrite Hp. cbn [pendingResponses]. rewrite Hpend.
    eexists _, evs. split; [reflexivity|]. cbn.
    rewrite Hp, Hf, Hu, Htr. cbn. rewrite <- !app_assoc. cbn.
    repeat split; auto.
    destruct Hsub as [Hsub|(tok & handler & cls & -> & Hsub)].
    + left. exact Hsub.
    + right. eauto.
  - unfold ret at 1, del_pendingResponse, bind, get_state, modify.
    cbn [pendingResponses]. rewrite Hpend.
    eexists _, []. split; [reflexivity|]. cbn.
    rewrite <- !app_assoc. cbn. repeat split; auto.
Qed.

(** The message handler on a message whose token has no pending
    response. *)
Lemma _messageHandler_not_pending msg items token c :
  json_loads msg = Some (JDict items) ->
  assoc "token" items = Some (JStr token) ->
  pendingResponses c !! token = None ->
  _messageHandler msg c =
    let c0 := add_events [Log DEBUG (Received msg)] c in
    match subscriptionHandlers c !! token with
    | Some (handler, cls) =>
        match assoc "body" items with
        | Some (JDict kwargs) =>
            match construct cls kwargs with
            | inr dataStructure =>
                Return tt (add_events [Log DEBUG (Received msg);
                                       Handler handler dataStructure] c)
            | inl e => Raise e c0
            end
        | Some _ => Raise TypeError c0
        | None => Raise (KeyError "body") c0
        end
    | None =>
        Return tt
          (add_events
             [Log DEBUG (Received msg);
              Log ERROR (Unrecognised (JStr token));
              Log ERROR (PendingTokens
                           (elements (dom (pendingResponses c))));
              Log ERROR (SubscriptionTokens
                           (elements (dom (subscriptionHandlers c))));
              Log ERROR (NoHandler (JDict items))] c)
    end.
Proof.
  intros Hmsg Htok Hpend.
  unfold _messageHandler, bind at 1, logging, emit, modify.
  rewrite Hmsg. unfold bind at 1, ret at 1.
  unfold bind at 1, subscript. rewrite Htok. unfold ret at 1.
  unfold bind at 1, as_key, ret at 1.
  unfold bind at 1, get_state at 1.
  cbn [pendingResponses subscriptionHandlers mbind option_bind].
  rewrite Hpend. cbn [fmap option_fmap option_map].
  destruct (subscriptionHandlers c !! token) as [[handler cls]|].
  - unfold _getResponseBody, subscript, bind at 1.
    destruct (assoc "body" items) as [body|]; [|reflexivity].
    unfold ret at 1, instantiate, bind at 1.
    destruct body; try reflexivity.
    unfold lift. destruct (construct cls items0); try reflexivity.
    unfold ret, emit, modify, add_events. cbn.
    rewrite <- app_assoc. reflexivity.
  - unfold log_unrecognised, bind, get_state, logging, emit, modify,
      add_events. cbn. rewrite <- !app_assoc. reflexivity.
Qed.


(** C2.  For a message that parses to a dict with a string token, the
    handler looks in [pendingResponses] first: a pending deferred is
    fired with the message, the operation that waits on it goes on
    with the message as its response and ends with what its code
    after the [yield] returns or raises, and the entry is removed, with
    no handler invoked and nothing reported as unroutable.  Failing
    that it looks in [subscriptionHandlers]: the body is turned into
    the bound record kind and the handler is invoked with it, both
    tables staying as they were (a body that is missing or cannot be
    turned into the record raises instead).  Failing that too, the
    message is reported as unrecognised in the error log and
    dropped: no deferred fires and no handler runs. *)
Theorem _messageHandler_dispatch msg items token c :
  json_loads msg = Some (JDict items) ->
  assoc "token" items = Some (JStr token) ->
  match pendingResponses c !! token with
  | Some d =>
      let c0 := add_events [Callback token (JDict items)]
                  (add_events [Log DEBUG (Received msg)] c) in
      pendingResponses (final_state (_messageHandler msg c))
      = delete token (pendingResponses c) /\
      handler_calls (trace (final_state (_messageHandler msg c)))
      = handler_calls (trace c) /\
      unroutable_logs (trace (final_state (_messageHandler msg c)))
      = unroutable_logs (trace c) /\
      _messageHandler msg c =
        Return tt
          (set_pendingResponses (delete token (pendingResponses c))
             match waiter d with
             | Some op =>
                 match after_yield op (JDict items) c0 with
                 | Return v c1 => add_events [Finished op (Success v)] c1
                 | Raise e c1 => add_events [Finished op (Failure e)] c1
                 end
             | None => c0
             end)
  | None =>
      pendingResponses (final_state (_messageHandler msg c))
      = pendingResponses c /\
      subscriptionHandlers (final_state (_messageHandler msg c))
      = subscriptionHandlers c /\
      _messageHandler msg c =
        let c0 := add_events [Log DEBUG (Received msg)] c in
        match subscriptionHandlers c !! token with
        | Some (handler, cls) =>
            match assoc "body" items with
            | Some (JDict kwargs) =>
                match construct cls kwargs with
                | inr dataStructure =>
                    Return tt
                      (add_events [Log DEBUG (Received msg);
                                   Handler handler dataStructure] c)
                | inl e => Raise e c0
                end
            | Some _ => Raise TypeError c0
            | None => Raise (KeyError "body") c0
            end
        | None =>
            Return tt
              (add_events
                 [Log DEBUG (Received msg);
                  Log ERROR (Unrecognised (JStr token));
                  Log ERROR (PendingTokens
                               (elements (dom (pendingResponses c))));
                  Log ERROR (SubscriptionTokens
                               (elements
                                  (dom (subscriptionHandlers c))));
                  Log ERROR (NoHandler (JDict items))] c)
        end
  end.
Proof.
  intros Hmsg Htok.
  destruct (pendingResponses c !! token) as [d|] eqn:Hpend.
  - cbv zeta.
    destruct (_messageHandler_pending msg items token d c Hmsg Htok Hpend)
      as (c' & evs & Hrun & Hp & _ & _ & Htr & Hq & _).
    rewrite Hrun at 1 2 3. cbn [final_state].
    split; [exact Hp|].
    split.
    { rewrite Htr, !handler_calls_app, (quiet_handler_calls evs Hq).
      cbn. lia. }
    split.
    { rewrite Htr, !unroutable_logs_app, (quiet_unroutable_logs evs Hq).
      cbn. lia. }
    clear c' evs Hrun Hp Htr Hq.
    unfold _messageHandler, bind at 1, logging, emit, modify.
    rewrite Hmsg. unfold bind at 1, ret at 1.
    unfold bind at 1, subscript. rewrite Htok. unfold ret at 1.
    unfold bind at 1, as_key, ret at 1.
    unfold bind at 1, get_state at 1.
    cbn [pendingResponses mbind option_bind].
    rewrite Hpend. cbn [fmap option_fmap option_map].
    unfold bind at 1, callback, bind at 1, emit, modify.
    destruct (waiter d) as [op|].
    + match goal with
      | |- context [resume op ?r ?c0] =>
          destruct (resume_effect op r c0)
            as (cR & evs & HrunR & HpR & _);
          change c0
            with (add_events [Callback token (JDict items)]
                    (add_events [Log DEBUG (Received msg)] c)) in *
      end.
      rewrite HrunR.
      unfold del_pendingResponse, bind, get_state, modify.
      rewrite HpR. cbn [pendingResponses add_events]. rewrite Hpend.
      cbv beta iota. rewrite ?HpR. cbn [pendingResponses add_events].
      f_equal. f_equal.
      unfold resume in HrunR.
      destruct (after_yield op (JDict items) _) as [v c1|e c1];
        injection HrunR as <-; reflexivity.
    + unfold ret at 1, del_pendingResponse, bind, get_state, modify.
      cbn [pendingResponses]. rewrite Hpend. reflexivity.
  - rewrite (_messageHandler_not_pending msg items token c Hmsg Htok Hpend).
    cbv zeta.
    destruct (subscriptionHandlers c !! token) as [[handler cls]|];
      [destruct (assoc "body" items) as [[]|];
       try destruct (construct cls items0)|];
      auto.
Qed.

(** [subscribe] on a connected transport, up to its [yield]. *)
Lemma subscribe_online resource handler c :
  is_online c ->
  let t := uuid1 (uuid1_calls c) in
  let cls := if is_substring "datastreams" resource then Datastream
             else Environment in
  exists c1,
    subscribe resource handler c = Return tt c1 /\
    pendingResponses c1 =
      <[t := {| waiter := Some (subscribe_frame t handler cls) |}]>
        (pendingResponses c) /\
    subscriptionHandlers c1 = subscriptionHandlers c /\
    is_online c1 /\
    uuid1_calls c1 = S (uuid1_calls c) /\
    trace c1 =
      trace c ++
        [Log DEBUG (AboutToSend
           (build_message "subscribe" resource (headers c) JNull JNull
              t))] /\
    writes (factory c1) =
      writes (factory c) ++
        [json_dumps (build_message "subscribe" resource (headers c)
                       JNull JNull t)].
Proof.
  intros Hon t cls. unfold subscribe. fold cls.
  unfold bind at 1, _generateToken. fold t.
  match goal with
  | |- context [bind _ _ ?c0] => set (cg := c0)
  end.
  assert (Hcg : is_online cg) by exact Hon.
  destruct (_sendRequest_online "subscribe" resource JNull JNull
              (Some t) cg Hcg)
    as (c' & Hrun & Hp & Hs & Hc & Hcn & Hw & Hu & Htr).
  unfold bind. rewrite Hrun. cbn [token_used await].
  unfold modify. eexists. split; [reflexivity|]. cbn.
  rewrite Hp, insert_insert_eq, Hs, Hu, Htr, Hw. cbn.
  repeat split; auto.
  destruct Hon as [_ Hon]. cbn [set_pendingResponses factory].
  rewrite Hcn. exact Hon.
Qed.

(** [unsubscribe] on a connected transport, up to its [yield]. *)
Lemma unsubscribe_online resource token c :
  is_online c ->
  exists c1,
    unsubscribe resource token c = Return tt c1 /\
    pendingResponses c1 =
      <[token := {| waiter := Some unsubscribe_frame |}]>
        (pendingResponses c) /\
    subscriptionHandlers c1 = delete token (subscriptionHandlers c) /\
    is_online c1 /\
    uuid1_calls c1 = uuid1_calls c /\
    trace c1 =
      trace c ++
        [Log DEBUG (AboutToSend
           (build_message "unsubscribe" resource (headers c) JNull JNull
              token))] /\
    writes (factory c1) =
      writes (factory c) ++
        [json_dumps (build_message "unsubscribe" resource (headers c)
                       JNull JNull token)].
Proof.
  intros Hon. unfold unsubscribe, bind at 1, remove_subscription,
    bind at 1, get_state.
  assert (Hrem : exists cr,
             (if bool_decide (is_Some (subscriptionHandlers c !! token))
              then modify (fun c0 =>
                     set_subscriptionHandlers
                       (delete token (subscriptionHandlers c0)) c0)
              else ret tt) c = Return tt cr /\
             subscriptionHandlers cr = delete token (subscriptionHandlers c) /\
             pendingResponses cr = pendingResponses c /\
             factory cr = factory c /\ headers cr = headers c /\
             uuid1_calls cr = uuid1_calls c /\ trace cr = trace c).
  { case_bool_decide as Hin.
    - eexists. split; [reflexivity|]. cbn. repeat split; auto.
    - exists c. split; [reflexivity|]. repeat split; auto.
      symmetry. apply delete_id. apply eq_None_not_Some. exact Hin. }
  destruct Hrem as (cr & Hrun & Hs & Hp & Hf & Hh & Hu & Htr).
  rewrite Hrun.
  assert (Hcr : is_online cr).
  { unfold is_online, connected. rewrite Hf. exact Hon. }
  destruct (_sendRequest_online "unsubscribe" resource JNull JNull
              (Some token) cr Hcr)
    as (c' & Hrun' & Hp' & Hs' & Hc' & Hcn' & Hw' & Hu' & Htr').
  unfold _unsubscribe, bind. rewrite Hrun'. cbn [token_used await].
  unfold modify. eexists. split; [reflexivity|]. cbn.
  rewrite Hp', insert_insert_eq, Hs', Hu', Htr', Hw', Hp, Hs, Hu, Htr,
    Hh, Hf. cbn.
  repeat split; auto.
  destruct Hcr as [_ Hcr]. cbn [set_pendingResponses factory].
  rewrite Hcn'. exact Hcr.
Qed.


(** The acknowledgement of a [subscribe], while the deferred is being
    fired and before its entry is removed: the generator has
    registered the handler whatever the status, and the token is in
    both tables. *)
Lemma callback_subscribe token handler cls items st c :
  assoc "status" items = Some st ->
  let d := {| waiter := Some (subscribe_frame token handler cls) |} in
  exists cw,
    callback token d (JDict items) c = Return tt cw /\
    pendingResponses cw = pendingResponses c /\
    subscriptionHandlers cw =
      <[token := (handler, cls)]> (subscriptionHandlers c) /\
    factory cw = factory c /\
    uuid1_calls cw = uuid1_calls c /\
    trace cw =
      trace c ++ [Callback token (JDict items)]
              ++ (if eq_int st 200 then []
                  else [Log ERROR (Expected200 st)])
              ++ [Finished (subscribe_frame token handler cls)
                    (Success (VTokenStatus token (eq_int st 200)))].
Proof.
  intros Hst d. unfold callback, d. cbn [waiter].
  unfold bind at 1, emit, modify, resume. cbn [after_yield].
  unfold _getResponseCodeStatusFromHeader, subscript, bind at 2.
  rewrite Hst. unfold ret at 1.
  destruct (eq_int st 200); cbn;
    (eexists; split; [reflexivity|]); cbn;
    rewrite <- ?app_assoc; repeat split; auto.
Qed.

(** The message handler on the acknowledgement of a [subscribe]. *)
Lemma _messageHandler_subscribe_ack msg items token handler cls st c :
  json_loads msg = Some (JDict items) ->
  assoc "token" items = Some (JStr token) ->
  assoc "status" items = Some st ->
  pendingResponses c !! token
  = Some {| waiter := Some (subscribe_frame token handler cls) |} ->
  exists c',
    _messageHandler msg c = Return tt c' /\
    pendingResponses c' = delete token (pendingResponses c) /\
    subscriptionHandlers c' =
      <[token := (handler, cls)]> (subscriptionHandlers c) /\
    factory c' = factory c /\
    uuid1_calls c' = uuid1_calls c /\
    trace c' =
      trace c ++ [Log DEBUG (Received msg); Callback token (JDict items)]
              ++ (if eq_int st 200 then []
                  else [Log ERROR (Expected200 st)])
              ++ [Finished (subscribe_frame token handler cls)
                    (Success (VTokenStatus token (eq_int st 200)))].
Proof.
  intros Hmsg Htok Hst Hpend.
  unfold _messageHandler, bind at 1, logging, emit, modify.
  rewrite Hmsg. unfold bind at 1, ret at 1.
  unfold bind at 1, subscript. rewrite Htok. unfold ret at 1.
  unfold bind at 1, as_key, ret at 1.
  unfold bind at 1, get_state at 1. cbn [pendingResponses mbind option_bind].
  rewrite Hpend. cbn [fmap option_fmap option_map].
  unfold bind at 1.
  match goal with
  | |- context [callback token ?d0 ?data ?c0] =>
      destruct (callback_subscribe token handler cls items st c0 Hst)
        as (cw & Hrun & Hp & Hs & Hf & Hu & Htr)
  end.
  rewrite Hrun. unfold del_pendingResponse, bind, get_state, modify.
  rewrite Hp. cbn [pendingResponses]. rewrite Hpend.
  eexists. split; [reflexivity|]. cbn.
  rewrite Hp, Hs, Hf, Hu, Htr. cbn. rewrite <- !app_assoc. cbn.
  repeat split; auto.
Qed.

(** C6, as the code has it.  On a connected transport [subscribe]
    registers nothing when it is called; once the acknowledgement
    carrying the generated token is handled, the token is bound in
    [subscriptionHandlers] to the handler and to [Datastream] when
    the resource contains the text datastreams and to [Environment]
    otherwise, whatever the status of the acknowledgement: the
    status only decides the boolean handed back with the token. *)
Theorem subscribe_registers_on_acknowledgement
    resource handler c msg items st :
  is_online c ->
  json_loads msg = Some (JDict items) ->
  assoc "token" items = Some (JStr (uuid1 (uuid1_calls c))) ->
  assoc "status" items = Some st ->
  let t := uuid1 (uuid1_calls c) in
  let cls := if is_substring "datastreams" resource then Datastream
             else Environment in
  exists c1 c2,
    subscribe resource handler c = Return tt c1 /\
    subscriptionHandlers c1 = subscriptionHandlers c /\
    _messageHandler msg c1 = Return tt c2 /\
    subscriptionHandlers c2 =
      <[t := (handler, cls)]> (subscriptionHandlers c) /\
    In (Finished (subscribe_frame t handler cls)
          (Success (VTokenStatus t (eq_int st 200)))) (trace c2).
Proof.
  intros Hon Hmsg Htok Hst t cls.
  destruct (subscribe_online resource handler c Hon)
    as (c1 & Hrun1 & Hp1 & Hs1 & Hon1 & Hu1 & Htr1 & Hw1).
  fold t cls in Hp1.
  assert (Hpend : pendingResponses c1 !! t
                  = Some {| waiter := Some (subscribe_frame t handler cls) |})
    by (rewrite Hp1; apply lookup_insert_eq).
  destruct (_messageHandler_subscribe_ack msg items t handler cls st c1
              Hmsg Htok Hst Hpend)
    as (c2 & Hrun2 & Hp2 & Hs2 & Hf2 & Hu2 & Htr2).
  exists c1, c2. repeat split; auto.
  - rewrite Hs2, Hs1. reflexivity.
  - rewrite Htr2. rewrite !in_app_iff. right. right. right.
    left. reflexivity.
Qed.


(** The first statement of [unsubscribe]: the entry goes, nothing
    else changes and nothing is sent. *)
Lemma remove_subscription_effect token c :
  exists cr,
    remove_subscription token c = Return tt cr /\
    subscriptionHandlers cr = delete token (subscriptionHandlers c) /\
    pendingResponses cr = pendingResponses c /\
    factory cr = factory c /\
    trace cr = trace c.
Proof.
  unfold remove_subscription, bind, get_state.
  case_bool_decide as Hin.
  - eexists. split; [reflexivity|]. cbn. repeat split; auto.
  - exists c. split; [reflexivity|]. repeat split; auto.
    symmetry. apply delete_id. apply eq_None_not_Some. exact Hin.
Qed.

(** C3, as the code has it.  On a connected transport [unsubscribe]
    first removes the subscription entry, with nothing sent yet, and
    then sends the unsubscribe request under the same token, which
    leaves that token pending.  A message carrying the token that is
    handled right after the call therefore invokes no handler and is
    not reported as unroutable: it fires the pending unsubscribe
    request and removes its entry.  Only a further message with that
    token is reported as unroutable, once, again with no handler
    invoked. *)
Theorem unsubscribe_then_push resource token c msg items :
  is_online c ->
  json_loads msg = Some (JDict items) ->
  assoc "token" items = Some (JStr token) ->
  exists cr c1 c2 c3,
    remove_subscription token c = Return tt cr /\
    subscriptionHandlers cr !! token = None /\
    writes (factory cr) = writes (factory c) /\
    unsubscribe resource token c
    = bind (_unsubscribe resource token) (await unsubscribe_frame) cr /\
    unsubscribe resource token c = Return tt c1 /\
    subscriptionHandlers c1 !! token = None /\
    writes (factory c1) =
      writes (factory c) ++
        [json_dumps (build_message "unsubscribe" resource (headers c)
                       JNull JNull token)] /\
    pendingResponses c1 !! token
    = Some {| waiter := Some unsubscribe_frame |} /\
    _messageHandler msg c1 = Return tt c2 /\
    In (Callback token (JDict items)) (trace c2) /\
    pendingResponses c2 !! token = None /\
    subscriptionHandlers c2 !! token = None /\
    handler_calls (trace c2) = handler_calls (trace c) /\
    unroutable_logs (trace c2) = unroutable_logs (trace c) /\
    _messageHandler msg c2 = Return tt c3 /\
    handler_calls (trace c3) = handler_calls (trace c) /\
    unroutable_logs (trace c3) = S (unroutable_logs (trace c)).
Proof.
  intros Hon Hmsg Htok.
  destruct (remove_subscription_effect token c)
    as (cr & Hrem & Hsr & Hpr & Hfr & Htrr).
  destruct (unsubscribe_online resource token c Hon)
    as (c1 & Hrun1 & Hp1 & Hs1 & Hon1 & Hu1 & Htr1 & Hw1).
  assert (Hpend1 : pendingResponses c1 !! token
                   = Some {| waiter := Some unsubscribe_frame |})
    by (rewrite Hp1; apply lookup_insert_eq).
  destruct (_messageHandler_pending msg items token _ c1 Hmsg Htok Hpend1)
    as (c2 & evs & Hrun2 & Hp2 & Hf2 & Hu2 & Htr2 & Hq2 & Hs2).
  assert (Hsub2 : subscriptionHandlers c2 = subscriptionHandlers c1).
  { destruct Hs2 as [Hs2|(tok & handler & cls & Hw & _)];
      [exact Hs2 | discriminate Hw]. }
  assert (Hpend2 : pendingResponses c2 !! token = None)
    by (rewrite Hp2; apply lookup_delete_eq).
  assert (Hnone2 : subscriptionHandlers c2 !! token = None)
    by (rewrite Hsub2, Hs1; apply lookup_delete_eq).
  assert (Hh2 : handler_calls (trace c2) = handler_calls (trace c)).
  { rewrite Htr2, Htr1, !handler_calls_app, (quiet_handler_calls evs Hq2).
    cbn. lia. }
  assert (Hu2' : unroutable_logs (trace c2) = unroutable_logs (trace c)).
  { rewrite Htr2, Htr1, !unroutable_logs_app,
      (quiet_unroutable_logs evs Hq2). cbn. lia. }
  pose proof (_messageHandler_not_pending msg items token c2 Hmsg Htok
                Hpend2) as Hrun3.
  cbv zeta in Hrun3. rewrite Hnone2 in Hrun3.
  eexists cr, c1, c2, _.
  split; [exact Hrem|].
  split; [rewrite Hsr; apply lookup_delete_eq|].
  split; [rewrite Hfr; reflexivity|].
  split; [unfold unsubscribe, bind at 1; rewrite Hrem; reflexivity|].
  split; [exact Hrun1|].
  split; [rewrite Hs1; apply lookup_delete_eq|].
  split; [exact Hw1|].
  split; [exact Hpend1|].
  split; [exact Hrun2|].
  split; [rewrite Htr2, !in_app_iff; right; left; right; left;
          reflexivity|].
  split; [exact Hpend2|].
  split; [exact Hnone2|].
  split; [exact Hh2|].
  split; [exact Hu2'|].
  split; [exact Hrun3|].
  cbn [add_events trace].
  rewrite handler_calls_app, unroutable_logs_app, Hh2, Hu2'. cbn.
  split; lia.
Qed.


(** *** The two tables over a whole run *)

Lemma tables_ok_same c c' :
  pendingResponses c' = pendingResponses c ->
  subscriptionHandlers c' = subscriptionHandlers c ->
  tables_ok c -> tables_ok c'.
Proof.
  intros Hp Hs [Hd Hk]. split.
  - intros t. rewrite Hp, Hs. apply Hd.
  - intros t d tok handler cls. rewrite Hp. apply Hk.
Qed.

Lemma tables_ok_pending t op c c' :
  pendingResponses c' =
    <[t := {| waiter := Some op |}]> (pendingResponses c) ->
  subscriptionHandlers c' = subscriptionHandlers c ->
  subscriptionHandlers c !! t = None ->
  (forall tok handler cls, op = subscribe_frame tok handler cls -> tok = t) ->
  tables_ok c -> tables_ok c'.
Proof.
  intros Hp Hs Hfree Hop [Hd Hk]. split.
  - intros t'. rewrite Hp, Hs. destruct (decide (t = t')) as [<-|Hne].
    + intros _. exact Hfree.
    + rewrite lookup_insert_ne by exact Hne. apply Hd.
  - intros t' d tok handler cls. rewrite Hp.
    destruct (decide (t = t')) as [<-|Hne].
    + rewrite lookup_insert_eq. intros [= <-]. cbn. intros [= ->].
      eapply Hop. reflexivity.
    + rewrite lookup_insert_ne by exact Hne. apply Hk.
Qed.

Lemma tables_ok_unsubscribed t c c' :
  (pendingResponses c' = pendingResponses c \/
   pendingResponses c' =
     <[t := {| waiter := Some unsubscribe_frame |}]> (pendingResponses c)) ->
  subscriptionHandlers c' = delete t (subscriptionHandlers c) ->
  tables_ok c -> tables_ok c'.
Proof.
  intros Hp Hs [Hd Hk]. split.
  - intros t' Hin. rewrite Hs.
    destruct (decide (t = t')) as [<-|Hne]; [apply lookup_delete_eq|].
    rewrite lookup_delete_ne by exact Hne. apply Hd.
    destruct Hp as [Hp|Hp]; rewrite Hp in Hin; [exact Hin|].
    rewrite lookup_insert_ne in Hin by exact Hne. exact Hin.
  - intros t' d tok handler cls.
    destruct Hp as [Hp|Hp]; rewrite Hp; [apply Hk|].
    destruct (decide (t = t')) as [<-|Hne].
    + rewrite lookup_insert_eq. intros [= <-]. discriminate.
    + rewrite lookup_insert_ne by exact Hne. apply Hk.
Qed.

Lemma tables_ok_resolved t d c c' :
  pendingResponses c !! t = Some d ->
  pendingResponses c' = delete t (pendingResponses c) ->
  (subscriptionHandlers c' = subscriptionHandlers c \/
   exists tok handler cls,
     waiter d = Some (subscribe_frame tok handler cls) /\
     subscriptionHandlers c' =
       <[tok := (handler, cls)]> (subscriptionHandlers c)) ->
  tables_ok c -> tables_ok c'.
Proof.
  intros Hpend Hp Hs [Hd Hk]. split.
  - intros t' Hin. rewrite Hp in Hin.
    destruct (decide (t = t')) as [<-|Hne].
    { rewrite lookup_delete_eq in Hin. destruct Hin as [? [=]]. }
    rewrite lookup_delete_ne in Hin by exact Hne.
    destruct Hs as [Hs|(tok & handler & cls & Hw & Hs)]; rewrite Hs.
    + apply Hd, Hin.
    + assert (tok = t) as -> by (eapply Hk; eassumption).
      rewrite lookup_insert_ne by exact Hne. apply Hd, Hin.
  - intros t' d' tok handler cls. rewrite Hp.
    destruct (decide (t = t')) as [<-|Hne].
    + rewrite lookup_delete_eq. discriminate.
    + rewrite lookup_delete_ne by exact Hne. apply Hk.
Qed.

(** What [_sendRequest] can do to the tables, connected or not. *)
Lemma _sendRequest_tables method resource parameters body token c :
  let o := _sendRequest method resource parameters body token c in
  subscriptionHandlers (final_state o) = subscriptionHandlers c /\
  ((returned o = Some (Some (token_used token c)) /\
    pendingResponses (final_state o) =
      <[token_used token c := {| waiter := None |}]> (pendingResponses c))
   \/
   ((returned o = Some None \/ returned o = None) /\
    pendingResponses (final_state o) = pendingResponses c)).
Proof.
  unfold _sendRequest, connected.
  destruct (PAWSProtocolFactory.connected (factory c)) eqn:Hconn;
    destruct (PAWSProtocolFactory.connection (factory c)) eqn:Hp;
    destruct token as [t|]; cbn [token_used];
    unfold bind, get_state, ret, raise, _generateToken, logging, emit,
      modify, on_factory, PAWSProtocolFactory.send, connected; cbn;
    rewrite ?Hconn; cbn; rewrite ?Hp; cbn;
    rewrite ?lookup_insert_eq; cbn; auto.
Qed.

Lemma resume_null_tables op c :
  pendingResponses (final_state (resume op JNull c)) = pendingResponses c /\
  subscriptionHandlers (final_state (resume op JNull c))
  = subscriptionHandlers c.
Proof.
  destruct (resume_effect op JNull c)
    as (c' & evs & Hrun & Hp & _ & _ & _ & _ & Hs).
  destruct op; try (rewrite Hrun; cbn; split;
    [exact Hp | destruct Hs as [Hs|(? & ? & ? & [=] & _)]; exact Hs]).
  split; reflexivity.
Qed.

(** A request followed by the [yield] on its deferred. *)
Lemma request_tables method resource parameters body token op c :
  let c' := final_state
              (bind (_sendRequest method resource parameters body token)
                    (await op) c) in
  subscriptionHandlers c' = subscriptionHandlers c /\
  (pendingResponses c' = pendingResponses c \/
   pendingResponses c' =
     <[token_used token c := {| waiter := Some op |}]> (pendingResponses c)).
Proof.
  cbv zeta. unfold bind.
  destruct (_sendRequest_tables method resource parameters body token c)
    as [Hs Hp]. cbv zeta in Hs, Hp.
  destruct (_sendRequest method resource parameters body token c)
    as [d c1|e c1]; cbn in Hs, Hp.
  - destruct Hp as [[[= ->] Hp]|[[[= ->]|[=]] Hp]].
    + cbn. rewrite Hp, insert_insert_eq. auto.
    + cbn [await]. destruct (resume_null_tables op c1) as [Hp' Hs'].
      rewrite Hp', Hs'. auto.
  - cbn. destruct Hp as [[[=] _]|[_ Hp]]. auto.
Qed.


(** What the message handler can do to the tables, whatever the
    message: nothing, or resolve one pending entry. *)
Lemma _messageHandler_tables msg c :
  let c' := final_state (_messageHandler msg c) in
  (pendingResponses c' = pendingResponses c /\
   subscriptionHandlers c' = subscriptionHandlers c) \/
  exists t d,
    pendingResponses c !! t = Some d /\
    pendingResponses c' = delete t (pendingResponses c) /\
    (subscriptionHandlers c' = subscriptionHandlers c \/
     exists tok handler cls,
       waiter d = Some (subscribe_frame tok handler cls) /\
       subscriptionHandlers c' =
         <[tok := (handler, cls)]> (subscriptionHandlers c)).
Proof.
  cbv zeta.
  destruct (json_loads msg) as [data|] eqn:Hmsg.
  2: { left. unfold _messageHandler, bind, logging, emit, modify.
       rewrite Hmsg. cbn. auto. }
  destruct data as [| | | | |items].
  1-5: left; unfold _messageHandler, bind, logging, emit, modify;
       rewrite Hmsg; cbn; auto.
  destruct (assoc "token" items) as [token|] eqn:Htok.
  2: { left. unfold _messageHandler, bind, logging, emit, modify.
       rewrite Hmsg. cbn. rewrite Htok. cbn. auto. }
  destruct token as [| | |t| |].
  4: { destruct (pendingResponses c !! t) as [d|] eqn:Hpend.
       - right. exists t, d.
         destruct (_messageHandler_pending msg items t d c Hmsg Htok Hpend)
           as (c' & evs & Hrun & Hp & _ & _ & _ & _ & Hs).
         rewrite Hrun. cbn. auto.
       - left.
         rewrite (_messageHandler_not_pending msg items t c Hmsg Htok
                    Hpend).
         cbv zeta.
         destruct (subscriptionHandlers c !! t) as [[handler cls]|];
           [destruct (assoc "body" items) as [[]|];
            try destruct (construct cls items0)|];
           cbn; auto. }
  all: left; unfold _messageHandler, bind, logging, emit, modify;
    rewrite Hmsg; cbn; rewrite Htok; cbn; auto.
Qed.

Lemma on_factory_tables {A} (m : M PAWSProtocolFactory.factory A) c :
  pendingResponses (final_state (on_factory m c)) = pendingResponses c /\
  subscriptionHandlers (final_state (on_factory m c))
  = subscriptionHandlers c.
Proof.
  unfold on_factory. destruct (m (factory c)); cbn; auto.
Qed.

Lemma perform_tables_ok a c :
  (generates_token a = true -> unused_token c) ->
  tables_ok c -> tables_ok (final_state (perform a c)).
Proof.
  intros Hfresh Hok.
  assert (Hreq : forall method resource parameters body op,
             (forall tok handler cls,
                 op <> subscribe_frame tok handler cls) ->
             unused_token c ->
             tables_ok (final_state
               (bind (_sendRequest method resource parameters body None)
                     (await op) c))).
  { intros method resource parameters body op Hop [_ Hfree].
    destruct (request_tables method resource parameters body None op c)
      as [Hs [Hp|Hp]]; cbv zeta in Hs, Hp.
    - eapply tables_ok_same; eassumption.
    - eapply tables_ok_pending; try eassumption.
      intros tok handler cls ->. exfalso. eapply Hop. reflexivity. }
  destruct a; cbn [perform generates_token] in *.
  1-9: apply Hreq; [intros; discriminate | auto].
  - (* subscribe *)
    destruct (Hfresh eq_refl) as [_ Hfree].
    unfold subscribe. unfold bind at 1, _generateToken.
    match goal with
    | |- context [bind _ _ ?c0] => set (cg := c0)
    end.
    match goal with
    | |- context [await ?op0] => set (op := op0)
    end.
    destruct (request_tables "subscribe" resource JNull JNull
                (Some (uuid1 (uuid1_calls c))) op cg)
      as [Hs [Hp|Hp]]; cbv zeta in Hs, Hp.
    + eapply tables_ok_same; eassumption.
    + eapply tables_ok_pending; try eassumption.
      unfold op. intros tok handler cls [= -> _ _]. reflexivity.
  - (* unsubscribe *)
    unfold unsubscribe. unfold bind at 1.
    destruct (remove_subscription_effect token c)
      as (cr & Hrem & Hsr & Hpr & _ & _).
    rewrite Hrem.
    destruct (request_tables "unsubscribe" resource JNull JNull
                (Some token) unsubscribe_frame cr)
      as [Hs Hp]; cbv zeta in Hs, Hp.
    eapply tables_ok_unsubscribed; [|rewrite <- Hsr; exact Hs|exact Hok].
    rewrite <- Hpr. exact Hp.
  - (* connect *)
    unfold connect, bind.
    pose proof (on_factory_tables PAWSProtocolFactory.connect c) as [Hp Hs].
    destruct (on_factory PAWSProtocolFactory.connect c); cbn in *;
      eapply tables_ok_same; eassumption.
  - (* disconnect *)
    unfold disconnect, bind.
    pose proof (on_factory_tables PAWSProtocolFactory.disconnect c)
      as [Hp Hs].
    destruct (on_factory PAWSProtocolFactory.disconnect c); cbn in *;
      eapply tables_ok_same; eassumption.
  - (* a message *)
    destruct (_messageHandler_tables msg c)
      as [[Hp Hs]|(t & d & Hpend & Hp & Hs)]; cbv zeta in *.
    + eapply tables_ok_same; eassumption.
    + eapply tables_ok_resolved; eassumption.
  - destruct (on_factory_tables
                (PAWSProtocolFactory.registerConnection proto) c).
    eapply tables_ok_same; eassumption.
  - destruct (on_factory_tables PAWSProtocolFactory.clientConnectionLost c).
    eapply tables_ok_same; eassumption.
  - destruct (on_factory_tables
                PAWSProtocolFactory.clientConnectionFailed c).
    eapply tables_ok_same; eassumption.
Qed.

Lemma reachable_tables_ok c : reachable c -> tables_ok c.
Proof.
  induction 1 as [api_key feed_id|c a _ IH Hfresh].
  - split.
    + intros t [d Hd]. cbn in Hd. rewrite lookup_empty in Hd.
      discriminate.
    + intros t d tok handler cls Hd. cbn in Hd.
      rewrite lookup_empty in Hd. discriminate.
  - apply perform_tables_ok; assumption.
Qed.


(** C4.  In every state the client gets into between two actions no
    token is in both tables.  A [subscribe] leaves its token pending
    and not yet subscribed; while the acknowledgement fires the
    pending deferred the token is in both tables; when the message
    handler is done with the acknowledgement the token has left
    [pendingResponses] and is bound in [subscriptionHandlers]. *)
Theorem subscribe_token_changes_table c :
  reachable c ->
  (forall t, ~ (is_Some (pendingResponses c !! t) /\
                is_Some (subscriptionHandlers c !! t))) /\
  (forall resource handler msg items st,
      is_online c -> unused_token c ->
      json_loads msg = Some (JDict items) ->
      assoc "token" items = Some (JStr (uuid1 (uuid1_calls c))) ->
      assoc "status" items = Some st ->
      let t := uuid1 (uuid1_calls c) in
      let cls := if is_substring "datastreams" resource then Datastream
                 else Environment in
      let d := {| waiter := Some (subscribe_frame t handler cls) |} in
      exists c1 cw c2,
        subscribe resource handler c = Return tt c1 /\
        reachable c1 /\
        pendingResponses c1 !! t = Some d /\
        subscriptionHandlers c1 !! t = None /\
        callback t d (JDict items)
          (add_events [Log DEBUG (Received msg)] c1) = Return tt cw /\
        is_Some (pendingResponses cw !! t) /\
        is_Some (subscriptionHandlers cw !! t) /\
        del_pendingResponse t cw = Return tt c2 /\
        _messageHandler msg c1 = Return tt c2 /\
        reachable c2 /\
        pendingResponses c2 !! t = None /\
        subscriptionHandlers c2 !! t = Some (handler, cls)).
Proof.
  intros Hreach. split.
  - intros t [Hp Hs]. destruct (reachable_tables_ok c Hreach) as [Hd _].
    rewrite (Hd t Hp) in Hs. destruct Hs as [? [=]].
  - intros resource handler msg items st Hon Hfresh Hmsg Htok Hst t cls d.
    destruct (subscribe_online resource handler c Hon)
      as (c1 & Hrun1 & Hp1 & Hs1 & Hon1 & Hu1 & Htr1 & Hw1).
    fold t cls in Hp1. fold d in Hp1.
    assert (Hpend : pendingResponses c1 !! t = Some d)
      by (rewrite Hp1; apply lookup_insert_eq).
    assert (Hreach1 : reachable c1).
    { replace c1 with (final_state
                         (perform (do_subscribe resource handler) c))
        by (cbn [perform]; rewrite Hrun1; reflexivity).
      apply reachable_step; [exact Hreach | intros _; exact Hfresh]. }
    set (c0 := add_events [Log DEBUG (Received msg)] c1).
    destruct (callback_subscribe t handler cls items st c0 Hst)
      as (cw & Hcb & Hpw & Hsw & Hfw & Huw & Htrw).
    fold d in Hcb.
    assert (Hpendw : pendingResponses cw !! t = Some d)
      by (rewrite Hpw; exact Hpend).
    assert (Hdel : exists c2, del_pendingResponse t cw = Return tt c2 /\
               pendingResponses c2 = delete t (pendingResponses cw) /\
               subscriptionHandlers c2 = subscriptionHandlers cw).
    { unfold del_pendingResponse, bind, get_state, modify.
      rewrite Hpendw. eexists. split; [reflexivity|]. cbn. auto. }
    destruct Hdel as (c2 & Hdel & Hp2 & Hs2).
    assert (Hrun2 : _messageHandler msg c1 = Return tt c2).
    { unfold _messageHandler, bind at 1, logging, emit, modify.
      rewrite Hmsg. unfold bind at 1, ret at 1.
      unfold bind at 1, subscript. rewrite Htok. unfold ret at 1.
      unfold bind at 1, as_key, ret at 1.
      unfold bind at 1, get_state at 1.
      cbn [pendingResponses mbind option_bind].
      fold t. rewrite Hpend. cbn [fmap option_fmap option_map].
      unfold bind at 1.
      change (callback t d (JDict items) c0 = Return tt cw) in Hcb.
      unfold c0, add_events in Hcb. rewrite Hcb. exact Hdel. }
    exists c1, cw, c2.
    split; [exact Hrun1|]. split; [exact Hreach1|].
    split; [exact Hpend|].
    split; [rewrite Hs1; apply Hfresh|].
    split; [exact Hcb|].
    split; [eexists; exact Hpendw|].
    split; [rewrite Hsw, lookup_insert_eq; eexists; reflexivity|].
    split; [exact Hdel|]. split; [exact Hrun2|].
    split.
    { replace c2 with (final_state (perform (message_arrives msg) c1))
        by (cbn [perform]; rewrite Hrun2; reflexivity).
      apply reachable_step; [exact Hreach1 | intros [=]]. }
    split; [rewrite Hp2; apply lookup_delete_eq|].
    rewrite Hs2, Hsw. apply lookup_insert_eq.
Qed.

End WithRuntime.

(** The theorem on a client that never connected. *)
Lemma _sendRequest_offline_witness :
  exists c',
    @_sendRequest Sample.runtime "get" "/feeds" JNull JNull None
      Sample.offline = Return None c' /\
    pendingResponses c' = pendingResponses Sample.offline /\
    subscriptionHandlers c' = subscriptionHandlers Sample.offline /\
    factory c' = factory Sample.offline /\
    writes (factory c') = writes (factory Sample.offline) /\
    trace c' =
      trace Sample.offline ++
        [Log DEBUG (AboutToSend
           (build_message "get" "/feeds" (headers Sample.offline) JNull
              JNull (@token_used Sample.runtime None Sample.offline)));
         Log ERROR SendFailed].
Proof.
  apply (@_sendRequest_offline Sample.runtime). reflexivity.
Defined.

(** The dispatch theorem on the three branches: the acknowledgement
    of a [subscribe] that is pending, a push for the subscription it
    made, and a message whose token nobody issued. *)
Lemma _messageHandler_dispatch_witness :
  (pendingResponses Sample.subscribing !! Sample.nth_token 0
   = Some {| waiter := Some (subscribe_frame (Sample.nth_token 0) 7
                               Environment) |} /\
   @_messageHandler Sample.runtime "ack" Sample.subscribing
   = Return tt
       (set_pendingResponses
          (delete (Sample.nth_token 0)
             (pendingResponses Sample.subscribing))
          (add_events
             [Finished (subscribe_frame (Sample.nth_token 0) 7 Environment)
                (Success (VTokenStatus (Sample.nth_token 0) true))]
             (set_subscriptionHandlers
                (<[Sample.nth_token 0 := (7, Environment)]>
                   (subscriptionHandlers Sample.subscribing))
                (add_events
                   [Callback (Sample.nth_token 0)
                      (Sample.message (Sample.nth_token 0) 200)]
                   (add_events [Log DEBUG (Received "ack")]
                      Sample.subscribing)))))) /\
  (pendingResponses Sample.subscribed !! Sample.nth_token 0 = None /\
   subscriptionHandlers Sample.subscribed !! Sample.nth_token 0
   = Some (7, Environment) /\
   @_messageHandler Sample.runtime "push" Sample.subscribed
   = Return tt
       (add_events
          [Log DEBUG (Received "push");
           Handler 7 {| ds_kind := Environment;
                        ds_content := JDict [("id", JStr "0")] |}]
          Sample.subscribed)) /\
  (pendingResponses Sample.subscribed !! "nobody" = None /\
   subscriptionHandlers Sample.subscribed !! "nobody" = None /\
   @_messageHandler Sample.runtime "stray" Sample.subscribed
   = Return tt
       (add_events
          [Log DEBUG (Received "stray");
           Log ERROR (Unrecognised (JStr "nobody"));
           Log ERROR (PendingTokens
                        (elements (dom (pendingResponses Sample.subscribed))));
           Log ERROR (SubscriptionTokens
                        (elements
                           (dom (subscriptionHandlers Sample.subscribed))));
           Log ERROR (NoHandler (Sample.message "nobody" 200))]
          Sample.subscribed)).
Proof.
  assert (Hack : pendingResponses Sample.subscribing !! Sample.nth_token 0
                 = Some {| waiter := Some (subscribe_frame
                                            (Sample.nth_token 0) 7
                                            Environment) |})
    by reflexivity.
  assert (Hpush : pendingResponses Sample.subscribed !! Sample.nth_token 0
                  = None) by reflexivity.
  assert (Hsub : subscriptionHandlers Sample.subscribed
                   !! Sample.nth_token 0 = Some (7, Environment))
    by reflexivity.
  assert (Hstray : pendingResponses Sample.subscribed !! "nobody" = None)
    by reflexivity.
  assert (Hnone : subscriptionHandlers Sample.subscribed !! "nobody" = None)
    by reflexivity.
  split; [|split].
  - split; [exact Hack|].
    pose proof (@_messageHandler_dispatch Sample.runtime "ack"
                  (Sample.fields (Sample.nth_token 0) 200)
                  (Sample.nth_token 0) Sample.subscribing
                  eq_refl eq_refl) as Hd.
    rewrite Hack in Hd. exact (proj2 (proj2 (proj2 Hd))).
  - split; [exact Hpush|]. split; [exact Hsub|].
    pose proof (@_messageHandler_dispatch Sample.runtime "push"
                  (Sample.fields (Sample.nth_token 0) 200)
                  (Sample.nth_token 0) Sample.subscribed
                  eq_refl eq_refl) as Hd.
    rewrite Hpush in Hd. destruct Hd as (_ & _ & Hd).
    rewrite Hsub in Hd. exact Hd.
  - split; [exact Hstray|]. split; [exact Hnone|].
    pose proof (@_messageHandler_dispatch Sample.runtime "stray"
                  (Sample.fields "nobody" 200) "nobody" Sample.subscribed
                  eq_refl eq_refl) as Hd.
    rewrite Hstray in Hd. destruct Hd as (_ & _ & Hd).
    rewrite Hnone in Hd. exact Hd.
Defined.

(** C6 as stated fails: a refused acknowledgement (status 404) still
    leaves the handler registered under the token. *)
Lemma subscribe_refused_still_registers :
  ~ (is_Some (subscriptionHandlers Sample.refused !! Sample.nth_token 0)
     <-> eq_int (JNum 404) 200 = true).
Proof.
  intros [Hreg _].
  assert (Hno : eq_int (JNum 404) 200 = true).
  { apply Hreg. exists (7, Environment). vm_compute. reflexivity. }
  discriminate Hno.
Qed.

(** The amended C6 on the sample run with the refused
    acknowledgement. *)
Lemma subscribe_registers_on_acknowledgement_witness :
  exists c1 c2,
    @subscribe Sample.runtime "/feeds/1" 7 Sample.online = Return tt c1 /\
    subscriptionHandlers c1 = subscriptionHandlers Sample.online /\
    @_messageHandler Sample.runtime "refused" c1 = Return tt c2 /\
    subscriptionHandlers c2 =
      <[Sample.nth_token 0 := (7, Environment)]>
        (subscriptionHandlers Sample.online) /\
    In (Finished (subscribe_frame (Sample.nth_token 0) 7 Environment)
          (Success (VTokenStatus (Sample.nth_token 0) false)))
       (trace c2).
Proof.
  apply (@subscribe_registers_on_acknowledgement Sample.runtime
           "/feeds/1" 7 Sample.online "refused"
           (Sample.fields (Sample.nth_token 0) 404) (JNum 404)).
  - split; [reflexivity | eexists; reflexivity].
  - reflexivity.
  - reflexivity.
  - reflexivity.
Defined.

(** C3 as stated fails: on the sample run the push message that
    follows [unsubscribe] is taken for the acknowledgement of the
    unsubscribe request, and nothing is reported as unroutable. *)
Lemma unsubscribe_push_not_unroutable :
  ~ (handler_calls (trace Sample.pushed)
     = handler_calls (trace Sample.unsubscribing) /\
     unroutable_logs (trace Sample.pushed)
     = S (unroutable_logs (trace Sample.unsubscribing))).
Proof. intros [_ Hlog]. vm_compute in Hlog. discriminate Hlog. Qed.

(** The amended C3 on the sample run. *)
Lemma unsubscribe_then_push_witness :
  exists c2,
    @_messageHandler Sample.runtime "push" Sample.unsubscribing
    = Return tt c2 /\
    handler_calls (trace c2) = handler_calls (trace Sample.subscribed) /\
    unroutable_logs (trace c2) = unroutable_logs (trace Sample.subscribed).
Proof.
  destruct (@unsubscribe_then_push Sample.runtime "/feeds/1"
              (Sample.nth_token 0) Sample.subscribed "push"
              (Sample.fields (Sample.nth_token 0) 200)
              (conj eq_refl (ex_intro _ 0 eq_refl)) eq_refl eq_refl)
    as (cr & c1 & c2 & c3 & _ & _ & _ & _ & Hrun1 & _ & _ & _ & Hrun2
        & _ & _ & _ & Hh & Hu & _).
  exists c2. split; [|split; assumption].
  unfold Sample.unsubscribing. rewrite Hrun1. exact Hrun2.
Defined.

(** C4 on the sample run: the online client is reachable, and the
    accepted acknowledgement moves the first token from
    [pendingResponses] to [subscriptionHandlers]. *)
Lemma subscribe_token_changes_table_witness :
  pendingResponses Sample.subscribed !! Sample.nth_token 0 = None /\
  subscriptionHandlers Sample.subscribed !! Sample.nth_token 0
  = Some (7, Environment).
Proof.
  assert (Hreach : @reachable Sample.runtime Sample.online).
  { exact (@reachable_step Sample.runtime _ (connection_made 0)
             (@reachable_init Sample.runtime (JStr "key") JNull)
             (fun Hgen => False_ind _ (Bool.diff_false_true Hgen))). }
  destruct (proj2 (@subscribe_token_changes_table Sample.runtime
                     Sample.online Hreach)
              "/feeds/1" 7 "ack" (Sample.fields (Sample.nth_token 0) 200)
              (JNum 200)
              (conj eq_refl (ex_intro _ 0 eq_refl))
              (conj eq_refl eq_refl) eq_refl eq_refl eq_refl)
    as (c1 & cw & c2 & Hrun1 & _ & _ & _ & _ & _ & _ & _ & Hrun2 & _
        & Hp & Hs).
  unfold Sample.subscribed, Sample.subscribing.
  rewrite Hrun1. cbn [final_state]. rewrite Hrun2. cbn [final_state].
  split; [exact Hp | exact Hs].
Defined.
End PAWSClientFacts.

(** ** The connection factory *)

Module PAWSProtocolFactoryFacts.
Import PAWSProtocolFactory.

(** [connect] decides on [self.connection] alone. *)
Lemma connect_cases f :
  connect f =
    match connection f with
    | None =>
        Return (Pending (next_object f))
          {| connection := None; connected := connected f;
             _connectDeferred := Some (next_object f);
             _disconnectDeferred := _disconnectDeferred f;
             continueTrying := continueTrying f;
             next_object := S (next_object f);
             trace := trace f ++ [ConnectTCP] |}
    | Some _ =>
        Return (Succeed true)
          {| connection := connection f; connected := connected f;
             _connectDeferred := _connectDeferred f;
             _disconnectDeferred := _disconnectDeferred f;
             continueTrying := continueTrying f;
             next_object := next_object f;
             trace := trace f ++
               [Log WARNING "Already connected, ignoring connect request"] |}
    end.
Proof.
  unfold connect, bind, get_state.
  destruct (connection f) eqn:Hc; cbn; rewrite ?Hc; reflexivity.
Qed.

(** Losing the connection clears [connected] and keeps
    [self.connection]. *)
Lemma clientConnectionLost_keeps_connection f :
  exists f',
    clientConnectionLost f = Return tt f' /\
    connection f' = connection f /\
    connected f' = false /\
    continueTrying f' = continueTrying f.
Proof.
  unfold clientConnectionLost, _connectionStateHandler, reconnecting_retry,
    bind, get_state, emit, modify, set_connected, set_connectDeferred,
    set_disconnectDeferred, ret.
  cbn.
  destruct (_connectDeferred f); destruct (_disconnectDeferred f); cbn;
    destruct (continueTrying f) eqn:Ht; cbn;
    (eexists; split; [reflexivity|]); cbn; auto.
Qed.

(** C8, where the code departs from it.  Once a connection has been
    registered, [connect] after the loss of that connection, with
    [connected] false, writes a warning and hands back an
    already-successful deferred: no TCP connection is opened.  The same
    holds when the loss follows an explicit [disconnect], after which
    the factory does not retry on its own either.  On a factory that
    never had a connection [connect] does open one and hands back a
    deferred that is still to fire. *)
Theorem connect_after_connection_lost f proto :
  let f1 := final_state (registerConnection proto f) in
  let lost := final_state (clientConnectionLost f1) in
  let closed := final_state
                  (clientConnectionLost (final_state (disconnect f1))) in
  (connected lost = false /\
   returned (connect lost) = Some (Succeed true) /\
   trace (final_state (connect lost)) =
     trace lost ++
       [Log WARNING "Already connected, ignoring connect request"]) /\
  (connected closed = false /\ continueTrying closed = false /\
   returned (connect closed) = Some (Succeed true) /\
   trace (final_state (connect closed)) =
     trace closed ++
       [Log WARNING "Already connected, ignoring connect request"]) /\
  (returned (connect init) = Some (Pending 0) /\
   trace (final_state (connect init)) = [ConnectTCP]).
Proof.
  cbv zeta.
  assert (Hreg : exists f1, registerConnection proto f = Return tt f1 /\
                            connection f1 = Some proto).
  { unfold registerConnection, _connectionStateHandler, bind, get_state,
      emit, modify, set_connection, set_connected, set_connectDeferred,
      set_disconnectDeferred, ret. cbn.
    destruct (_connectDeferred f); destruct (_disconnectDeferred f); cbn;
      (eexists; split; [reflexivity|]); reflexivity. }
  destruct Hreg as (f1 & -> & Hc1). cbn [final_state].
  split; [|split; [|split; reflexivity]].
  - destruct (clientConnectionLost_keeps_connection f1)
      as (f2 & -> & Hc2 & Hcd2 & _). cbn [final_state].
    rewrite connect_cases, Hc2, Hc1. cbn. auto.
  - assert (Hdis : exists fd, disconnect f1 = Return (Pending (next_object f1)) fd /\
                              connection fd = Some proto /\
                              continueTrying fd = false).
    { unfold disconnect, bind, get_state. rewrite Hc1.
      unfold emit, modify, set_continueTrying, new_object,
        set_disconnectDeferred, ret. cbn.
      eexists. split; [reflexivity|]. cbn. auto. }
    destruct Hdis as (fd & -> & Hcd & Htd). cbn [final_state].
    destruct (clientConnectionLost_keeps_connection fd)
      as (f2 & -> & Hc2 & Hcd2 & Ht2). cbn [final_state].
    rewrite connect_cases, Hc2, Hcd. cbn. rewrite Ht2, Htd. auto.
Qed.

End PAWSProtocolFactoryFacts.

(** ** The HTTP client *)

Module HTTPClientFacts.
Import HTTPClient.

Ltac unfold_http :=
  unfold bind, ret, raise, get_state, modify, logging, emit, item,
    del_item, set_item, callback, cancel, add_ignore_cancelled_error,
    lift in *.

Ltac simpl_state :=
  cbn [deferreds set_pendingTimeouts set_deferreds set_pendingRequests
       set_pendingResponses pendingTimeouts pendingRequests
       pendingResponses trace next_object uuid4_calls add_events].

Lemma item_some {V} (tbl : client -> gmap string V) key v c :
  tbl c !! key = Some v -> item tbl key c = Return v c.
Proof. intros Hk. unfold item, bind, get_state. rewrite Hk. reflexivity. Qed.

Lemma del_item_some {V} (tbl : client -> gmap string V) set key v c :
  tbl c !! key = Some v ->
  del_item tbl set key c = Return tt (set (delete key (tbl c)) c).
Proof.
  intros Hk. unfold del_item, bind. rewrite (item_some tbl key v c Hk).
  reflexivity.
Qed.

Lemma callback_unfired d r c :
  state_of c d = Unfired ->
  callback d r c = Return tt (set_deferreds (<[d := Fired r]> (deferreds c)) c).
Proof.
  intros Hd. unfold callback, bind, get_state. rewrite Hd. reflexivity.
Qed.

(** What the fired-timeout handler does to a request whose three
    entries are in place and whose caller has not been answered. *)
Lemma _handle_request_timeout_effect request_id url c t request_d
    response_d :
  pendingTimeouts c !! request_id = Some t ->
  pendingRequests c !! request_id = Some request_d ->
  pendingResponses c !! request_id = Some response_d ->
  state_of c response_d = Unfired ->
  request_d <> response_d ->
  exists c',
    _handle_request_timeout request_id url c = Return tt c' /\
    pendingTimeouts c' = delete request_id (pendingTimeouts c) /\
    pendingRequests c' = pendingRequests c /\
    pendingResponses c' = pendingResponses c /\
    state_of c' response_d = Fired RNone /\
    match state_of c request_d with
    | Unfired =>
        state_of c' request_d = Fired RNone /\
        trace c' = trace c ++ [Log ERROR (RequestTimeout url);
                               CancelOperation request_d]
    | Fired (RFailure CancelledError) =>
        state_of c' request_d = Fired RNone /\
        trace c' = trace c ++ [Log ERROR (RequestTimeout url)]
    | Fired r =>
        state_of c' request_d = Fired r /\
        trace c' = trace c ++ [Log ERROR (RequestTimeout url)]
    end.
Proof.
  intros Ht Hr Hresp Hun Hne.
  unfold _handle_request_timeout.
  unfold bind at 1, logging, emit, modify.
  unfold bind at 1. erewrite del_item_some by (cbn; exact Ht).
  unfold bind at 1. erewrite item_some by (cbn; exact Hr).
  unfold state_of in *.
  unfold bind at 1, add_ignore_cancelled_error, bind at 1, get_state,
    state_of. simpl_state.
  destruct (deferreds c !!! request_d) as [|r] eqn:Hreq.
  - unfold ret at 1, bind at 1, cancel, bind at 1, get_state, state_of.
    simpl_state. rewrite Hreq.
    unfold bind at 1, emit, modify. cbn.
    unfold bind. erewrite item_some by (cbn; exact Hresp).
    erewrite callback_unfired
      by (unfold state_of; cbn;
          rewrite lookup_total_insert_ne by exact Hne; exact Hun).
    eexists. split; [reflexivity|]. cbn.
    rewrite lookup_total_insert_eq.
    rewrite lookup_total_insert_ne by congruence.
    rewrite lookup_total_insert_eq. rewrite <- app_assoc. auto 10.
  - assert (Hcase :
        forall r', (match r with
                    | RFailure CancelledError => r' = RNone
                    | _ => r' = r
                    end) ->
          exists c',
            (cancel request_d ;;;
             response_d0 <- item pendingResponses request_id ;;
             callback response_d0 RNone)%py
              (set_deferreds (<[request_d := Fired r']> (deferreds c))
                 (set_pendingTimeouts (delete request_id (pendingTimeouts c))
                    (add_events [Log ERROR (RequestTimeout url)] c)))
            = Return tt c' /\
            pendingTimeouts c' = delete request_id (pendingTimeouts c) /\
            pendingRequests c' = pendingRequests c /\
            pendingResponses c' = pendingResponses c /\
            deferreds c' !!! response_d = Fired RNone /\
            deferreds c' !!! request_d = Fired r' /\
            trace c' = trace c ++ [Log ERROR (RequestTimeout url)]).
    { intros r' _. unfold bind at 1, cancel, bind at 1, get_state, state_of.
      simpl_state. rewrite lookup_total_insert_eq.
      unfold ret at 1, bind.
      erewrite item_some by (cbn; exact Hresp).
      erewrite callback_unfired
        by (unfold state_of; cbn;
            rewrite lookup_total_insert_ne by exact Hne; exact Hun).
      eexists. split; [reflexivity|]. cbn.
      rewrite lookup_total_insert_eq.
      rewrite lookup_total_insert_ne by congruence.
      rewrite lookup_total_insert_eq. auto 10. }
    assert (Hid : <[request_d := Fired r]> (deferreds c) = deferreds c).
    { apply map_eq. intros d. destruct (decide (request_d = d)) as [<-|Hd].
      - rewrite lookup_insert_eq.
        rewrite lookup_total_alt in Hreq.
        destruct (deferreds c !! request_d) as [x|] eqn:Hx; cbn in Hreq;
          [congruence | discriminate]. 
      - rewrite lookup_insert_ne by exact Hd. reflexivity. }
    destruct r as [| |e]; [| |destruct e].
    all: try (destruct (Hcase _ eq_refl)
                as (c' & Hrun & H1 & H2 & H3 & H4 & H5 & H6);
              exists c'; split;
              [unfold ret at 1; rewrite <- Hrun; rewrite Hid; reflexivity
              |auto 10]).
    destruct (Hcase RNone eq_refl)
      as (c' & Hrun & H1 & H2 & H3 & H4 & H5 & H6).
    exists c'. split; [|auto 10].
    unfold modify at 1. rewrite <- Hrun. reflexivity.
Qed.

(** C1, as the code has it.  When the deadline of a request fires, the
    handler removes the entry of the request from [pendingTimeouts]
    and fires the caller's deferred with a plain [None], whatever has
    become of the request itself; a request that is still in flight is
    cancelled, the cancellation error being trapped. *)
Theorem _handle_request_timeout_resolves_none request_id url c t
    request_d response_d :
  pendingTimeouts c !! request_id = Some t ->
  pendingRequests c !! request_id = Some request_d ->
  pendingResponses c !! request_id = Some response_d ->
  state_of c response_d = Unfired ->
  request_d <> response_d ->
  exists c',
    _handle_request_timeout request_id url c = Return tt c' /\
    pendingTimeouts c' !! request_id = None /\
    state_of c' response_d = Fired RNone /\
    (state_of c request_d = Unfired ->
     state_of c' request_d = Fired RNone /\
     trace c' = trace c ++ [Log ERROR (RequestTimeout url);
                            CancelOperation request_d]).
Proof.
  intros Ht Hr Hresp Hun Hne.
  destruct (_handle_request_timeout_effect request_id url c t request_d
              response_d Ht Hr Hresp Hun Hne)
    as (c' & Hrun & Hto & _ & _ & Hcaller & Hreq).
  exists c'. split; [exact Hrun|].
  split; [rewrite Hto; apply lookup_delete_eq|].
  split; [exact Hcaller|].
  intros Hflight. rewrite Hflight in Hreq. exact Hreq.
Qed.

(** The theorem on the sample request in flight. *)
Lemma _handle_request_timeout_resolves_none_witness :
  exists c',
    _handle_request_timeout Sample.request_id Sample.url Sample.in_flight
    = Return tt c' /\
    pendingTimeouts c' !! Sample.request_id = None /\
    state_of c' 1 = Fired RNone /\
    (state_of Sample.in_flight 0 = Unfired ->
     state_of c' 0 = Fired RNone /\
     trace c' = trace Sample.in_flight ++
                  [Log ERROR (RequestTimeout Sample.url);
                   CancelOperation 0]).
Proof.
  apply (_handle_request_timeout_resolves_none Sample.request_id Sample.url
           Sample.in_flight Armed 0 1).
  - reflexivity.
  - reflexivity.
  - reflexivity.
  - reflexivity.
  - discriminate.
Defined.

(** C1 as stated fails on the sample request: after the deadline the
    request is still in [pendingRequests] and in [pendingResponses],
    and the caller's deferred holds no failure. *)
Lemma timeout_leaves_entries_and_no_failure :
  ~ (pendingRequests Sample.timed_out !! Sample.request_id = None /\
     pendingResponses Sample.timed_out !! Sample.request_id = None /\
     pendingTimeouts Sample.timed_out !! Sample.request_id = None /\
     exists e, state_of Sample.timed_out 1 = Fired (RFailure e)).
Proof.
  intros (_ & _ & _ & e & Hfailed). vm_compute in Hfailed.
  discriminate Hfailed.
Qed.

(** A caller cannot tell a timeout from a failed connection: either
    way its deferred fires with [None] at the deadline. *)
Lemma timeout_same_as_connection_failure :
  state_of Sample.timed_out 1 = Fired RNone /\
  state_of Sample.failed_then_timed_out 1 = Fired RNone /\
  state_of Sample.failed_then_timed_out 0 = Fired (RFailure ConnectError).
Proof. vm_compute. auto. Qed.

(** What the response handler does to a request whose three entries
    are in place, with its timer armed and its caller not answered. *)
Lemma _handle_response_effect r responseBody request_id url c request_d
    response_d :
  pendingRequests c !! request_id = Some request_d ->
  pendingTimeouts c !! request_id = Some Armed ->
  pendingResponses c !! request_id = Some response_d ->
  state_of c response_d = Unfired ->
  response_d <> next_object c ->
  exists cy c',
    _handle_response_to_yield r request_id url c
    = Return (next_object c) cy /\
    pendingTimeouts cy !! request_id = Some Cancelled /\
    state_of cy response_d = Unfired /\
    _handle_response r responseBody request_id url c = Return tt c' /\
    pendingRequests c' = delete request_id (pendingRequests c) /\
    pendingResponses c' = delete request_id (pendingResponses c) /\
    pendingTimeouts c' = <[request_id := Cancelled]> (pendingTimeouts c) /\
    state_of c' response_d = Fired (RTuple r responseBody).
Proof.
  intros Hr Ht Hresp Hun Hne.
  assert (Hy : exists cy,
             _handle_response_to_yield r request_id url c
             = Return (next_object c) cy /\
             pendingRequests cy = delete request_id (pendingRequests c) /\
             pendingResponses cy = pendingResponses c /\
             pendingTimeouts cy =
               <[request_id := Cancelled]> (pendingTimeouts c) /\
             deferreds cy = <[next_object c := Unfired]> (deferreds c)).
  { unfold _handle_response_to_yield.
    unfold bind at 1. erewrite del_item_some by exact Hr.
    unfold bind at 1. erewrite item_some by (simpl_state; exact Ht).
    unfold bind at 1, lift, cancel_call, ret at 1.
    unfold bind at 1, set_item, modify.
    unfold _handleResponseHeader, bind, logging, emit, modify,
      new_deferred, ret. cbn.
    eexists. split; [reflexivity|]. cbn. auto. }
  destruct Hy as (cy & Hrun & Hpr & Hps & Hpt & Hdf).
  assert (Huny : state_of cy response_d = Unfired).
  { unfold state_of in *. rewrite Hdf.
    rewrite lookup_total_insert_ne by congruence. exact Hun. }
  assert (Hfin : state_of cy (next_object c) = Unfired).
  { unfold state_of. rewrite Hdf. apply lookup_total_insert_eq. }
  exists cy.
  unfold _handle_response. unfold bind at 1. rewrite Hrun.
  unfold bind at 1. rewrite (callback_unfired _ _ _ Hfin).
  unfold _handle_response_from_yield.
  unfold bind at 1.
  erewrite item_some by (simpl_state; rewrite Hps; exact Hresp).
  unfold bind at 1.
  erewrite del_item_some by (simpl_state; rewrite Hps; exact Hresp).
  erewrite callback_unfired.
  2: { unfold state_of in *. simpl_state.
       rewrite lookup_total_insert_ne by congruence. exact Huny. }
  eexists. split; [reflexivity|].
  split; [rewrite Hpt; apply lookup_insert_eq|].
  split; [exact Huny|].
  split; [reflexivity|].
  unfold state_of. cbn. rewrite Hpr, Hps, Hpt.
  rewrite lookup_total_insert_eq. auto.
Qed.

(** C9, where the code departs from it.  A response that arrives
    before the deadline cancels the timer before the caller is
    answered, and the request leaves [pendingRequests] and
    [pendingResponses]; but the handler never deletes the entry of the
    request in [pendingTimeouts], which still holds the cancelled
    timer afterwards. *)
Theorem _handle_response_keeps_timeout_entry r responseBody request_id url
    c request_d response_d :
  pendingRequests c !! request_id = Some request_d ->
  pendingTimeouts c !! request_id = Some Armed ->
  pendingResponses c !! request_id = Some response_d ->
  state_of c response_d = Unfired ->
  response_d <> next_object c ->
  exists cy c',
    _handle_response_to_yield r request_id url c
    = Return (next_object c) cy /\
    pendingTimeouts cy !! request_id = Some Cancelled /\
    state_of cy response_d = Unfired /\
    _handle_response r responseBody request_id url c = Return tt c' /\
    state_of c' response_d = Fired (RTuple r responseBody) /\
    pendingRequests c' !! request_id = None /\
    pendingResponses c' !! request_id = None /\
    pendingTimeouts c' !! request_id = Some Cancelled.
Proof.
  intros Hr Ht Hresp Hun Hne.
  destruct (_handle_response_effect r responseBody request_id url c
              request_d response_d Hr Ht Hresp Hun Hne)
    as (cy & c' & Hy & Hty & Huny & Hrun & Hpr & Hps & Hpt & Hfired).
  exists cy, c'. repeat (split; [assumption|]).
  rewrite Hpr, Hps, Hpt.
  rewrite !lookup_delete_eq, lookup_insert_eq. auto.
Qed.

(** The theorem on the sample request and an OK response. *)
Lemma _handle_response_keeps_timeout_entry_witness :
  pendingTimeouts Sample.answered !! Sample.request_id = Some Cancelled /\
  pendingRequests Sample.answered !! Sample.request_id = None /\
  pendingResponses Sample.answered !! Sample.request_id = None.
Proof.
  assert (Hne : 1 <> next_object Sample.in_flight).
  { vm_compute. discriminate. }
  destruct (_handle_response_keeps_timeout_entry Sample.ok_response "[]"
              Sample.request_id Sample.url Sample.in_flight 0 1
              eq_refl eq_refl eq_refl eq_refl Hne)
    as (cy & c' & _ & _ & _ & Hrun & _ & Hpr & Hps & Hpt).
  unfold Sample.answered. rewrite Hrun. cbn [final_state]. auto.
Defined.
End HTTPClientFacts.

(** ** Unexpected status codes, in both clients *)

Module StatusFacts.

(** C10, as the code has it.  In the HTTP client no operation raises
    on an unexpected status code: the thirteen operations that report
    the status (the updates, the deletes and [create_datapoints]) log
    an error and give [False], the reads, the lists and the creations
    that return a location log an error and give [None]; and of a
    creation response with status 201 only one without a Location
    value raises.  In the PAWS client a status other than 200 ends an
    update, a delete and an unsubscribe with a logged error and
    [False] and a subscribe with a logged error and a false response
    code beside the token, its handler registered all the same; the
    three reads do not look at the status, so that they log nothing
    and their outcome is that of the body; and a creation raises, after
    logging it, on any status other than 201, as it does on a 201
    response without a LOCATION header. *)
Theorem unexpected_status_outcomes `{Runtime} :
  (forall op r responseBody c,
      HTTPClient.code r <> HTTPClient.expected_status op ->
      HTTPClient.after_yield op (Some (r, responseBody)) c
      = Return (if HTTPClient.returns_status op then VBool false else VNone)
          (HTTPClient.add_events
             [HTTPClient.Log ERROR
                (if HTTPClient.returns_status op
                 then HTTPClient.UnexpectedResponse (HTTPClient.code r)
                        (HTTPClient.phrase r)
                 else HTTPClient.ProblemExpected
                        (HTTPClient.expected_status op)
                        (HTTPClient.code r))] c)) /\
  (forall op r responseBody c,
      HTTPClient.returns_location op = true ->
      HTTPClient.code r = 201%Z ->
      match HTTPClient.getRawHeaders r "Location" with
      | Some (location :: _) =>
          exists c',
            HTTPClient.after_yield op (Some (r, responseBody)) c
            = Return (VStr (HTTPClient.last_segment location)) c'
      | Some [] =>
          HTTPClient.after_yield op (Some (r, responseBody)) c
          = Raise (Exception "No content in response header 'Location' field")
              (HTTPClient.add_events
                 [HTTPClient.Log ERROR HTTPClient.NoLocationContent] c)
      | None =>
          HTTPClient.after_yield op (Some (r, responseBody)) c
          = Raise (Exception "No response header 'Location' field found")
              (HTTPClient.add_events
                 [HTTPClient.Log ERROR HTTPClient.NoLocationField] c)
      end) /\
  (forall op items st c,
      assoc "status" items = Some st ->
      eq_int st (if PAWSClient.returns_location op then 201 else 200)
      = false ->
      match op with
      | PAWSClient.subscribe_frame token subscriptionHandler
          dataStructureClass =>
          PAWSClient.after_yield op (JDict items) c
          = Return (VTokenStatus token false)
              (PAWSClient.set_subscriptionHandlers
                 (<[token := (subscriptionHandler, dataStructureClass)]>
                    (PAWSClient.subscriptionHandlers c))
                 (PAWSClient.add_events
                    [PAWSClient.Log ERROR (PAWSClient.Expected200 st)] c))
      | PAWSClient.list_feeds_frame =>
          PAWSClient.after_yield op (JDict items) c
          = match assoc "body" items with
            | None => Raise (KeyError "body") c
            | Some body =>
                match decode List_Feeds_Msg body with
                | inr d => Return (VStruct d) c
                | inl e => Raise e c
                end
            end
      | PAWSClient.read_feed_frame =>
          PAWSClient.after_yield op (JDict items) c
          = match assoc "body" items with
            | None => Raise (KeyError "body") c
            | Some body =>
                match decode View_Feed_Msg body with
                | inr d => Return (VStruct d) c
                | inl e => Raise e c
                end
            end
      | PAWSClient.read_datastream_frame =>
          PAWSClient.after_yield op (JDict items) c
          = match assoc "body" items with
            | None => Raise (KeyError "body") c
            | Some body =>
                match decode View_Datastream_Msg body with
                | inr d => Return (VStruct d) c
                | inl e => Raise e c
                end
            end
      | PAWSClient.create_feed_frame | PAWSClient.create_datastream_frame =>
          PAWSClient.after_yield op (JDict items) c
          = Raise
              (Exception
                 ("Unexpected response. Expected 201 but got => " +:+ str st))
              (PAWSClient.add_events
                 [PAWSClient.Log ERROR (PAWSClient.Expected201 st)] c)
      | _ =>
          PAWSClient.after_yield op (JDict items) c
          = Return (VBool false)
              (PAWSClient.add_events
                 [PAWSClient.Log ERROR (PAWSClient.Expected200 st)] c)
      end) /\
  (forall op items st hdrs c,
      PAWSClient.returns_location op = true ->
      assoc "status" items = Some st ->
      eq_int st 201 = true ->
      assoc "headers" items = Some (JDict hdrs) ->
      assoc "LOCATION" hdrs = None ->
      PAWSClient.after_yield op (JDict items) c
      = Raise (Exception "No response header 'Location' field found")
          (PAWSClient.add_events
             [PAWSClient.Log ERROR PAWSClient.NoLocationField] c)).
Proof.
  repeat split.
  - intros op r responseBody c Hcode.
    destruct op;
      cbn [HTTPClient.after_yield HTTPClient.returns_status
           HTTPClient.expected_status HTTPClient.returns_location] in *;
      apply Z.eqb_neq in Hcode;
      unfold HTTPClient.list_feeds_result, HTTPClient.read_feed_result,
        HTTPClient.read_datastream_result, HTTPClient.read_datapoint_result,
        HTTPClient.create_feed_result, HTTPClient.update_feed_result,
        HTTPClient.create_datapoints_result,
        HTTPClient._getResponseCodeStatusFromHeader, bind, ret,
        HTTPClient.logging, HTTPClient.emit, modify;
      rewrite Hcode; reflexivity.
  - intros op r responseBody c Hop Hcode.
    apply Z.eqb_eq in Hcode.
    assert (Hrun : HTTPClient.after_yield op (Some (r, responseBody)) c
                   = HTTPClient.create_feed_result (Some (r, responseBody)) c)
      by (destruct op; try discriminate Hop; reflexivity).
    rewrite Hrun.
    unfold HTTPClient.create_feed_result,
      HTTPClient._getLocationFromHeader, HTTPClient.hasHeader,
      HTTPClient.getRawHeaders, bind, ret, raise, HTTPClient.logging,
      HTTPClient.emit, modify.
    rewrite Hcode.
    destruct (assoc (HTTPClient.lower "Location") (HTTPClient._rawHeaders r))
      as [[|location more]|].
    + rewrite bool_decide_eq_true_2 by (eexists; reflexivity). reflexivity.
    + rewrite bool_decide_eq_true_2 by (eexists; reflexivity).
      destruct more; eexists; reflexivity.
    + rewrite bool_decide_eq_false_2 by (intros [x Hx]; discriminate Hx).
      reflexivity.
  - intros op items st c Hst Hne.
    destruct op; cbn [PAWSClient.after_yield PAWSClient.returns_location]
      in *;
      unfold PAWSClient._getResponseCodeStatusFromHeader,
        PAWSClient._getLocationFromHeader, PAWSClient._getResponseBody,
        PAWSClient._convertToCosmStructure,
        PAWSClient.register_subscription, PAWSClient.lift, subscript, bind,
        ret, raise, PAWSClient.logging, PAWSClient.emit, modify;
      rewrite ?Hst, ?Hne;
      try reflexivity;
      destruct (assoc "body" items) as [body|]; try reflexivity;
      destruct (decode _ body); reflexivity.
  - intros op items st hdrs c Hop Hst Heq Hh Hloc.
    destruct op; try discriminate Hop; cbn [PAWSClient.after_yield];
      unfold PAWSClient._getLocationFromHeader, subscript, has_key, bind,
        ret, raise, PAWSClient.logging, PAWSClient.emit, modify;
      rewrite Hst, Heq, Hh, Hloc; reflexivity.
Qed.

(** The theorem on sample responses: [create_datapoints] and
    [read_feed] refused with 404 and a creation told 201 without a
    location in the HTTP client; a creation, an update and a read
    refused with 404 and a creation told 201 without a location in
    the PAWS client. *)
Lemma unexpected_status_outcomes_witness :
  (@HTTPClient.after_yield Sample.runtime HTTPClient.create_datapoints
     (Some (Exchange.not_found_response, "")) HTTPClient.init
   = Return (VBool false)
       (HTTPClient.add_events
          [HTTPClient.Log ERROR (HTTPClient.UnexpectedResponse 404 "Not Found")]
          HTTPClient.init)) /\
  (@HTTPClient.after_yield Sample.runtime HTTPClient.read_feed
     (Some (Exchange.not_found_response, "")) HTTPClient.init
   = Return VNone
       (HTTPClient.add_events
          [HTTPClient.Log ERROR (HTTPClient.ProblemExpected 200 404)]
          HTTPClient.init)) /\
  (@HTTPClient.after_yield Sample.runtime HTTPClient.create_feed
     (Some (Exchange.created_nowhere_response, "")) HTTPClient.init
   = Raise (Exception "No response header 'Location' field found")
       (HTTPClient.add_events
          [HTTPClient.Log ERROR HTTPClient.NoLocationField]
          HTTPClient.init)) /\
  (@PAWSClient.after_yield Sample.runtime PAWSClient.create_feed_frame
     Sample.not_created Sample.offline
   = Raise (Exception "Unexpected response. Expected 201 but got => 404")
       (PAWSClient.add_events
          [PAWSClient.Log ERROR (PAWSClient.Expected201 (JNum 404))]
          Sample.offline)) /\
  (@PAWSClient.after_yield Sample.runtime PAWSClient.update_feed_frame
     Sample.not_created Sample.offline
   = Return (VBool false)
       (PAWSClient.add_events
          [PAWSClient.Log ERROR (PAWSClient.Expected200 (JNum 404))]
          Sample.offline)) /\
  (@PAWSClient.after_yield Sample.runtime PAWSClient.read_feed_frame
     Sample.not_created Sample.offline
   = Raise TypeError Sample.offline) /\
  (@PAWSClient.after_yield Sample.runtime PAWSClient.create_feed_frame
     Sample.created_nowhere Sample.offline
   = Raise (Exception "No response header 'Location' field found")
       (PAWSClient.add_events
          [PAWSClient.Log ERROR PAWSClient.NoLocationField] Sample.offline)).
Proof.
  pose proof (@unexpected_status_outcomes Sample.runtime)
    as (Hhttp & Hcreated & Hpaws & Hlocation).
  split; [|split; [|split; [|split; [|split; [|split]]]]].
  - assert (Hcode : HTTPClient.code Exchange.not_found_response
                   <> HTTPClient.expected_status HTTPClient.create_datapoints)
      by discriminate.
    exact (Hhttp HTTPClient.create_datapoints Exchange.not_found_response
             "" HTTPClient.init Hcode).
  - assert (Hcode : HTTPClient.code Exchange.not_found_response
                   <> HTTPClient.expected_status HTTPClient.read_feed)
      by discriminate.
    exact (Hhttp HTTPClient.read_feed Exchange.not_found_response ""
             HTTPClient.init Hcode).
  - exact (Hcreated HTTPClient.create_feed Exchange.created_nowhere_response
             "" HTTPClient.init eq_refl eq_refl).
  - exact (Hpaws PAWSClient.create_feed_frame
             [("token", JStr "t"); ("status", JNum 404);
              ("headers", JDict [("LOCATION", JStr "/feeds/1")]);
              ("body", JNull)]
             (JNum 404) Sample.offline eq_refl eq_refl).
  - exact (Hpaws PAWSClient.update_feed_frame
             [("token", JStr "t"); ("status", JNum 404);
              ("headers", JDict [("LOCATION", JStr "/feeds/1")]);
              ("body", JNull)]
             (JNum 404) Sample.offline eq_refl eq_refl).
  - exact (Hpaws PAWSClient.read_feed_frame
             [("token", JStr "t"); ("status", JNum 404);
              ("headers", JDict [("LOCATION", JStr "/feeds/1")]);
              ("body", JNull)]
             (JNum 404) Sample.offline eq_refl eq_refl).
  - eapply Hlocation; reflexivity.
Defined.

(** C10 as stated fails: a PAWS creation whose response has status 404
    and does carry a LOCATION header raises. *)
Lemma create_feed_raises_on_unexpected_status :
  ~ (exists v c',
        @PAWSClient.after_yield Sample.runtime PAWSClient.create_feed_frame
          Sample.not_created Sample.offline = Return v c').
Proof. intros (v & c' & Hrun). vm_compute in Hrun. discriminate Hrun. Qed.

End StatusFacts.

(** ** More on framing: chunk boundaries and a raising callback *)

Module FramingFacts.
Import PAWSProtocol PAWSProtocolFacts.

Lemma append_assoc (s t u : string) : (s +:+ t) +:+ u = s +:+ (t +:+ u).
Proof.
  induction s as [|a s IH]; [reflexivity|].
  change (String a ((s +:+ t) +:+ u) = String a (s +:+ (t +:+ u))).
  f_equal. exact IH.
Qed.

Lemma framed_append msgs rest t :
  framed msgs rest +:+ t = framed msgs (rest +:+ t).
Proof.
  induction msgs as [|m ms IH]; [reflexivity|].
  cbn [framed]. rewrite append_assoc.
  change (m +:+ String delimiter (framed ms rest +:+ t)
          = m +:+ String delimiter (framed ms (rest +:+ t))).
  rewrite IH. reflexivity.
Qed.

Lemma framed_framed msgs msgs' rest :
  framed msgs (framed msgs' rest) = framed (msgs ++ msgs') rest.
Proof.
  induction msgs as [|m ms IH]; [reflexivity|].
  cbn [framed app]. rewrite IH. reflexivity.
Qed.

(** [split] finds the one reading of a byte string as messages and a
    remainder. *)
Lemma split_of_framed msgs rest :
  Forall delimiter_free msgs -> delimiter_free rest ->
  removelast (split delimiter (framed msgs rest)) = msgs /\
  List.last (split delimiter (framed msgs rest)) EmptyString = rest.
Proof.
  intros Hm Hr. set (s := framed msgs rest).
  pose proof (split_not_nil delimiter s) as Hne.
  pose proof (split_delimiter_free s) as Hfree.
  apply (framed_unique _ _ msgs rest).
  - apply Forall_removelast. exact Hfree.
  - apply Forall_last; assumption.
  - exact Hm.
  - exact Hr.
  - apply split_framed.
Qed.

Lemma split_reading s :
  exists msgs rest,
    s = framed msgs rest /\ Forall delimiter_free msgs /\
    delimiter_free rest /\
    removelast (split delimiter s) = msgs /\
    List.last (split delimiter s) EmptyString = rest.
Proof.
  exists (removelast (split delimiter s)),
         (List.last (split delimiter s) EmptyString).
  pose proof (split_not_nil delimiter s) as Hne.
  pose proof (split_delimiter_free s) as Hfree.
  split; [symmetry; apply split_framed|].
  split; [apply Forall_removelast; exact Hfree|].
  split; [apply Forall_last; assumption|]. auto.
Qed.

(** With the reading of buffer-plus-chunk in hand, [dataReceived] is
    the delivery of that reading. *)
Lemma dataReceived_delivered {W} (mh : string -> M W unit) data
    (p : protocol W) msgs rest :
  buffer p +:+ data = framed msgs rest ->
  Forall delimiter_free msgs -> delimiter_free rest ->
  dataReceived mh data p = delivered mh msgs rest data p.
Proof.
  intros Hbuf Hm Hr.
  destruct (split_of_framed msgs rest Hm Hr) as [Hms Hrest].
  rewrite <- Hbuf in Hms, Hrest.
  unfold dataReceived, delivered, all_but_last. rewrite Hms.
  destruct (contains delimiter (buffer p +:+ data)) eqn:Hc.
  - destruct (for_msgs mh msgs (factory p)) as [[] w|e w]; [|reflexivity].
    unfold last_item.
    pose proof (split_not_nil delimiter (buffer p +:+ data)) as Hne.
    destruct (split delimiter (buffer p +:+ data)) as [|x xs] eqn:Hs;
      [congruence|].
    rewrite Hrest.
    pose proof (split_with_delimiter _ Hc) as Hne'. rewrite Hs, Hms in Hne'.
    destruct msgs; [congruence | reflexivity].
  - pose proof (split_no_delimiter _ Hc) as Hs. rewrite Hs in Hms, Hrest.
    cbn in Hms, Hrest. subst msgs rest. reflexivity.
Qed.

Lemma for_msgs_app {W} (mh : string -> M W unit) ms1 ms2 w :
  for_msgs mh (ms1 ++ ms2) w =
    match for_msgs mh ms1 w with
    | Return _ w1 => for_msgs mh ms2 w1
    | Raise e w1 => Raise e w1
    end.
Proof.
  revert w. induction ms1 as [|m ms IH]; intros w; [reflexivity|].
  cbn [for_msgs app]. unfold bind.
  destruct (mh m w) as [[] w'|e w']; [apply IH | reflexivity].
Qed.

(** X1.  Where the stream is cut into chunks does not matter: when a
    first chunk has been taken without an exception, taking a second
    one hands the callback what a single call on both chunks together
    would have handed it, with the same outcome and the same state
    behind the callback, and on success the same bytes stay buffered. *)
Theorem dataReceived_chunking {W} (mh : string -> M W unit) d1 d2
    (p p1 : protocol W) :
  dataReceived mh d1 p = Return tt p1 ->
  let two := dataReceived mh d2 p1 in
  let one := dataReceived mh (d1 +:+ d2) p in
  returned two = returned one /\
  factory (final_state two) = factory (final_state one) /\
  (returned one = Some tt ->
   buffer (final_state two) = buffer (final_state one)).
Proof.
  intros Hfirst.
  destruct (split_reading (buffer p +:+ d1))
    as (ms1 & r1 & Hb1 & Hm1 & Hr1 & _ & _).
  rewrite (dataReceived_delivered mh d1 p ms1 r1 Hb1 Hm1 Hr1) in Hfirst.
  unfold delivered in Hfirst.
  destruct (for_msgs mh ms1 (factory p)) as [[] w1|e w1] eqn:Hrun1;
    [|discriminate].
  injection Hfirst as <-. cbn [buffer factory].
  destruct (split_reading (r1 +:+ d2))
    as (ms2 & r2 & Hb2 & Hm2 & Hr2 & _ & _).
  assert (Hb : buffer p +:+ (d1 +:+ d2) = framed (ms1 ++ ms2) r2).
  { rewrite <- append_assoc, Hb1, framed_append, Hb2. apply framed_framed. }
  cbv zeta.
  erewrite (dataReceived_delivered mh d2 _ ms2 r2); [|exact Hb2|exact Hm2|exact Hr2].
  rewrite (dataReceived_delivered mh (d1 +:+ d2) p (ms1 ++ ms2) r2 Hb
             (proj2 (Forall_app _ _ _) (conj Hm1 Hm2)) Hr2).
  unfold delivered. cbn [buffer factory debug_log].
  rewrite for_msgs_app, Hrun1.
  destruct (for_msgs mh ms2 w1) as [[] w2|e w2]; cbn; repeat split; auto.
  discriminate.
Qed.

(** The theorem on the sample chunk cut after its first message. *)
Lemma dataReceived_chunking_witness :
  let p1 := {| buffer := EmptyString; debug_log := []; factory := [msg_a] |} in
  let two := dataReceived record_msg (msg_b +:+ nl +:+ part_c) p1 in
  let one := dataReceived record_msg ((msg_a +:+ nl) +:+ msg_b +:+ nl +:+ part_c)
               fresh_protocol in
  returned two = returned one /\
  factory (final_state two) = factory (final_state one) /\
  (returned one = Some tt ->
   buffer (final_state two) = buffer (final_state one)).
Proof.
  apply (dataReceived_chunking record_msg (msg_a +:+ nl)
           (msg_b +:+ nl +:+ part_c) fresh_protocol).
  reflexivity.
Defined.

(** X2.  An exception in the callback loses no bytes and skips no
    message: the whole of buffer-plus-chunk stays buffered, so the next
    call starts over from the first complete message of the failed
    call, handing the callback again those it had already handled. *)
Theorem dataReceived_after_raise {W} (mh : string -> M W unit) data data'
    (p p1 : protocol W) e :
  dataReceived mh data p = Raise e p1 ->
  buffer p1 = buffer p +:+ data /\
  exists msgs msgs' rest',
    msgs = all_but_last (split delimiter (buffer p +:+ data)) /\
    msgs <> [] /\
    dataReceived mh data' p1 = delivered mh (msgs ++ msgs') rest' data' p1.
Proof.
  intros Hraise.
  destruct (split_reading (buffer p +:+ data))
    as (ms & r & Hb & Hm & Hr & Hms & _).
  rewrite (dataReceived_delivered mh data p ms r Hb Hm Hr) in Hraise.
  unfold delivered in Hraise.
  destruct (for_msgs mh ms (factory p)) as [[] w|e' w] eqn:Hrun;
    [discriminate|].
  injection Hraise as -> <-. cbn [buffer]. split; [reflexivity|].
  destruct (split_reading (r +:+ data'))
    as (ms' & r' & Hb' & Hm' & Hr' & _ & _).
  exists ms, ms', r'. split; [symmetry; exact Hms|]. split.
  - intros ->. cbn in Hrun. discriminate.
  - apply dataReceived_delivered.
    + cbn [buffer]. rewrite Hb, framed_append, Hb'. apply framed_framed.
    + apply Forall_app. auto.
    + exact Hr'.
Qed.

End FramingFacts.

(** ** Messages the client cannot read *)

Module MalformedFacts.
Import PAWSProtocol PAWSProtocolFacts FramingFacts.
Import PAWSClient Trace PAWSClientFacts.

(** The theorem on framing after a raise, on a line the sample client
    cannot parse. *)
Lemma dataReceived_after_raise_witness :
  let p1 := final_state
              (@PAWSClient.dataReceived Sample.runtime Scenario.garbage_line
                 Scenario.idle) in
  buffer p1 = buffer Scenario.idle +:+ Scenario.garbage_line /\
  exists msgs msgs' rest',
    msgs = all_but_last
             (split delimiter
                (buffer Scenario.idle +:+ Scenario.garbage_line)) /\
    msgs <> [] /\
    PAWSProtocol.dataReceived (@_messageHandler Sample.runtime) "more" p1
    = delivered (@_messageHandler Sample.runtime) (msgs ++ msgs') rest'
        "more" p1.
Proof.
  apply (dataReceived_after_raise (@_messageHandler Sample.runtime)
           Scenario.garbage_line "more" Scenario.idle _ ValueError).
  reflexivity.
Defined.

Section WithRuntime.
Context `{Runtime}.

Lemma _messageHandler_unparsable msg c :
  json_loads msg = None ->
  _messageHandler msg c
  = Raise ValueError (add_events [Log DEBUG (Received msg)] c).
Proof.
  intros Hmsg. unfold _messageHandler, bind, logging, emit, modify, raise.
  rewrite Hmsg. reflexivity.
Qed.

Lemma for_msgs_unparsable m msgs c :
  In m msgs -> json_loads m = None ->
  returned (for_msgs _messageHandler msgs c) = None.
Proof.
  intros Hin Hmsg. revert c.
  induction msgs as [|x xs IH]; intros c; [destruct Hin|].
  cbn [for_msgs]. unfold bind.
  destruct (_messageHandler x c) as [[] c'|e c'] eqn:Hx; [|reflexivity].
  destruct Hin as [->|Hin]; [|apply IH; exact Hin].
  rewrite (_messageHandler_unparsable m c Hmsg) in Hx. discriminate.
Qed.

(** X3.  A complete message that does not parse as JSON wedges the
    protocol: [dataReceived] raises, everything stays buffered, and the
    message is still a complete message of the buffer whatever arrives
    next, so that every later call raises as well. *)
Theorem dataReceived_unparsable_message m data
    (p : protocol client) :
  In m (all_but_last (split delimiter (buffer p +:+ data))) ->
  json_loads m = None ->
  exists e p1,
    PAWSClient.dataReceived data p = Raise e p1 /\
    buffer p1 = buffer p +:+ data /\
    forall data',
      In m (all_but_last (split delimiter (buffer p1 +:+ data'))).
Proof.
  intros Hin Hmsg. unfold PAWSClient.dataReceived.
  destruct (split_reading (buffer p +:+ data))
    as (ms & r & Hb & Hm & Hr & Hms & _).
  unfold all_but_last in Hin. rewrite Hms in Hin.
  rewrite (dataReceived_delivered _messageHandler data p ms r Hb Hm Hr).
  unfold delivered.
  pose proof (for_msgs_unparsable m ms (PAWSProtocol.factory p) Hin Hmsg)
    as Hrun.
  destruct (for_msgs _messageHandler ms (PAWSProtocol.factory p))
    as [[] w|e w];
    [discriminate|].
  eexists _, _. split; [reflexivity|]. cbn [buffer].
  split; [reflexivity|].
  intros data'.
  destruct (split_reading (r +:+ data'))
    as (ms' & r' & Hb' & Hm' & Hr' & _ & _).
  assert (Hall : (buffer p +:+ data) +:+ data' = framed (ms ++ ms') r').
  { rewrite Hb, framed_append, Hb'. apply framed_framed. }
  unfold all_but_last. rewrite Hall.
  destruct (split_of_framed (ms ++ ms') r') as [-> _];
    [apply Forall_app; auto | exact Hr' |].
  apply in_or_app. left. exact Hin.
Qed.

(** X4.  What the message handler does with a message it cannot route
    by token: text that is not JSON raises [ValueError], JSON that is
    not an object raises [TypeError], an object without a token raises
    [KeyError]; in each case the debug log gets its entry and nothing
    else about the client changes. *)
Theorem _messageHandler_malformed msg c :
  match json_loads msg with
  | None =>
      _messageHandler msg c
      = Raise ValueError (add_events [Log DEBUG (Received msg)] c)
  | Some (JDict items) =>
      assoc "token" items = None ->
      _messageHandler msg c
      = Raise (KeyError "token") (add_events [Log DEBUG (Received msg)] c)
  | Some _ =>
      _messageHandler msg c
      = Raise TypeError (add_events [Log DEBUG (Received msg)] c)
  end.
Proof.
  destruct (json_loads msg) as [data|] eqn:Hmsg.
  - destruct data; try intros Htok;
      unfold _messageHandler, bind, logging, emit, modify, raise, subscript;
      rewrite Hmsg; cbn; rewrite ?Htok; reflexivity.
  - apply _messageHandler_unparsable. exact Hmsg.
Qed.

End WithRuntime.

(** The wedge on the sample line. *)
Lemma dataReceived_unparsable_message_witness :
  exists e p1,
    @PAWSClient.dataReceived Sample.runtime Scenario.garbage_line
      Scenario.idle = Raise e p1 /\
    buffer p1 = buffer Scenario.idle +:+ Scenario.garbage_line /\
    forall data',
      In "garbage" (all_but_last (split delimiter (buffer p1 +:+ data'))).
Proof.
  apply (@dataReceived_unparsable_message Sample.runtime "garbage"
           Scenario.garbage_line Scenario.idle).
  - left. reflexivity.
  - reflexivity.
Defined.

(** The handler on the sample line, which is not JSON. *)
Lemma _messageHandler_malformed_witness :
  @_messageHandler Sample.runtime "garbage" Sample.online
  = Raise ValueError
      (add_events [Log DEBUG (Received "garbage")] Sample.online).
Proof.
  exact (@_messageHandler_malformed Sample.runtime "garbage" Sample.online).
Defined.

End MalformedFacts.

(** ** More on the connection factory *)

Module ConnectionFacts.
Import PAWSProtocolFactory.

Ltac run_factory :=
  unfold connect, disconnect, registerConnection, buildProtocol,
    clientConnectionLost, clientConnectionFailed, send,
    _connectionStateHandler, reconnecting_retry, bind, get_state, emit,
    modify, set_connection, set_connected, set_connectDeferred,
    set_disconnectDeferred, set_continueTrying, new_object, ret, raise;
  cbn.

(** What each method does to [connection] and [connected]. *)
Lemma connect_fields f :
  connection (final_state (connect f)) = connection f /\
  connected (final_state (connect f)) = connected f.
Proof. run_factory. destruct (connection f) eqn:Hc; cbn; rewrite ?Hc; auto. Qed.

Lemma disconnect_fields f :
  connection (final_state (disconnect f)) = connection f /\
  connected (final_state (disconnect f)) = connected f.
Proof. run_factory. destruct (connection f) eqn:Hc; cbn; rewrite ?Hc; auto. Qed.

Lemma send_fields data f :
  connection (final_state (send data f)) = connection f /\
  connected (final_state (send data f)) = connected f.
Proof. run_factory. destruct (connection f) eqn:Hc; cbn; rewrite ?Hc; auto. Qed.

Lemma registerConnection_fields proto f :
  connection (final_state (registerConnection proto f)) = Some proto /\
  connected (final_state (registerConnection proto f)) = true.
Proof.
  run_factory.
  destruct (_connectDeferred f); destruct (_disconnectDeferred f); cbn; auto.
Qed.

Lemma clientConnectionLost_fields f :
  connection (final_state (clientConnectionLost f)) = connection f /\
  connected (final_state (clientConnectionLost f)) = false.
Proof.
  run_factory.
  destruct (_connectDeferred f); destruct (_disconnectDeferred f); cbn;
    destruct (continueTrying f); cbn; auto.
Qed.

Lemma clientConnectionFailed_fields f :
  connection (final_state (clientConnectionFailed f)) = connection f /\
  connected (final_state (clientConnectionFailed f)) = false.
Proof.
  run_factory.
  destruct (_connectDeferred f); destruct (_disconnectDeferred f); cbn;
    destruct (continueTrying f); cbn; auto.
Qed.

(** X5.  The deferred that [connect] hands out on a factory without a
    connection fires once: with [True] when the protocol registers its
    connection, which also sets [connected] and records the protocol,
    or with [False] when the attempt fails, which schedules a retry
    exactly when [continueTrying] is set.  Either way the factory then
    forgets the deferred. *)
Theorem connect_deferred_fires_once f proto :
  connection f = None ->
  _disconnectDeferred f = None ->
  let d := next_object f in
  exists f1,
    connect f = Return (Pending d) f1 /\
    trace f1 = trace f ++ [ConnectTCP] /\
    (exists f2,
        registerConnection proto f1 = Return tt f2 /\
        connected f2 = true /\ connection f2 = Some proto /\
        _connectDeferred f2 = None /\
        trace f2 = trace f1 ++ [Fired d true]) /\
    (exists f2,
        clientConnectionFailed f1 = Return tt f2 /\
        connected f2 = false /\ connection f2 = None /\
        _connectDeferred f2 = None /\
        trace f2 =
          trace f1 ++ [Log ERROR "PAWS connection failed"; Fired d false]
                   ++ (if continueTrying f then [Retry] else [])).
Proof.
  intros Hc Hd d. subst d.
  eexists. split; [|split; [|split]].
  - run_factory. rewrite Hc. cbn. reflexivity.
  - reflexivity.
  - eexists. split; [run_factory; rewrite Hd; reflexivity|]. cbn. auto.
  - run_factory. rewrite Hd. cbn.
    destruct (continueTrying f); cbn;
      (eexists; split; [reflexivity|]); cbn; rewrite <- ?app_assoc; auto 10.
Qed.

Lemma connect_deferred_fires_once_witness :
  exists f1,
    connect init = Return (Pending 0) f1 /\
    trace f1 = trace init ++ [ConnectTCP] /\
    (exists f2,
        registerConnection 7 f1 = Return tt f2 /\
        connected f2 = true /\ connection f2 = Some 7 /\
        _connectDeferred f2 = None /\
        trace f2 = trace f1 ++ [Fired 0 true]) /\
    (exists f2,
        clientConnectionFailed f1 = Return tt f2 /\
        connected f2 = false /\ connection f2 = None /\
        _connectDeferred f2 = None /\
        trace f2 =
          trace f1 ++ [Log ERROR "PAWS connection failed"; Fired 0 false]
                   ++ (if continueTrying init then [Retry] else [])).
Proof. exact (connect_deferred_fires_once init 7 eq_refl eq_refl). Defined.

(** X6.  Whether the factory reconnects by itself.  On a factory with a
    connection and no deferred pending, losing the connection schedules
    a retry exactly when [continueTrying] is set, as it is after
    [buildProtocol].  [disconnect] closes the connection and clears the
    flag; the loss that follows fires the deferred of [disconnect] with
    [True] and schedules no retry. *)
Theorem reconnects_unless_disconnected f proto :
  connection f = Some proto ->
  _connectDeferred f = None ->
  _disconnectDeferred f = None ->
  continueTrying (final_state (buildProtocol f)) = true /\
  trace (final_state (clientConnectionLost f)) =
    trace f ++ [Log DEBUG "PAWS connection lost"]
            ++ (if continueTrying f then [Retry] else []) /\
  exists f1 f2,
    disconnect f = Return (Pending (next_object f)) f1 /\
    trace f1 = trace f ++ [LoseConnection] /\
    continueTrying f1 = false /\
    clientConnectionLost f1 = Return tt f2 /\
    connected f2 = false /\
    _disconnectDeferred f2 = None /\
    trace f2 =
      trace f1 ++ [Log DEBUG "PAWS connection lost";
                   Fired (next_object f) true].
Proof.
  intros Hc Hcd Hdd. split; [reflexivity|]. split.
  - run_factory. rewrite Hcd, Hdd. cbn.
    destruct (continueTrying f); cbn; rewrite <- ?app_assoc; reflexivity.
  - eexists _, _. split; [run_factory; rewrite Hc; reflexivity|]. cbn.
    split; [reflexivity|]. split; [reflexivity|].
    split; [run_factory; rewrite Hcd; reflexivity|]. cbn.
    rewrite <- !app_assoc. auto.
Qed.

Lemma reconnects_unless_disconnected_witness :
  let f := final_state (registerConnection 0 init) in
  continueTrying (final_state (buildProtocol f)) = true /\
  trace (final_state (clientConnectionLost f)) =
    trace f ++ [Log DEBUG "PAWS connection lost"]
            ++ (if continueTrying f then [Retry] else []) /\
  exists f1 f2,
    disconnect f = Return (Pending (next_object f)) f1 /\
    trace f1 = trace f ++ [LoseConnection] /\
    continueTrying f1 = false /\
    clientConnectionLost f1 = Return tt f2 /\
    connected f2 = false /\
    _disconnectDeferred f2 = None /\
    trace f2 =
      trace f1 ++ [Log DEBUG "PAWS connection lost";
                   Fired (next_object f) true].
Proof.
  exact (reconnects_unless_disconnected
           (final_state (registerConnection 0 init)) 0
           eq_refl eq_refl eq_refl).
Defined.

(** X7.  A second [connect] before the first attempt has come to
    anything opens a second TCP connection and replaces the deferred
    the factory remembers: when the connection is made only the second
    deferred fires, and the first is fired by nothing. *)
Theorem connect_twice_drops_first_deferred f proto :
  connection f = None ->
  _disconnectDeferred f = None ->
  exists f1 f2 f3,
    connect f = Return (Pending (next_object f)) f1 /\
    connect f1 = Return (Pending (S (next_object f))) f2 /\
    registerConnection proto f2 = Return tt f3 /\
    _connectDeferred f3 = None /\
    trace f3 =
      trace f ++ [ConnectTCP; ConnectTCP; Fired (S (next_object f)) true].
Proof.
  intros Hc Hd.
  eexists _, _, _.
  split; [run_factory; rewrite Hc; reflexivity|].
  split; [run_factory; rewrite Hc; reflexivity|].
  split; [run_factory; rewrite Hd; reflexivity|]. cbn.
  rewrite <- !app_assoc. auto.
Qed.

Lemma connect_twice_drops_first_deferred_witness :
  exists f1 f2 f3,
    connect init = Return (Pending 0) f1 /\
    connect f1 = Return (Pending 1) f2 /\
    registerConnection 7 f2 = Return tt f3 /\
    _connectDeferred f3 = None /\
    trace f3 = trace init ++ [ConnectTCP; ConnectTCP; Fired 1 true].
Proof. exact (connect_twice_drops_first_deferred init 7 eq_refl eq_refl). Defined.

End ConnectionFacts.

(** ** The client over longer runs *)

Module RunFacts.
Import PAWSClient Trace PAWSClientFacts Run.

Section WithRuntime.
Context `{Runtime}.

(** [_sendRequest] leaves [connection] and [connected] alone. *)
Lemma _sendRequest_link method resource parameters body token c :
  let c' := final_state
              (_sendRequest method resource parameters body token c) in
  PAWSProtocolFactory.connection (factory c')
  = PAWSProtocolFactory.connection (factory c) /\
  PAWSProtocolFactory.connected (factory c')
  = PAWSProtocolFactory.connected (factory c).
Proof.
  unfold _sendRequest, connected.
  destruct (PAWSProtocolFactory.connected (factory c)) eqn:Hconn;
    destruct (PAWSProtocolFactory.connection (factory c)) eqn:Hp;
    destruct token as [t|];
    unfold bind, get_state, ret, raise, _generateToken, logging, emit,
      modify, on_factory, PAWSProtocolFactory.send, connected; cbn;
    rewrite ?Hconn; cbn; rewrite ?Hp; cbn;
    rewrite ?lookup_insert_eq; cbn; auto.
Qed.

Lemma request_link method resource parameters body token op c :
  let c' := final_state
              (bind (_sendRequest method resource parameters body token)
                    (await op) c) in
  PAWSProtocolFactory.connection (factory c')
  = PAWSProtocolFactory.connection (factory c) /\
  PAWSProtocolFactory.connected (factory c')
  = PAWSProtocolFactory.connected (factory c).
Proof.
  cbv zeta. unfold bind.
  pose proof (_sendRequest_link method resource parameters body token c)
    as Hlink. cbv zeta in Hlink.
  destruct (_sendRequest method resource parameters body token c)
    as [[t|] c1|e c1]; cbn in Hlink |- *; try exact Hlink.
  destruct (resume_effect op JNull c1)
    as (c' & evs & Hrun & _ & Hf & _). rewrite Hrun. cbn. rewrite Hf.
  exact Hlink.
Qed.

(** The message handler never touches the factory. *)
Lemma _messageHandler_factory msg c :
  factory (final_state (_messageHandler msg c)) = factory c.
Proof.
  destruct (json_loads msg) as [data|] eqn:Hmsg.
  2: { unfold _messageHandler, bind, logging, emit, modify.
       rewrite Hmsg. reflexivity. }
  destruct data as [| | | | |items].
  1-5: unfold _messageHandler, bind, logging, emit, modify;
       rewrite Hmsg; reflexivity.
  destruct (assoc "token" items) as [token|] eqn:Htok.
  2: { unfold _messageHandler, bind, logging, emit, modify.
       rewrite Hmsg. cbn. rewrite Htok. reflexivity. }
  destruct token as [| | |t| |].
  4: { destruct (pendingResponses c !! t) as [d|] eqn:Hpend.
       - destruct (_messageHandler_pending msg items t d c Hmsg Htok Hpend)
           as (c' & evs & Hrun & _ & Hf & _).
         rewrite Hrun. exact Hf.
       - rewrite (_messageHandler_not_pending msg items t c Hmsg Htok Hpend).
         cbv zeta.
         destruct (subscriptionHandlers c !! t) as [[handler cls]|];
           [destruct (assoc "body" items) as [[]|];
            try destruct (construct cls items0)|];
           reflexivity. }
  all: unfold _messageHandler, bind, logging, emit, modify;
    rewrite Hmsg; cbn; rewrite Htok; reflexivity.
Qed.

(** What an action can do to [connection] and [connected]: leave both,
    register a protocol and set the flag, or clear the flag. *)
Lemma perform_link a c :
  let f := factory c in
  let f' := factory (final_state (perform a c)) in
  (PAWSProtocolFactory.connection f' = PAWSProtocolFactory.connection f /\
   PAWSProtocolFactory.connected f' = PAWSProtocolFactory.connected f) \/
  (is_Some (PAWSProtocolFactory.connection f') /\
   PAWSProtocolFactory.connected f' = true) \/
  (PAWSProtocolFactory.connection f' = PAWSProtocolFactory.connection f /\
   PAWSProtocolFactory.connected f' = false).
Proof.
  cbv zeta. destruct a; cbn [perform].
  1-9: left; apply request_link.
  - left. unfold subscribe. unfold bind at 1, _generateToken.
    match goal with
    | |- context [bind ?m ?k ?c0] =>
        pose proof (request_link "subscribe" resource JNull JNull
                      (Some (uuid1 (uuid1_calls c)))
                      (subscribe_frame (uuid1 (uuid1_calls c))
                         subscriptionHandler
                         (if is_substring "datastreams" resource
                          then Datastream else Environment)) c0) as Hlink
    end.
    exact Hlink.
  - left.
    destruct (remove_subscription_effect token c)
      as (cr & Hrem & _ & _ & Hf & _).
    assert (Hun : unsubscribe resource token c
                  = bind (_unsubscribe resource token)
                         (await unsubscribe_frame) cr)
      by (unfold unsubscribe, bind at 1; rewrite Hrem; reflexivity).
    rewrite Hun.
    pose proof (request_link "unsubscribe" resource JNull JNull (Some token)
                  unsubscribe_frame cr) as Hlink.
    cbv zeta in Hlink. rewrite Hf in Hlink. exact Hlink.
  - left. unfold connect, bind, on_factory.
    pose proof (ConnectionFacts.connect_fields (factory c)) as Hfields.
    destruct (PAWSProtocolFactory.connect (factory c)); exact Hfields.
  - left. unfold disconnect, bind, on_factory.
    pose proof (ConnectionFacts.disconnect_fields (factory c)) as Hfields.
    destruct (PAWSProtocolFactory.disconnect (factory c)); exact Hfields.
  - left. rewrite _messageHandler_factory. auto.
  - right. left. unfold on_factory.
    pose proof (ConnectionFacts.registerConnection_fields proto (factory c))
      as [Hc Hd].
    destruct (PAWSProtocolFactory.registerConnection proto (factory c));
      cbn in *; rewrite Hc; eauto.
  - right. right. unfold on_factory.
    pose proof (ConnectionFacts.clientConnectionLost_fields (factory c))
      as Hfields.
    destruct (PAWSProtocolFactory.clientConnectionLost (factory c));
      exact Hfields.
  - right. right. unfold on_factory.
    pose proof (ConnectionFacts.clientConnectionFailed_fields (factory c))
      as Hfields.
    destruct (PAWSProtocolFactory.clientConnectionFailed (factory c));
      exact Hfields.
Qed.


(** X8.  Between two actions [connected] is never set without a
    protocol being registered, so the guard of [_sendRequest] is
    enough: on a connected client every request is written to the
    transport and gets its pending entry, and the attribute error of
    [send] on a missing connection cannot happen. *)
Theorem connected_has_connection c :
  reachable c ->
  connected c = true ->
  is_online c /\
  forall method resource parameters body token,
  exists c',
    _sendRequest method resource parameters body token c
    = Return (Some (token_used token c)) c' /\
    pendingResponses c' !! token_used token c = Some {| waiter := None |} /\
    writes (factory c') =
      writes (factory c) ++
        [json_dumps (build_message method resource (headers c) parameters
                       body (token_used token c))].
Proof.
  intros Hreach Hconn.
  assert (Hinv : forall c0, reachable c0 ->
                   connected c0 = true ->
                   is_Some (PAWSProtocolFactory.connection (factory c0))).
  { clear. induction 1 as [api_key feed_id|c0 a _ IH _]; [discriminate|].
    unfold connected in *.
    destruct (perform_link a c0) as [[Hc Hd]|[[Hc Hd]|[Hc Hd]]];
      cbv zeta in *.
    - rewrite Hc, Hd. exact IH.
    - intros _. exact Hc.
    - rewrite Hd. discriminate. }
  assert (Hon : is_online c) by (split; [exact Hconn | apply Hinv; assumption]).
  split; [exact Hon|].
  intros method resource parameters body token.
  destruct (_sendRequest_online method resource parameters body token c Hon)
    as (c' & Hrun & Hp & _ & _ & _ & Hw & _).
  exists c'. split; [exact Hrun|].
  split; [rewrite Hp; apply lookup_insert_eq | exact Hw].
Qed.

(** The sample online client is reachable. *)
Lemma online_reachable : @reachable Sample.runtime Sample.online.
Proof.
  exact (@reachable_step Sample.runtime _ (connection_made 0)
           (@reachable_init Sample.runtime (JStr "key") JNull)
           (fun Hgen => False_ind _ (Bool.diff_false_true Hgen))).
Qed.

End WithRuntime.

Lemma connected_has_connection_witness :
  is_online Sample.online /\
  forall method resource parameters body token,
  exists c',
    @_sendRequest Sample.runtime method resource parameters body token
      Sample.online
    = Return (Some (@token_used Sample.runtime token Sample.online)) c' /\
    pendingResponses c' !! @token_used Sample.runtime token Sample.online
    = Some {| waiter := None |} /\
    writes (factory c') =
      writes (factory Sample.online) ++
        [@json_dumps Sample.runtime
           (build_message method resource (headers Sample.online) parameters
              body (@token_used Sample.runtime token Sample.online))].
Proof.
  exact (@connected_has_connection Sample.runtime Sample.online
           online_reachable eq_refl).
Defined.

Section WithRuntime.
Context `{Runtime}.

Lemma perform_all_keeps_connection acts c :
  is_Some (PAWSProtocolFactory.connection (factory c)) ->
  is_Some (PAWSProtocolFactory.connection (factory (perform_all acts c))).
Proof.
  revert c. induction acts as [|a rest IH]; intros c Hc; [exact Hc|].
  cbn [perform_all]. apply IH.
  destruct (perform_link a c) as [[Hc' _]|[[Hc' _]|[Hc' _]]]; cbv zeta in *;
    [rewrite Hc'; exact Hc | exact Hc' | rewrite Hc'; exact Hc].
Qed.

(** X9.  No action ever resets [self.connection]: once a protocol has
    registered, then after any further calls, messages and connection
    events [connect] only writes its warning and answers with success
    without opening a TCP connection, and [disconnect] closes again and
    hands out a new deferred instead of reporting that the client is
    already disconnected. *)
Theorem connection_never_reset acts c :
  is_Some (PAWSProtocolFactory.connection (factory c)) ->
  let c' := perform_all acts c in
  is_Some (PAWSProtocolFactory.connection (factory c')) /\
  returned (connect c') = Some (PAWSProtocolFactory.Succeed true) /\
  PAWSProtocolFactory.trace (factory (final_state (connect c'))) =
    PAWSProtocolFactory.trace (factory c') ++
      [PAWSProtocolFactory.Log WARNING
         "Already connected, ignoring connect request"] /\
  returned (disconnect c')
  = Some (PAWSProtocolFactory.Pending
            (PAWSProtocolFactory.next_object (factory c'))) /\
  PAWSProtocolFactory.trace (factory (final_state (disconnect c'))) =
    PAWSProtocolFactory.trace (factory c') ++
      [PAWSProtocolFactory.LoseConnection].
Proof.
  intros Hc. cbv zeta.
  pose proof (perform_all_keeps_connection acts c Hc) as [p Hp].
  split; [eexists; exact Hp|].
  unfold connect, disconnect, on_factory.
  rewrite PAWSProtocolFactoryFacts.connect_cases, Hp.
  unfold PAWSProtocolFactory.disconnect, bind, get_state. rewrite Hp.
  unfold PAWSProtocolFactory.emit, modify, PAWSProtocolFactory.new_object,
    PAWSProtocolFactory.set_continueTrying,
    PAWSProtocolFactory.set_disconnectDeferred, ret. cbn. auto.
Qed.

(** X10.  Push messages for a subscribed token, handled one after the
    other, each reach the handler once, in their order of arrival and
    each with the record built from its body; neither table changes,
    however many there are. *)
Theorem pushes_reach_handler t handler cls
    (pushes : list (string * dataStructure)) c :
  pendingResponses c !! t = None ->
  subscriptionHandlers c !! t = Some (handler, cls) ->
  Forall (fun push =>
            exists items kwargs,
              json_loads (fst push) = Some (JDict items) /\
              assoc "token" items = Some (JStr t) /\
              assoc "body" items = Some (JDict kwargs) /\
              construct cls kwargs = inr (snd push)) pushes ->
  PAWSProtocol.for_msgs _messageHandler (map fst pushes) c
  = Return tt (add_events (pushed_events handler pushes) c) /\
  List.filter is_handler_call (pushed_events handler pushes)
  = map (fun push => Handler handler (snd push)) pushes /\
  handler_calls (trace (add_events (pushed_events handler pushes) c))
  = handler_calls (trace c) + List.length pushes.
Proof.
  intros Hpend Hsub Hall.
  assert (Hfilter : List.filter is_handler_call (pushed_events handler pushes)
                    = map (fun push => Handler handler (snd push)) pushes).
  { clear. induction pushes as [|[msg d] rest IH]; [reflexivity|].
    cbn. unfold pushed_events in IH. rewrite IH. reflexivity. }
  split; [|split; [exact Hfilter|]].
  - clear Hfilter. revert c Hpend Hsub.
    induction Hall as [|[msg d] rest (items & kwargs & Hmsg & Htok & Hbody & Hd)
                          _ IH]; intros c Hpend Hsub.
    + cbn. unfold ret. rewrite add_events_nil. reflexivity.
    + cbn [map fst PAWSProtocol.for_msgs]. unfold bind.
      cbn [fst snd] in *.
      rewrite (_messageHandler_not_pending msg items t c Hmsg Htok Hpend).
      cbv zeta. rewrite Hsub, Hbody, Hd.
      rewrite IH
        by (cbn [add_events pendingResponses subscriptionHandlers];
            assumption).
      rewrite add_events_app. reflexivity.
  - cbn [add_events trace]. rewrite handler_calls_app. f_equal.
    unfold handler_calls. rewrite Hfilter, length_map. reflexivity.
Qed.

End WithRuntime.

Lemma connection_never_reset_witness :
  let c' := @perform_all Sample.runtime [connection_lost] Sample.online in
  is_Some (PAWSProtocolFactory.connection (factory c')) /\
  returned (connect c') = Some (PAWSProtocolFactory.Succeed true) /\
  PAWSProtocolFactory.trace (factory (final_state (connect c'))) =
    PAWSProtocolFactory.trace (factory c') ++
      [PAWSProtocolFactory.Log WARNING
         "Already connected, ignoring connect request"] /\
  returned (disconnect c')
  = Some (PAWSProtocolFactory.Pending
            (PAWSProtocolFactory.next_object (factory c'))) /\
  PAWSProtocolFactory.trace (factory (final_state (disconnect c'))) =
    PAWSProtocolFactory.trace (factory c') ++
      [PAWSProtocolFactory.LoseConnection].
Proof.
  apply (@connection_never_reset Sample.runtime [connection_lost]
           Sample.online).
  eexists. reflexivity.
Defined.

Lemma pushes_reach_handler_witness :
  let items := Sample.fields (Sample.nth_token 0) 200 in
  let d := {| ds_kind := Environment;
              ds_content := JDict [("id", JStr "0")] |} in
  PAWSProtocol.for_msgs (@_messageHandler Sample.runtime)
    (map fst [("push", d); ("push", d)]) Sample.subscribed
  = Return tt
      (add_events (pushed_events 7 [("push", d); ("push", d)])
         Sample.subscribed) /\
  List.filter is_handler_call (pushed_events 7 [("push", d); ("push", d)])
  = map (fun push => Handler 7 (snd push)) [("push", d); ("push", d)] /\
  handler_calls
    (trace (add_events (pushed_events 7 [("push", d); ("push", d)])
              Sample.subscribed))
  = handler_calls (trace Sample.subscribed) + 2.
Proof.
  apply (@pushes_reach_handler Sample.runtime (Sample.nth_token 0) 7
           Environment).
  - reflexivity.
  - reflexivity.
  - repeat constructor;
      exists (Sample.fields (Sample.nth_token 0) 200), [("id", JStr "0")];
      repeat split; reflexivity.
Defined.

End RunFacts.

(** ** The operations of the PAWS client, one by one *)

Module OperationFacts.
Import PAWSClient Trace PAWSClientFacts.

(** The last piece of [split] on a string that ends in a separator and
    a piece without separators is that piece. *)
Lemma last_split_free sep t :
  PAWSProtocol.contains sep t = false ->
  List.last (PAWSProtocol.split sep t) EmptyString = t.
Proof.
  intros Hc.
  assert (Hone : PAWSProtocol.split sep t = [t]).
  { induction t as [|a t IH]; [reflexivity|].
    cbn in Hc |- *. apply orb_false_iff in Hc as [Ha Ht].
    rewrite Ha, (IH Ht). reflexivity. }
  rewrite Hone. reflexivity.
Qed.

Lemma last_split_after sep s t :
  List.last (PAWSProtocol.split sep (s +:+ String sep t)) EmptyString
  = List.last (PAWSProtocol.split sep t) EmptyString.
Proof.
  induction s as [|a s IH].
  - change (EmptyString +:+ String sep t) with (String sep t).
    cbn [PAWSProtocol.split]. rewrite Ascii.eqb_refl.
    pose proof (PAWSProtocolFacts.split_not_nil sep t) as Hne.
    destruct (PAWSProtocol.split sep t); [congruence | reflexivity].
  - change (String a s +:+ String sep t) with (String a (s +:+ String sep t)).
    cbn [PAWSProtocol.split].
    pose proof (PAWSProtocolFacts.split_not_nil sep (s +:+ String sep t))
      as Hne.
    destruct (Ascii.eqb a sep).
    + destruct (PAWSProtocol.split sep (s +:+ String sep t)) as [|w ws];
        [congruence|]. exact IH.
    + assert (Hlong : exists w w' ws,
                 PAWSProtocol.split sep (s +:+ String sep t) = w :: w' :: ws).
      { clear IH Hne. induction s as [|b s IHs].
        - change (EmptyString +:+ String sep t) with (String sep t).
          cbn [PAWSProtocol.split]. rewrite Ascii.eqb_refl.
          pose proof (PAWSProtocolFacts.split_not_nil sep t) as Hne.
          destruct (PAWSProtocol.split sep t) as [|x xs]; [congruence|].
          eauto.
        - change (String b s +:+ String sep t)
            with (String b (s +:+ String sep t)).
          cbn [PAWSProtocol.split].
          destruct IHs as (w & w' & ws & ->).
          destruct (Ascii.eqb b sep); eauto. }
      destruct Hlong as (w & w' & ws & Hs). rewrite Hs in IH |- *.
      exact IH.
Qed.

Section WithRuntime.
Context `{Runtime}.

Lemma _sendRequest_offline_effect method resource parameters body token c :
  connected c = false ->
  _sendRequest method resource parameters body token c
  = Return None
      (add_events
         [Log DEBUG (AboutToSend
            (build_message method resource (headers c) parameters body
               (token_used token c)));
          Log ERROR SendFailed]
         (match token with
          | Some _ => c
          | None => final_state (_generateToken c)
          end)).
Proof.
  intros Hconn. unfold _sendRequest, connected in *.
  destruct token as [t|];
    unfold bind, get_state, ret, _generateToken, logging, emit, modify,
      add_events;
    cbn; unfold connected; cbn; rewrite Hconn; cbn;
    rewrite <- app_assoc; reflexivity.
Qed.

(** Resumed with [None], every operation fails on its first look at the
    response. *)
Lemma after_yield_none op c : after_yield op JNull c = Raise TypeError c.
Proof. destruct op; reflexivity. Qed.

(** A request on a client that is not connected, followed by the
    [yield] of the operation. *)
Lemma request_offline method resource parameters body token op c :
  connected c = false ->
  exists c',
    bind (_sendRequest method resource parameters body token) (await op) c
    = Return tt c' /\
    trace c' =
      trace c ++
        [Log DEBUG (AboutToSend
           (build_message method resource (headers c) parameters body
              (token_used token c)));
         Log ERROR SendFailed;
         Finished op (Failure TypeError)] /\
    pendingResponses c' = pendingResponses c /\
    subscriptionHandlers c' = subscriptionHandlers c /\
    factory c' = factory c.
Proof.
  intros Hconn. unfold bind.
  rewrite (_sendRequest_offline_effect _ _ _ _ _ _ Hconn).
  cbn [await]. unfold resume. rewrite after_yield_none.
  unfold emit, modify. eexists. split; [reflexivity|].
  destruct token; cbn; rewrite <- app_assoc; auto.
Qed.

(** X11.  Called on a client that is not connected, every public
    operation sends nothing and fails at once, and not with an error of
    its own: [_sendRequest] returns [None] after logging that the send
    failed, the operation goes on with [None] as its response and ends
    in the [TypeError] of reading a field of it.  No pending entry is
    made; [unsubscribe] has removed its subscription all the same. *)
Theorem operations_fail_offline a c :
  connected c = false ->
  match a with
  | do_connect | do_disconnect | message_arrives _ | connection_made _
  | connection_lost | connection_failed => True
  | _ =>
      exists c' op message,
        perform a c = Return tt c' /\
        trace c' =
          trace c ++ [Log DEBUG (AboutToSend message); Log ERROR SendFailed;
                      Finished op (Failure TypeError)] /\
        pendingResponses c' = pendingResponses c /\
        factory c' = factory c /\
        subscriptionHandlers c' =
          match a with
          | do_unsubscribe _ token => delete token (subscriptionHandlers c)
          | _ => subscriptionHandlers c
          end
  end.
Proof.
  intros Hconn.
  destruct a; try exact I; cbn [perform].
  1-9: unfold list_feeds, create_feed, read_feed, update_feed, delete_feed,
         create_datastream, read_datastream, update_datastream,
         delete_datastream, _get, _put, _post, _delete;
       match goal with
       | |- context [bind (_sendRequest ?me ?re ?pa ?bo ?to) _ ?c0] =>
           match goal with
           | |- context [await ?op] =>
               destruct (request_offline me re pa bo to op c0 Hconn)
                 as (c' & Hrun & Htr & Hp & Hs & Hf)
           end
       end;
       eexists c', _, _; (split; [exact Hrun|]); (split; [exact Htr|]);
       auto.
  - (* subscribe *)
    unfold subscribe. unfold bind at 1, _generateToken.
    match goal with
    | |- context [bind ?m ?k ?c0] =>
        destruct (request_offline "subscribe" resource JNull JNull
                    (Some (uuid1 (uuid1_calls c)))
                    (subscribe_frame (uuid1 (uuid1_calls c))
                       subscriptionHandler
                       (if is_substring "datastreams" resource
                        then Datastream else Environment)) c0 Hconn)
          as (c' & Hrun & Htr & Hp & Hs & Hf)
    end.
    eexists c', _, _. split; [exact Hrun|]. split; [exact Htr|]. auto.
  - (* unsubscribe *)
    destruct (remove_subscription_effect token c)
      as (cr & Hrem & Hsr & Hpr & Hfr & Htrr).
    assert (Hconnr : connected cr = false)
      by (unfold connected; rewrite Hfr; exact Hconn).
    destruct (request_offline "unsubscribe" resource JNull JNull (Some token)
                unsubscribe_frame cr Hconnr)
      as (c' & Hrun & Htr & Hp & Hs & Hf).
    eexists c', _, _.
    split; [unfold unsubscribe, bind at 1; rewrite Hrem; exact Hrun|].
    split; [rewrite Htr, Htrr; reflexivity|].
    split; [congruence|]. split; congruence.
Qed.

End WithRuntime.

Lemma operations_fail_offline_witness :
  exists c' op message,
    @update_feed Sample.runtime "1" (JStr "{}") Sample.offline
    = Return tt c' /\
    trace c' =
      trace Sample.offline ++
        [Log DEBUG (AboutToSend message); Log ERROR SendFailed;
         Finished op (Failure TypeError)] /\
    pendingResponses c' = pendingResponses Sample.offline /\
    factory c' = factory Sample.offline /\
    subscriptionHandlers c' = subscriptionHandlers Sample.offline.
Proof.
  exact (@operations_fail_offline Sample.runtime
           (do_update_feed "1" (JStr "{}")) Sample.offline eq_refl).
Defined.


Section WithRuntime.
Context `{Runtime}.

(** A request on a connected client, followed by the [yield] of the
    operation. *)
Lemma request_online method resource parameters body token op c :
  is_online c ->
  exists c1,
    bind (_sendRequest method resource parameters body token) (await op) c
    = Return tt c1 /\
    pendingResponses c1 =
      <[token_used token c := {| waiter := Some op |}]> (pendingResponses c) /\
    subscriptionHandlers c1 = subscriptionHandlers c /\
    writes (factory c1) =
      writes (factory c) ++
        [json_dumps (build_message method resource (headers c) parameters
                       body (token_used token c))].
Proof.
  intros Hon.
  destruct (_sendRequest_online method resource parameters body token c Hon)
    as (c' & Hrun & Hp & Hs & _ & _ & Hw & _).
  unfold bind. rewrite Hrun. cbn [await]. unfold modify.
  eexists. split; [reflexivity|]. cbn.
  rewrite Hp, insert_insert_eq. auto.
Qed.

(** Resuming an operation fires its deferred, last of all, with what
    the rest of the operation returned or raised. *)
Lemma resume_finishes op response c :
  exists c' evs,
    resume op response c = Return tt c' /\
    pendingResponses c' = pendingResponses c /\
    factory c' = factory c /\
    Forall quiet evs /\
    trace c' =
      trace c ++ evs ++
        [Finished op
           match after_yield op response c with
           | Return v _ => Success v
           | Raise e _ => Failure e
           end].
Proof.
  unfold resume.
  assert (Hpre : exists evs,
             Forall quiet evs /\
             pendingResponses (final_state (after_yield op response c))
             = pendingResponses c /\
             factory (final_state (after_yield op response c)) = factory c /\
             trace (final_state (after_yield op response c))
             = trace c ++ evs).
  { destruct op as [| | | | | | | | |token handler cls|].
    10: { destruct (tame_status response c) as (evs & Hq & Hc).
          assert (Hsub :
              after_yield (subscribe_frame token handler cls) response c =
              match _getResponseCodeStatusFromHeader response c with
              | Return b c1 =>
                  Return (VTokenStatus token b)
                    (set_subscriptionHandlers
                       (<[token := (handler, cls)]> (subscriptionHandlers c1))
                       c1)
              | Raise e c1 => Raise e c1
              end) by reflexivity.
          rewrite Hsub.
          destruct (_getResponseCodeStatusFromHeader response c)
            as [b c1|e c1]; simpl in Hc; subst c1;
            exists evs; cbn; repeat split; auto. }
    all: match goal with
         | |- context [after_yield ?op ?r ?c0] =>
             destruct (tame_after_yield op r
                         ltac:(intros; discriminate) c0)
               as (evs & Hq & Hc)
         end; exists evs; rewrite Hc; cbn; repeat split; auto. }
  destruct Hpre as (evs & Hq & Hp & Hf & Htr).
  destruct (after_yield op response c) as [v c1|e c1]; cbn in Hp, Hf, Htr;
    eexists _, evs; (split; [reflexivity|]); cbn;
    rewrite Hp, Hf, Htr, <- app_assoc; auto.
Qed.

(** X12.  A response finds the operation that sent the request.  Each
    operation that draws a token, called on a connected client whose
    next token is unused, writes one request and leaves its generator
    waiting under that token; the message that carries the token fires
    that deferred, the operation runs to its end and hands its caller a
    result, and [pendingResponses] is again what it was before the
    call. *)
Theorem response_finds_its_request a c msg items :
  generates_token a = true ->
  is_online c -> unused_token c ->
  json_loads msg = Some (JDict items) ->
  assoc "token" items = Some (JStr (uuid1 (uuid1_calls c))) ->
  let t := uuid1 (uuid1_calls c) in
  exists c1 c2 op evs r,
    perform a c = Return tt c1 /\
    pendingResponses c1 =
      <[t := {| waiter := Some op |}]> (pendingResponses c) /\
    List.length (writes (factory c1)) = S (List.length (writes (factory c))) /\
    _messageHandler msg c1 = Return tt c2 /\
    pendingResponses c2 = pendingResponses c /\
    Forall quiet evs /\
    trace c2 =
      trace c1 ++ [Log DEBUG (Received msg); Callback t (JDict items)]
               ++ evs ++ [Finished op r].
Proof.
  intros Hgen Hon [Hfree _] Hmsg Htok t.
  assert (Hcall : exists c1 op,
             perform a c = Return tt c1 /\
             pendingResponses c1 =
               <[t := {| waiter := Some op |}]> (pendingResponses c) /\
             List.length (writes (factory c1))
             = S (List.length (writes (factory c)))).
  { destruct a; try discriminate Hgen; cbn [perform].
    1-9: unfold list_feeds, create_feed, read_feed, update_feed, delete_feed,
           create_datastream, read_datastream, update_datastream,
           delete_datastream, _get, _put, _post, _delete;
         match goal with
         | |- context [bind (_sendRequest ?me ?re ?pa ?bo ?to) _ ?c0] =>
             match goal with
             | |- context [await ?op] =>
                 destruct (request_online me re pa bo to op c0 Hon)
                   as (c1 & Hrun & Hp & _ & Hw)
             end
         end;
         exists c1; eexists; (split; [exact Hrun|]); (split; [exact Hp|]);
         rewrite Hw, List.length_app; cbn; lia.
    destruct (subscribe_online resource subscriptionHandler c Hon)
      as (c1 & Hrun & Hp & _ & _ & _ & _ & Hw).
    exists c1. eexists. split; [exact Hrun|]. split; [exact Hp|].
    rewrite Hw, List.length_app. cbn. lia. }
  destruct Hcall as (c1 & op & Hrun & Hp & Hw).
  assert (Hpend : pendingResponses c1 !! t = Some {| waiter := Some op |})
    by (rewrite Hp; apply lookup_insert_eq).
  assert (Hhandle : exists c2 evs r,
             _messageHandler msg c1 = Return tt c2 /\
             pendingResponses c2 = delete t (pendingResponses c1) /\
             Forall quiet evs /\
             trace c2 =
               trace c1 ++ [Log DEBUG (Received msg); Callback t (JDict items)]
                        ++ evs ++ [Finished op r]).
  { unfold _messageHandler, bind at 1, logging, emit, modify.
    rewrite Hmsg. unfold bind at 1, ret at 1.
    unfold bind at 1, subscript. rewrite Htok. unfold ret at 1.
    unfold bind at 1, as_key, ret at 1.
    unfold bind at 1, get_state at 1. cbn [pendingResponses mbind option_bind].
    fold t. rewrite Hpend. cbn [fmap option_fmap option_map].
    unfold bind at 1, callback, bind at 1, emit, modify. cbn [waiter].
    match goal with
    | |- context [resume op ?r ?c0] =>
        destruct (resume_finishes op r c0)
          as (c' & evs & Hres & Hp' & _ & Hq & Htr)
    end.
    rewrite Hres. unfold del_pendingResponse, bind, get_state, modify.
    rewrite Hp'. cbn [pendingResponses]. rewrite Hpend.
    eexists _, evs, _. split; [reflexivity|]. cbn.
    rewrite Hp', Htr. cbn. rewrite <- !app_assoc. cbn. auto. }
  destruct Hhandle as (c2 & evs & r & Hrun2 & Hp2 & Hq & Htr).
  exists c1, c2, op, evs, r.
  repeat (split; [assumption|]). split; [|auto].
  rewrite Hp2, Hp, delete_insert_eq. apply delete_id. exact Hfree.
Qed.

End WithRuntime.

Lemma response_finds_its_request_witness :
  exists c1 c2 op evs r,
    @update_feed Sample.runtime "1" (JStr "{}") Sample.online
    = Return tt c1 /\
    pendingResponses c1 =
      <[Sample.nth_token 0 := {| waiter := Some op |}]>
        (pendingResponses Sample.online) /\
    List.length (writes (factory c1))
    = S (List.length (writes (factory Sample.online))) /\
    @_messageHandler Sample.runtime "ack" c1 = Return tt c2 /\
    pendingResponses c2 = pendingResponses Sample.online /\
    Forall quiet evs /\
    trace c2 =
      trace c1 ++ [Log DEBUG (Received "ack");
                   Callback (Sample.nth_token 0)
                     (JDict (Sample.fields (Sample.nth_token 0) 200))]
               ++ evs ++ [Finished op r].
Proof.
  apply (@response_finds_its_request Sample.runtime
           (do_update_feed "1" (JStr "{}")) Sample.online "ack"
           (Sample.fields (Sample.nth_token 0) 200)).
  - reflexivity.
  - split; [reflexivity | eexists; reflexivity].
  - split; reflexivity.
  - reflexivity.
  - reflexivity.
Defined.


Section WithRuntime.
Context `{Runtime}.

(** X13.  What the operations make of a response that is as expected:
    an update, a delete and an unsubscribe return [True] on status 200
    and log nothing; a creation returns, on status 201, what follows
    the last slash of the LOCATION header. *)
Theorem after_yield_expected_response :
  (forall op items st c,
      returns_status op = true ->
      assoc "status" items = Some st ->
      eq_int st 200 = true ->
      after_yield op (JDict items) c = Return (VBool true) c) /\
  (forall op items st hdrs prefix id c,
      returns_location op = true ->
      assoc "status" items = Some st ->
      eq_int st 201 = true ->
      assoc "headers" items = Some (JDict hdrs) ->
      assoc "LOCATION" hdrs = Some (JStr (prefix +:+ String "/" id)) ->
      PAWSProtocol.contains "/" id = false ->
      after_yield op (JDict items) c = Return (VStr id) c).
Proof.
  split.
  - intros op items st c Hop Hst Heq.
    destruct op; try discriminate Hop; cbn [after_yield];
      unfold _getResponseCodeStatusFromHeader, subscript, bind, ret;
      rewrite Hst, Heq; reflexivity.
  - intros op items st hdrs prefix id c Hop Hst Heq Hh Hloc Hid.
    assert (Hlast : last_segment (JStr (prefix +:+ String "/" id)) c
                    = Return id c).
    { unfold last_segment, ret.
      rewrite last_split_after, (last_split_free _ _ Hid). reflexivity. }
    destruct op; try discriminate Hop; cbn [after_yield];
      unfold _getLocationFromHeader, subscript, has_key, bind, ret;
      rewrite Hst, Heq, Hh, Hloc; cbn [assoc];
      rewrite bool_decide_eq_true_2 by (eexists; reflexivity);
      unfold bind, ret in Hlast |- *; rewrite Hlast; reflexivity.
Qed.

(** X14.  The read operations never look at the status of a response:
    what they return or raise is decided by its body alone, and they
    log nothing.  A response without a body raises [KeyError]; any
    other is handed to the decoder of the record kind, error response
    or not. *)
Theorem reads_ignore_status op k :
  (op, k) = (list_feeds_frame, List_Feeds_Msg) \/
  (op, k) = (read_feed_frame, View_Feed_Msg) \/
  (op, k) = (read_datastream_frame, View_Datastream_Msg) ->
  (forall items c,
      after_yield op (JDict items) c =
        match assoc "body" items with
        | None => Raise (KeyError "body") c
        | Some body =>
            match decode k body with
            | inr d => Return (VStruct d) c
            | inl e => Raise e c
            end
        end) /\
  (forall items items' c,
      assoc "body" items = assoc "body" items' ->
      after_yield op (JDict items) c = after_yield op (JDict items') c).
Proof.
  intros Hop.
  assert (Hfirst : forall items c,
      after_yield op (JDict items) c =
        match assoc "body" items with
        | None => Raise (KeyError "body") c
        | Some body =>
            match decode k body with
            | inr d => Return (VStruct d) c
            | inl e => Raise e c
            end
        end).
  { intros items c.
    destruct Hop as [[= -> ->]|[[= -> ->]|[= -> ->]]]; cbn [after_yield];
      unfold _getResponseBody, _convertToCosmStructure, subscript, lift,
        bind, ret, raise;
      destruct (assoc "body" items) as [body|]; try reflexivity;
      destruct (decode _ body); reflexivity. }
  split; [exact Hfirst|].
  intros items items' c Hbody. rewrite !Hfirst, Hbody. reflexivity.
Qed.

(** X15.  Between two actions, handling a message changes nothing
    under any token but the one the message carries: the other pending
    responses and the other subscriptions stay as they are. *)
Theorem message_touches_its_token_only msg items t t' c :
  reachable c ->
  json_loads msg = Some (JDict items) ->
  assoc "token" items = Some (JStr t) ->
  t' <> t ->
  pendingResponses (final_state (_messageHandler msg c)) !! t'
  = pendingResponses c !! t' /\
  subscriptionHandlers (final_state (_messageHandler msg c)) !! t'
  = subscriptionHandlers c !! t'.
Proof.
  intros Hreach Hmsg Htok Hne.
  destruct (pendingResponses c !! t) as [d|] eqn:Hpend.
  - destruct (_messageHandler_pending msg items t d c Hmsg Htok Hpend)
      as (c' & evs & Hrun & Hp & _ & _ & _ & _ & Hs).
    rewrite Hrun. cbn [final_state]. rewrite Hp.
    split; [apply lookup_delete_ne; congruence|].
    destruct Hs as [->|(tok & handler & cls & Hw & ->)]; [reflexivity|].
    destruct (reachable_tables_ok c Hreach) as [_ Hkeyed].
    assert (tok = t) as -> by (eapply Hkeyed; eassumption).
    apply lookup_insert_ne. congruence.
  - rewrite (_messageHandler_not_pending msg items t c Hmsg Htok Hpend).
    cbv zeta.
    destruct (subscriptionHandlers c !! t) as [[handler cls]|];
      [destruct (assoc "body" items) as [[]|];
       try destruct (construct cls items0)|];
      cbn; auto.
Qed.

(** X16.  The parameters handed to the read operations never reach the
    service: [_get] drops them, so that the request written is the same
    whatever they are, and has no parameters entry. *)
Theorem read_parameters_not_sent parameters c :
  is_online c ->
  list_feeds parameters c = list_feeds JNull c /\
  (forall feed_id,
      read_feed feed_id parameters c = read_feed feed_id JNull c) /\
  (forall feed_id datastream_id,
      read_datastream feed_id datastream_id parameters c
      = read_datastream feed_id datastream_id JNull c) /\
  writes (factory (final_state (list_feeds parameters c))) =
    writes (factory c) ++
      [json_dumps
         (JDict [("method", JStr "get"); ("resource", JStr "/feeds");
                 ("headers", headers c);
                 ("token", JStr (uuid1 (uuid1_calls c)))])].
Proof.
  intros Hon. repeat (split; [reflexivity|]).
  destruct (request_online "get" "/feeds" JNull JNull None list_feeds_frame
              c Hon) as (c1 & Hrun & _ & _ & Hw).
  change (list_feeds parameters c)
    with (bind (_sendRequest "get" "/feeds" JNull JNull None)
               (await list_feeds_frame) c).
  rewrite Hrun. exact Hw.
Qed.

End WithRuntime.

Lemma after_yield_expected_response_witness :
  @after_yield Sample.runtime create_feed_frame
    (JDict [("status", JNum 201);
            ("headers",
             JDict [("LOCATION",
                     JStr ("http://api.cosm.com/v2/feeds" +:+ String "/" "504"))])])
    Sample.offline
  = Return (VStr "504") Sample.offline.
Proof.
  eapply (proj2 (@after_yield_expected_response Sample.runtime));
    reflexivity.
Defined.

Lemma reads_ignore_status_witness :
  @after_yield Sample.runtime read_feed_frame
    (JDict (Sample.fields "t" 404)) Sample.offline
  = @after_yield Sample.runtime read_feed_frame
      (JDict (Sample.fields "t" 200)) Sample.offline.
Proof.
  apply (proj2 (@reads_ignore_status Sample.runtime read_feed_frame
                  View_Feed_Msg (or_intror (or_introl eq_refl)))).
  reflexivity.
Defined.

Lemma message_touches_its_token_only_witness :
  pendingResponses
    (final_state (@_messageHandler Sample.runtime "stray" Sample.online))
    !! "other"
  = pendingResponses Sample.online !! "other" /\
  subscriptionHandlers
    (final_state (@_messageHandler Sample.runtime "stray" Sample.online))
    !! "other"
  = subscriptionHandlers Sample.online !! "other".
Proof.
  apply (@message_touches_its_token_only Sample.runtime "stray"
           (Sample.fields "nobody" 200) "nobody" "other" Sample.online).
  - exact RunFacts.online_reachable.
  - reflexivity.
  - reflexivity.
  - discriminate.
Defined.

Lemma read_parameters_not_sent_witness :
  @list_feeds Sample.runtime (JDict [("per_page", JNum 5)]) Sample.online
  = @list_feeds Sample.runtime JNull Sample.online.
Proof.
  apply (@read_parameters_not_sent Sample.runtime
           (JDict [("per_page", JNum 5)]) Sample.online).
  split; [reflexivity | eexists; reflexivity].
Defined.

End OperationFacts.

(** ** An HTTP request from its sending to its end *)

Module RequestFacts.
Import HTTPClient HTTPClientFacts.

Section WithRuntime.
Context `{Runtime}.

(** [_sendRequest] puts the request under a new identifier in all
    three dicts, with two new deferreds and an armed timer. *)
Lemma _sendRequest_effect method url c :
  let request_id := next_request_id c in
  let request_d := next_object c in
  let response_d := S (next_object c) in
  exists c1,
    _sendRequest method url c = Return response_d c1 /\
    pendingRequests c1 = <[request_id := request_d]> (pendingRequests c) /\
    pendingTimeouts c1 = <[request_id := Armed]> (pendingTimeouts c) /\
    pendingResponses c1 = <[request_id := response_d]> (pendingResponses c) /\
    deferreds c1 =
      <[response_d := Unfired]> (<[request_d := Unfired]> (deferreds c)) /\
    next_object c1 = S (S (next_object c)) /\
    uuid4_calls c1 = S (uuid4_calls c) /\
    trace c1 = trace c ++ [Log DEBUG (SendingRequest method url);
                           AgentRequest method url request_d;
                           CallLater request_id url].
Proof.
  cbv zeta. unfold _sendRequest, bind, logging, emit, modify, uuid4,
    new_deferred, set_item, ret, next_request_id. cbn.
  eexists. split; [reflexivity|]. cbn. rewrite <- !app_assoc. auto 10.
Qed.

(** X17.  Whatever the client holds, a request that is sent is filed
    under its new identifier in the three dicts, with its timer armed,
    and the caller gets a deferred that has not fired.  From there the
    deadline answers the caller with [None] and cancels the request,
    and a response whose body is read to its end answers the caller
    with that response and body. *)
Theorem _sendRequest_then_answer method url c :
  let request_id := next_request_id c in
  let request_d := next_object c in
  exists c1 response_d,
    _sendRequest method url c = Return response_d c1 /\
    pendingRequests c1 !! request_id = Some request_d /\
    pendingTimeouts c1 !! request_id = Some Armed /\
    pendingResponses c1 !! request_id = Some response_d /\
    state_of c1 request_d = Unfired /\
    state_of c1 response_d = Unfired /\
    (exists c2,
        timer_fires request_id url c1 = Return tt c2 /\
        state_of c2 response_d = Fired RNone /\
        trace c2 = trace c1 ++ [Log ERROR (RequestTimeout url);
                                CancelOperation request_d]) /\
    (forall r responseBody,
      exists c2,
        _handle_response r responseBody request_id url c1 = Return tt c2 /\
        state_of c2 response_d = Fired (RTuple r responseBody)).
Proof.
  cbv zeta.
  destruct (_sendRequest_effect method url c)
    as (c1 & Hrun & Hpr & Hpt & Hps & Hd & Hn & _ & _).
  exists c1, (S (next_object c)).
  assert (Hreq : pendingRequests c1 !! next_request_id c = Some (next_object c))
    by (rewrite Hpr; apply lookup_insert_eq).
  assert (Hto : pendingTimeouts c1 !! next_request_id c = Some Armed)
    by (rewrite Hpt; apply lookup_insert_eq).
  assert (Hresp : pendingResponses c1 !! next_request_id c
                  = Some (S (next_object c)))
    by (rewrite Hps; apply lookup_insert_eq).
  assert (Hun : state_of c1 (S (next_object c)) = Unfired)
    by (unfold state_of; rewrite Hd; apply lookup_total_insert_eq).
  assert (Hun' : state_of c1 (next_object c) = Unfired).
  { unfold state_of. rewrite Hd.
    rewrite lookup_total_insert_ne by lia. apply lookup_total_insert_eq. }
  repeat (split; [assumption|]). split.
  - unfold timer_fires, bind, get_state. rewrite Hto.
    unfold set_item, modify.
    match goal with
    | |- context [_handle_request_timeout _ _ ?c0] => set (c1' := c0)
    end.
    destruct (_handle_request_timeout_effect (next_request_id c) url c1'
                Called (next_object c) (S (next_object c)))
      as (c2 & Hrun2 & _ & _ & _ & Hcaller & Hreq2);
      try assumption.
    + unfold c1'. cbn. apply lookup_insert_eq.
    + lia.
    + exists c2. split; [exact Hrun2|]. split; [exact Hcaller|].
      change (state_of c1' (next_object c)) with (state_of c1 (next_object c))
        in Hreq2.
      rewrite Hun' in Hreq2. apply Hreq2.
  - intros r responseBody.
    destruct (_handle_response_effect r responseBody (next_request_id c) url
                c1 (next_object c) (S (next_object c)))
      as (cy & c2 & _ & _ & _ & Hrun2 & _ & _ & _ & Hfired);
      try assumption.
    + rewrite Hn. lia.
    + exists c2. auto.
Qed.

End WithRuntime.

(** The theorem on the first request of a new client. *)
Lemma _sendRequest_then_answer_witness :
  exists c1 response_d,
    @_sendRequest Sample.runtime "GET" Sample.url init
    = Return response_d c1 /\
    pendingRequests c1 !! Sample.request_id = Some 0 /\
    pendingTimeouts c1 !! Sample.request_id = Some Armed /\
    pendingResponses c1 !! Sample.request_id = Some response_d /\
    state_of c1 0 = Unfired /\
    state_of c1 response_d = Unfired /\
    (exists c2,
        timer_fires Sample.request_id Sample.url c1 = Return tt c2 /\
        state_of c2 response_d = Fired RNone /\
        trace c2 = trace c1 ++ [Log ERROR (RequestTimeout Sample.url);
                                CancelOperation 0]) /\
    (forall r responseBody,
      exists c2,
        _handle_response r responseBody Sample.request_id Sample.url c1
        = Return tt c2 /\
        state_of c2 response_d = Fired (RTuple r responseBody)).
Proof.
  exact (@_sendRequest_then_answer Sample.runtime "GET" Sample.url init).
Defined.

(** X18.  The caller of a request is answered at most once.  After a
    response has been handled the timer is cancelled, so the reactor
    runs nothing at the deadline; and each handler, were it run after
    the other, raises [KeyError] on the entry the other has removed
    before it gets to the caller's deferred, which keeps the answer it
    has. *)
Theorem answered_at_most_once r responseBody request_id url c request_d
    response_d :
  pendingRequests c !! request_id = Some request_d ->
  pendingTimeouts c !! request_id = Some Armed ->
  pendingResponses c !! request_id = Some response_d ->
  state_of c response_d = Unfired ->
  request_d <> response_d ->
  response_d <> next_object c ->
  (exists c',
      _handle_response r responseBody request_id url c = Return tt c' /\
      timer_fires request_id url c' = Return tt c' /\
      exists c'',
        _handle_request_timeout request_id url c'
        = Raise (KeyError request_id) c'' /\
        state_of c'' response_d = Fired (RTuple r responseBody)) /\
  (exists c',
      timer_fires request_id url c = Return tt c' /\
      exists c'',
        _handle_response r responseBody request_id url c'
        = Raise (KeyError request_id) c'' /\
        state_of c'' response_d = Fired RNone).
Proof.
  intros Hr Ht Hresp Hun Hne Hnew. split.
  - destruct (_handle_response_effect r responseBody request_id url c
                request_d response_d Hr Ht Hresp Hun Hnew)
      as (cy & c' & _ & _ & _ & Hrun & Hpr & Hps & Hpt & Hfired).
    exists c'. split; [exact Hrun|]. split.
    + unfold timer_fires, bind, get_state.
      rewrite Hpt, lookup_insert_eq. reflexivity.
    + unfold _handle_request_timeout.
      unfold bind at 1, logging, emit, modify.
      unfold bind at 1.
      erewrite del_item_some
        by (simpl_state; rewrite Hpt; apply lookup_insert_eq).
      unfold bind at 1, item, bind, get_state. simpl_state.
      rewrite Hpr, lookup_delete_eq. unfold raise.
      eexists. split; [reflexivity|]. exact Hfired.
  - unfold timer_fires, bind, get_state. rewrite Ht.
    unfold set_item, modify.
    match goal with
    | |- context [_handle_request_timeout _ _ ?c0] => set (c1 := c0)
    end.
    destruct (_handle_request_timeout_effect request_id url c1 Called
                request_d response_d)
      as (c' & Hrun & Hpt & Hpr & Hps & Hcaller & _); try assumption.
    { unfold c1. cbn. apply lookup_insert_eq. }
    exists c'. split; [exact Hrun|].
    unfold _handle_response, bind at 1, _handle_response_to_yield.
    unfold bind at 1.
    erewrite del_item_some by (rewrite Hpr; exact Hr).
    unfold bind at 1, item, bind, get_state. simpl_state.
    rewrite Hpt. unfold c1. simpl_state.
    rewrite lookup_delete_eq. unfold raise.
    eexists. split; [reflexivity|]. exact Hcaller.
Qed.

Lemma answered_at_most_once_witness :
  (exists c',
      _handle_response Sample.ok_response "[]" Sample.request_id Sample.url
        Sample.in_flight = Return tt c' /\
      timer_fires Sample.request_id Sample.url c' = Return tt c' /\
      exists c'',
        _handle_request_timeout Sample.request_id Sample.url c'
        = Raise (KeyError Sample.request_id) c'' /\
        state_of c'' 1 = Fired (RTuple Sample.ok_response "[]")) /\
  (exists c',
      timer_fires Sample.request_id Sample.url Sample.in_flight
      = Return tt c' /\
      exists c'',
        _handle_response Sample.ok_response "[]" Sample.request_id
          Sample.url c'
        = Raise (KeyError Sample.request_id) c'' /\
        state_of c'' 1 = Fired RNone).
Proof.
  assert (Hne : 1 <> next_object Sample.in_flight).
  { vm_compute. discriminate. }
  apply (answered_at_most_once Sample.ok_response "[]" Sample.request_id
           Sample.url Sample.in_flight 0 1).
  - reflexivity.
  - reflexivity.
  - reflexivity.
  - reflexivity.
  - discriminate.
  - exact Hne.
Defined.

End RequestFacts.

(** ** Requests side by side, bodies and failures *)

Module ExchangeFacts.
Import HTTPClient HTTPClientFacts.

(** The end of the fired-timeout handler, from the cancellation on,
    touches no deferred but the two of its request. *)
Lemma cancel_then_callback_frame request_id c request_d response_d :
  pendingResponses c !! request_id = Some response_d ->
  state_of c response_d = Unfired ->
  request_d <> response_d ->
  exists c',
    (cancel request_d ;;;
     response_d0 <- item pendingResponses request_id ;;
     callback response_d0 RNone)%py c = Return tt c' /\
    pendingRequests c' = pendingRequests c /\
    pendingResponses c' = pendingResponses c /\
    pendingTimeouts c' = pendingTimeouts c /\
    forall d, d <> request_d -> d <> response_d ->
      state_of c' d = state_of c d.
Proof.
  intros Hresp Hun Hne.
  unfold bind at 1, cancel, bind at 1, get_state.
  destruct (state_of c request_d) as [|x] eqn:Hreq.
  - unfold bind at 1, emit, modify. cbn.
    unfold bind. erewrite item_some by (cbn; exact Hresp).
    erewrite callback_unfired.
    2: { unfold state_of in *. cbn.
         rewrite lookup_total_insert_ne by congruence. exact Hun. }
    eexists. split; [reflexivity|]. cbn. repeat split.
    intros d Hd1 Hd2. unfold state_of. cbn.
    rewrite !lookup_total_insert_ne by congruence. reflexivity.
  - unfold ret at 1, bind.
    erewrite item_some by exact Hresp.
    erewrite callback_unfired by exact Hun.
    eexists. split; [reflexivity|]. cbn. repeat split.
    intros d Hd1 Hd2. unfold state_of. cbn.
    rewrite !lookup_total_insert_ne by congruence. reflexivity.
Qed.

(** The fired-timeout handler leaves the entries of the other requests
    and every deferred but the two of its own request as they are. *)
Lemma _handle_request_timeout_frame request_id url c t request_d
    response_d :
  pendingTimeouts c !! request_id = Some t ->
  pendingRequests c !! request_id = Some request_d ->
  pendingResponses c !! request_id = Some response_d ->
  state_of c response_d = Unfired ->
  request_d <> response_d ->
  exists c',
    _handle_request_timeout request_id url c = Return tt c' /\
    pendingRequests c' = pendingRequests c /\
    pendingResponses c' = pendingResponses c /\
    pendingTimeouts c' = delete request_id (pendingTimeouts c) /\
    forall d, d <> request_d -> d <> response_d ->
      state_of c' d = state_of c d.
Proof.
  intros Ht Hr Hresp Hun Hne.
  unfold _handle_request_timeout.
  unfold bind at 1, logging, emit, modify.
  unfold bind at 1. erewrite del_item_some by (cbn; exact Ht).
  unfold bind at 1. erewrite item_some by (cbn; exact Hr).
  unfold bind at 1, add_ignore_cancelled_error, bind at 1, get_state.
  match goal with
  | |- context [state_of ?c0 request_d] => set (c1 := c0)
  end.
  assert (Hc1 : forall d, state_of c1 d = state_of c d) by reflexivity.
  assert (Hstep : exists c2,
             (match state_of c1 request_d with
              | Fired (RFailure CancelledError) =>
                  modify (fun c =>
                    set_deferreds (<[request_d := Fired RNone]> (deferreds c)) c)
              | _ => ret tt
              end) c1 = Return tt c2 /\
             pendingRequests c2 = pendingRequests c /\
             pendingResponses c2 = pendingResponses c /\
             pendingTimeouts c2 = delete request_id (pendingTimeouts c) /\
             forall d, d <> request_d -> state_of c2 d = state_of c d).
  { destruct (state_of c1 request_d) as [|[| |[]]];
      try (exists c1; split; [reflexivity|]; repeat split; auto).
    eexists. split; [reflexivity|]. cbn. repeat split.
    intros d Hd. unfold state_of. cbn.
    rewrite lookup_total_insert_ne by congruence. reflexivity. }
  destruct Hstep as (c2 & Hrun & Hpr & Hps & Hpt & Hfr).
  rewrite Hrun.
  destruct (cancel_then_callback_frame request_id c2 request_d response_d)
    as (c' & Hrun' & Hpr' & Hps' & Hpt' & Hfr').
  - rewrite Hps. exact Hresp.
  - rewrite Hfr by congruence. exact Hun.
  - exact Hne.
  - exists c'. split; [exact Hrun'|].
    rewrite Hpr', Hps', Hpt', Hpr, Hps, Hpt. repeat split.
    intros d Hd1 Hd2. rewrite Hfr' by assumption. apply Hfr. exact Hd1.
Qed.

(** The response handler leaves the entries of the other requests and
    every deferred but the caller's and the one it creates as they
    are. *)
Lemma _handle_response_frame r responseBody request_id url c request_d
    response_d :
  pendingRequests c !! request_id = Some request_d ->
  pendingTimeouts c !! request_id = Some Armed ->
  pendingResponses c !! request_id = Some response_d ->
  state_of c response_d = Unfired ->
  response_d <> next_object c ->
  exists c',
    _handle_response r responseBody request_id url c = Return tt c' /\
    pendingRequests c' = delete request_id (pendingRequests c) /\
    pendingResponses c' = delete request_id (pendingResponses c) /\
    pendingTimeouts c' = <[request_id := Cancelled]> (pendingTimeouts c) /\
    forall d, d <> response_d -> d <> next_object c ->
      state_of c' d = state_of c d.
Proof.
  intros Hr Ht Hresp Hun Hne.
  assert (Hy : exists cy,
             _handle_response_to_yield r request_id url c
             = Return (next_object c) cy /\
             pendingRequests cy = delete request_id (pendingRequests c) /\
             pendingResponses cy = pendingResponses c /\
             pendingTimeouts cy =
               <[request_id := Cancelled]> (pendingTimeouts c) /\
             deferreds cy = <[next_object c := Unfired]> (deferreds c)).
  { unfold _handle_response_to_yield.
    unfold bind at 1. erewrite del_item_some by exact Hr.
    unfold bind at 1. erewrite item_some by (simpl_state; exact Ht).
    unfold bind at 1, lift, cancel_call, ret at 1.
    unfold bind at 1, set_item, modify.
    unfold _handleResponseHeader, bind, logging, emit, modify,
      new_deferred, ret. cbn.
    eexists. split; [reflexivity|]. cbn. auto. }
  destruct Hy as (cy & Hrun & Hpr & Hps & Hpt & Hdf).
  assert (Huny : state_of cy response_d = Unfired).
  { unfold state_of in *. rewrite Hdf.
    rewrite lookup_total_insert_ne by congruence. exact Hun. }
  assert (Hfin : state_of cy (next_object c) = Unfired).
  { unfold state_of. rewrite Hdf. apply lookup_total_insert_eq. }
  unfold _handle_response. unfold bind at 1. rewrite Hrun.
  unfold bind at 1. rewrite (callback_unfired _ _ _ Hfin).
  unfold _handle_response_from_yield.
  unfold bind at 1.
  erewrite item_some by (simpl_state; rewrite Hps; exact Hresp).
  unfold bind at 1.
  erewrite del_item_some by (simpl_state; rewrite Hps; exact Hresp).
  erewrite callback_unfired.
  2: { unfold state_of in *. simpl_state.
       rewrite lookup_total_insert_ne by congruence. exact Huny. }
  eexists. split; [reflexivity|].
  unfold state_of. cbn. rewrite Hpr, Hps, Hpt, Hdf. repeat split.
  intros d Hd1 Hd2. rewrite !lookup_total_insert_ne by congruence.
  reflexivity.
Qed.

(** X19.  Requests in flight side by side do not disturb each other.
    Handling the response of one request, or its deadline, leaves the
    entries filed under every other request identifier as they are in
    all three dicts, and leaves every deferred as it is except the
    caller's and, for a response, the new one that collects the body,
    for a deadline, the one of the request itself. *)
Theorem other_requests_untouched r responseBody request_id url c request_d
    response_d :
  pendingRequests c !! request_id = Some request_d ->
  pendingTimeouts c !! request_id = Some Armed ->
  pendingResponses c !! request_id = Some response_d ->
  state_of c response_d = Unfired ->
  request_d <> response_d ->
  response_d <> next_object c ->
  (exists c',
      _handle_response r responseBody request_id url c = Return tt c' /\
      (forall other, other <> request_id ->
         pendingRequests c' !! other = pendingRequests c !! other /\
         pendingTimeouts c' !! other = pendingTimeouts c !! other /\
         pendingResponses c' !! other = pendingResponses c !! other) /\
      (forall d, d <> response_d -> d <> next_object c ->
         state_of c' d = state_of c d)) /\
  (exists c',
      timer_fires request_id url c = Return tt c' /\
      (forall other, other <> request_id ->
         pendingRequests c' !! other = pendingRequests c !! other /\
         pendingTimeouts c' !! other = pendingTimeouts c !! other /\
         pendingResponses c' !! other = pendingResponses c !! other) /\
      (forall d, d <> request_d -> d <> response_d ->
         state_of c' d = state_of c d)).
Proof.
  intros Hr Ht Hresp Hun Hne Hnew. split.
  - destruct (_handle_response_frame r responseBody request_id url c
                request_d response_d Hr Ht Hresp Hun Hnew)
      as (c' & Hrun & Hpr & Hps & Hpt & Hfr).
    exists c'. split; [exact Hrun|]. split; [|exact Hfr].
    intros other Hother. rewrite Hpr, Hps, Hpt.
    rewrite !lookup_delete_ne by congruence.
    rewrite lookup_insert_ne by congruence. auto.
  - unfold timer_fires, bind, get_state. rewrite Ht.
    unfold set_item, modify.
    match goal with
    | |- context [_handle_request_timeout _ _ ?c0] => set (c1 := c0)
    end.
    destruct (_handle_request_timeout_frame request_id url c1 Called
                request_d response_d)
      as (c' & Hrun & Hpr & Hps & Hpt & Hfr); try assumption.
    { unfold c1. cbn. apply lookup_insert_eq. }
    exists c'. split; [exact Hrun|]. split; [|exact Hfr].
    intros other Hother. rewrite Hpr, Hps, Hpt. unfold c1. cbn.
    rewrite lookup_delete_ne by congruence.
    rewrite lookup_insert_ne by congruence. auto.
Qed.

Lemma other_requests_untouched_witness :
  (exists c',
      _handle_response Sample.ok_response "[]" Sample.request_id Sample.url
        Exchange.two_in_flight = Return tt c' /\
      (forall other, other <> Sample.request_id ->
         pendingRequests c' !! other
         = pendingRequests Exchange.two_in_flight !! other /\
         pendingTimeouts c' !! other
         = pendingTimeouts Exchange.two_in_flight !! other /\
         pendingResponses c' !! other
         = pendingResponses Exchange.two_in_flight !! other) /\
      (forall d, d <> 1 -> d <> next_object Exchange.two_in_flight ->
         state_of c' d = state_of Exchange.two_in_flight d)) /\
  (exists c',
      timer_fires Sample.request_id Sample.url Exchange.two_in_flight
      = Return tt c' /\
      (forall other, other <> Sample.request_id ->
         pendingRequests c' !! other
         = pendingRequests Exchange.two_in_flight !! other /\
         pendingTimeouts c' !! other
         = pendingTimeouts Exchange.two_in_flight !! other /\
         pendingResponses c' !! other
         = pendingResponses Exchange.two_in_flight !! other) /\
      (forall d, d <> 0 -> d <> 1 ->
         state_of c' d = state_of Exchange.two_in_flight d)).
Proof.
  assert (Hne : 1 <> next_object Exchange.two_in_flight).
  { vm_compute. discriminate. }
  apply (other_requests_untouched Sample.ok_response "[]" Sample.request_id
           Sample.url Exchange.two_in_flight 0 1).
  - reflexivity.
  - reflexivity.
  - reflexivity.
  - reflexivity.
  - discriminate.
  - exact Hne.
Defined.

(** X23.  A request that the agent fails, with anything but a
    cancellation, is not reported to its caller: the failure stays in
    the request deferred, the three entries stay in place and the
    caller's deferred stays unfired.  The caller is answered at the
    deadline, with [None] as for a request that got no response, and
    nothing is cancelled then. *)
Theorem failed_request_answered_at_deadline e request_id url c request_d
    response_d :
  pendingRequests c !! request_id = Some request_d ->
  pendingTimeouts c !! request_id = Some Armed ->
  pendingResponses c !! request_id = Some response_d ->
  state_of c request_d = Unfired ->
  state_of c response_d = Unfired ->
  request_d <> response_d ->
  e <> CancelledError ->
  exists c1,
    request_fails request_d e c = Return tt c1 /\
    state_of c1 request_d = Fired (RFailure e) /\
    state_of c1 response_d = Unfired /\
    pendingRequests c1 = pendingRequests c /\
    pendingTimeouts c1 = pendingTimeouts c /\
    pendingResponses c1 = pendingResponses c /\
    trace c1 = trace c /\
    exists c2,
      timer_fires request_id url c1 = Return tt c2 /\
      state_of c2 response_d = Fired RNone /\
      state_of c2 request_d = Fired (RFailure e) /\
      trace c2 = trace c ++ [Log ERROR (RequestTimeout url)].
Proof.
  intros Hr Ht Hresp Hreq Hun Hne He.
  set (c1 := set_deferreds (<[request_d := Fired (RFailure e)]> (deferreds c)) c).
  assert (Hrun : request_fails request_d e c = Return tt c1).
  { unfold request_fails, bind at 1, get_state. rewrite Hreq.
    unfold bind, modify, add_ignore_cancelled_error, bind, get_state.
    fold c1.
    assert (Hs : state_of c1 request_d = Fired (RFailure e))
      by (unfold state_of, c1; cbn; apply lookup_total_insert_eq).
    rewrite Hs. destruct e; try reflexivity. congruence. }
  assert (Hs1 : state_of c1 request_d = Fired (RFailure e))
    by (unfold state_of, c1; cbn; apply lookup_total_insert_eq).
  assert (Hs2 : state_of c1 response_d = Unfired).
  { unfold state_of, c1 in *. cbn.
    rewrite lookup_total_insert_ne by congruence. exact Hun. }
  exists c1. repeat (split; [first [assumption | reflexivity]|]).
  unfold timer_fires, bind, get_state.
  change (pendingTimeouts c1) with (pendingTimeouts c). rewrite Ht.
  unfold set_item, modify.
  match goal with
  | |- context [_handle_request_timeout _ _ ?c0] => set (c1' := c0)
  end.
  destruct (_handle_request_timeout_effect request_id url c1' Called
              request_d response_d)
    as (c2 & Hrun2 & _ & _ & _ & Hcaller & Hcase); try assumption.
  { unfold c1'. cbn. apply lookup_insert_eq. }
  exists c2. split; [exact Hrun2|]. split; [exact Hcaller|].
  change (state_of c1' request_d) with (state_of c1 request_d) in Hcase.
  rewrite Hs1 in Hcase.
  destruct e; try exact Hcase. congruence.
Qed.

Lemma failed_request_answered_at_deadline_witness :
  exists c1,
    request_fails 0 ConnectError Sample.in_flight = Return tt c1 /\
    state_of c1 0 = Fired (RFailure ConnectError) /\
    state_of c1 1 = Unfired /\
    pendingRequests c1 = pendingRequests Sample.in_flight /\
    pendingTimeouts c1 = pendingTimeouts Sample.in_flight /\
    pendingResponses c1 = pendingResponses Sample.in_flight /\
    trace c1 = trace Sample.in_flight /\
    exists c2,
      timer_fires Sample.request_id Sample.url c1 = Return tt c2 /\
      state_of c2 1 = Fired RNone /\
      state_of c2 0 = Fired (RFailure ConnectError) /\
      trace c2 = trace Sample.in_flight
                 ++ [Log ERROR (RequestTimeout Sample.url)].
Proof.
  apply (failed_request_answered_at_deadline ConnectError Sample.request_id
           Sample.url Sample.in_flight 0 1).
  - reflexivity.
  - reflexivity.
  - reflexivity.
  - reflexivity.
  - reflexivity.
  - discriminate.
  - discriminate.
Defined.

(** X22.  A creation whose response has status 201 and Location
    values returns the part after the last slash of the first value;
    with one value nothing is logged, and further values are only
    reported in a warning. *)
Theorem create_feed_result_location r responseBody c location more prefix
    feed_id :
  code r = 201%Z ->
  getRawHeaders r "Location" = Some (location :: more) ->
  location = prefix +:+ String "/" feed_id ->
  PAWSProtocol.contains "/" feed_id = false ->
  create_feed_result (Some (r, responseBody)) c
  = Return (VStr feed_id)
      match more with
      | [] => c
      | _ => add_events
               [Log WARNING (UnexpectedLocationCount (location :: more))] c
      end.
Proof.
  intros Hcode Hraw Hloc Hfree.
  unfold create_feed_result. rewrite Hcode. cbn [Z.eqb Pos.eqb].
  unfold bind at 1, _getLocationFromHeader. rewrite Hcode.
  cbn [Z.eqb Pos.eqb].
  unfold hasHeader. unfold getRawHeaders in Hraw |- *. rewrite Hraw.
  rewrite bool_decide_eq_true_2 by (eexists; reflexivity).
  assert (Hid : last_segment location = feed_id).
  { unfold last_segment. rewrite Hloc.
    rewrite OperationFacts.last_split_after.
    apply OperationFacts.last_split_free. exact Hfree. }
  destruct more; cbn; rewrite Hid; reflexivity.
Qed.

Lemma create_feed_result_location_witness :
  create_feed_result (Some (Exchange.created_response, "")) init
  = Return (VStr "1234") init.
Proof.
  apply (create_feed_result_location Exchange.created_response "" init
           "http://api.cosm.com/v2/feeds/1234" []
           "http://api.cosm.com/v2/feeds" "1234").
  - reflexivity.
  - reflexivity.
  - reflexivity.
  - reflexivity.
Defined.

End ExchangeFacts.

(** ** The body of a response *)

Module BodyFacts.
Import HTTPClient HTTPClientFacts ResponseBodyProtocol.

(** The chunks are appended to the buffer in the order they come. *)
Lemma receive_all_effect chunks p c :
  receive_all chunks (p, c)
  = Return tt (set_buffer (buffer p ++ chunks) p, c).
Proof.
  revert p. induction chunks as [|bytes rest IH]; intros p.
  - cbn. unfold ret. rewrite app_nil_r. destruct p; reflexivity.
  - cbn [receive_all]. unfold bind at 1, dataReceived, on_protocol, modify.
    cbn [fst snd]. rewrite IH. cbn. rewrite <- app_assoc. reflexivity.
Qed.

(** [_handle_response] up to its [yield], on a request whose entries
    are in place and whose timer is armed. *)
Lemma _handle_response_to_yield_effect r request_id url c request_d :
  pendingRequests c !! request_id = Some request_d ->
  pendingTimeouts c !! request_id = Some Armed ->
  exists cy,
    _handle_response_to_yield r request_id url c
    = Return (next_object c) cy /\
    pendingRequests cy = delete request_id (pendingRequests c) /\
    pendingResponses cy = pendingResponses c /\
    pendingTimeouts cy = <[request_id := Cancelled]> (pendingTimeouts c) /\
    deferreds cy = <[next_object c := Unfired]> (deferreds c).
Proof.
  intros Hr Ht.
  unfold _handle_response_to_yield.
  unfold bind at 1. erewrite del_item_some by exact Hr.
  unfold bind at 1. erewrite item_some by (simpl_state; exact Ht).
  unfold bind at 1, lift, cancel_call, ret at 1.
  unfold bind at 1, set_item, modify.
  unfold _handleResponseHeader, bind, logging, emit, modify,
    new_deferred, ret. cbn.
  eexists. split; [reflexivity|]. cbn. auto.
Qed.

(** X20.  The body handed to the caller is the chunks of the response
    joined in the order they arrived.  When the connection ends with
    [ResponseDone], the protocol fires [finished] with the response and
    that body and empties its buffer, [_handle_response] goes on from
    its [yield], and the caller's deferred fires with the pair; the
    client ends as after a response handled with that body in one
    step. *)
Theorem body_in_arrival_order r chunks request_id url c request_d
    response_d :
  pendingRequests c !! request_id = Some request_d ->
  pendingTimeouts c !! request_id = Some Armed ->
  pendingResponses c !! request_id = Some response_d ->
  state_of c response_d = Unfired ->
  response_d <> next_object c ->
  let responseData := String.concat EmptyString chunks in
  exists p' c',
    response_arrives r chunks ResponseDone request_id url c
    = Return tt (p', c') /\
    _handle_response r responseData request_id url c = Return tt c' /\
    state_of c' (finished p') = Fired (RTuple r responseData) /\
    state_of c' response_d = Fired (RTuple r responseData) /\
    buffer p' = [] /\
    log p' = [(DEBUG, "Response body fully received")].
Proof.
  intros Hr Ht Hresp Hun Hne responseData.
  destruct (_handle_response_effect r responseData request_id url c
              request_d response_d Hr Ht Hresp Hun Hne)
    as (cy & c' & Hto & _ & Huny & Hrun & _ & _ & _ & Hfired).
  destruct (_handle_response_to_yield_effect r request_id url c request_d
              Hr Ht) as (cy' & Hto' & _ & _ & _ & Hdf).
  rewrite Hto in Hto'. injection Hto' as <-.
  assert (Hfin : state_of cy (next_object c) = Unfired).
  { unfold state_of. rewrite Hdf. apply lookup_total_insert_eq. }
  pose proof Hrun as Hrest.
  unfold _handle_response in Hrest. unfold bind at 1 in Hrest.
  rewrite Hto in Hrest. unfold bind at 1 in Hrest.
  rewrite (callback_unfired _ _ _ Hfin) in Hrest.
  set (cf := set_deferreds
               (<[next_object c := Fired (RTuple r responseData)]>
                  (deferreds cy)) cy) in Hrest.
  assert (Hother : forall d, d <> response_d ->
                     state_of c' d = state_of cf d).
  { intros d Hd. revert Hrest.
    unfold _handle_response_from_yield.
    unfold bind at 1.
    assert (Hps : pendingResponses cf !! request_id = Some response_d).
    { destruct (_handle_response_to_yield_effect r request_id url c
                  request_d Hr Ht) as (cy' & Hto' & _ & Hps & _).
      rewrite Hto in Hto'. injection Hto' as <-.
      unfold cf. simpl_state. rewrite Hps. exact Hresp. }
    erewrite item_some by exact Hps.
    unfold bind at 1. erewrite del_item_some by exact Hps.
    erewrite callback_unfired.
    2: { unfold state_of, cf in *. simpl_state.
         rewrite lookup_total_insert_ne by congruence. exact Huny. }
    intros [= <-]. unfold state_of. simpl_state.
    rewrite lookup_total_insert_ne by congruence. reflexivity. }
  assert (Hcf : state_of cf (next_object c)
                = Fired (RTuple r responseData)).
  { unfold state_of, cf. simpl_state. apply lookup_total_insert_eq. }
  unfold response_arrives. rewrite Hto.
  unfold bind at 1. rewrite receive_all_effect.
  unfold bind at 1, connectionLost, bind at 1, trap. cbn [List.find].
  rewrite bool_decide_eq_true_2 by reflexivity.
  unfold ret at 1. rewrite bool_decide_eq_true_2 by reflexivity.
  unfold bind at 1, on_protocol, modify.
  unfold bind at 1, get_state. unfold bind at 1.
  cbn [fst snd new buffer set_buffer add_log finished response log
       app].
  unfold on_client at 1. cbn [fst snd].
  fold responseData.
  rewrite (callback_unfired _ _ _ Hfin). fold cf.
  unfold resume_handle_response, bind, get_state. cbn [fst snd finished].
  cbn [finished set_buffer add_log new].
  rewrite Hcf. unfold on_client. cbn [fst snd]. rewrite Hrest.
  eexists _, c'. split; [reflexivity|].
  cbn [finished buffer log set_buffer add_log new app].
  split; [exact Hrun|]. split; [|auto].
  rewrite Hother by congruence. exact Hcf.
Qed.

Lemma body_in_arrival_order_witness :
  exists p' c',
    response_arrives Sample.ok_response ["[1,"; " 2,"; " 3]"] ResponseDone
      Sample.request_id Sample.url Sample.in_flight
    = Return tt (p', c') /\
    _handle_response Sample.ok_response "[1, 2, 3]" Sample.request_id
      Sample.url Sample.in_flight = Return tt c' /\
    state_of c' (finished p') = Fired (RTuple Sample.ok_response "[1, 2, 3]") /\
    state_of c' 1 = Fired (RTuple Sample.ok_response "[1, 2, 3]") /\
    buffer p' = [] /\
    log p' = [(DEBUG, "Response body fully received")].
Proof.
  assert (Hne : 1 <> next_object Sample.in_flight).
  { vm_compute. discriminate. }
  apply (body_in_arrival_order Sample.ok_response ["[1,"; " 2,"; " 3]"]
           Sample.request_id Sample.url Sample.in_flight 0 1).
  - reflexivity.
  - reflexivity.
  - reflexivity.
  - reflexivity.
  - exact Hne.
Defined.

(** X21.  When the connection ends with anything but [ResponseDone],
    [trap] raises the failure again inside [connectionLost]: nothing is
    logged (the branch that reports a problem is never reached), the
    chunks stay in the buffer and [finished] is not fired.  The timer
    of the request was cancelled when the headers came, so nothing runs
    at the deadline either: the caller's deferred is never fired and
    its entry stays in [pendingResponses]. *)
Theorem body_failure_strands_caller r chunks rsn request_id url c
    request_d response_d :
  pendingRequests c !! request_id = Some request_d ->
  pendingTimeouts c !! request_id = Some Armed ->
  pendingResponses c !! request_id = Some response_d ->
  state_of c response_d = Unfired ->
  response_d <> next_object c ->
  rsn <> ResponseDone ->
  exists p' c',
    response_arrives r chunks rsn request_id url c
    = Raise (exception_of rsn) (p', c') /\
    buffer p' = chunks /\
    log p' = [] /\
    state_of c' (finished p') = Unfired /\
    state_of c' response_d = Unfired /\
    pendingResponses c' !! request_id = Some response_d /\
    pendingTimeouts c' !! request_id = Some Cancelled /\
    timer_fires request_id url c' = Return tt c'.
Proof.
  intros Hr Ht Hresp Hun Hne Hrsn.
  destruct (_handle_response_to_yield_effect r request_id url c request_d
              Hr Ht) as (cy & Hto & Hpr & Hps & Hpt & Hdf).
  unfold response_arrives. rewrite Hto.
  unfold bind at 1. rewrite receive_all_effect.
  unfold bind at 1, connectionLost, bind at 1, trap. cbn [List.find].
  rewrite bool_decide_eq_false_2 by congruence.
  unfold raise.
  eexists _, cy. split; [reflexivity|].
  cbn [new buffer set_buffer log finished app].
  unfold state_of. rewrite Hdf, Hps, Hpt.
  rewrite lookup_total_insert_eq.
  rewrite lookup_total_insert_ne by congruence.
  rewrite lookup_insert_eq.
  repeat (split; [first [reflexivity | assumption]|]).
  unfold timer_fires, bind, get_state. rewrite Hpt, lookup_insert_eq.
  reflexivity.
Qed.

Lemma body_failure_strands_caller_witness :
  exists p' c',
    response_arrives Sample.ok_response ["[1,"; " 2,"] PotentialDataLoss
      Sample.request_id Sample.url Sample.in_flight
    = Raise (exception_of PotentialDataLoss) (p', c') /\
    buffer p' = ["[1,"; " 2,"] /\
    log p' = [] /\
    state_of c' (finished p') = Unfired /\
    state_of c' 1 = Unfired /\
    pendingResponses c' !! Sample.request_id = Some 1 /\
    pendingTimeouts c' !! Sample.request_id = Some Cancelled /\
    timer_fires Sample.request_id Sample.url c' = Return tt c'.
Proof.
  assert (Hne : 1 <> next_object Sample.in_flight).
  { vm_compute. discriminate. }
  apply (body_failure_strands_caller Sample.ok_response ["[1,"; " 2,"]
           PotentialDataLoss Sample.request_id Sample.url Sample.in_flight
           0 1).
  - reflexivity.
  - reflexivity.
  - reflexivity.
  - reflexivity.
  - exact Hne.
  - discriminate.
Defined.

End BodyFacts.

(** ** Records and their dicts *)

Module DataFacts.
Import txcosm.

Lemma assoc_set_key k k' v (d : list (string * json)) :
  assoc k (set_key k' v d)
  = if String.eqb k k' then Some v else assoc k d.
Proof.
  induction d as [|[k0 x] d IH]; cbn.
  - reflexivity.
  - destruct (String.eqb k' k0) eqn:Hk'.
    + apply String.eqb_eq in Hk' as ->. cbn.
      destruct (String.eqb k k0); reflexivity.
    + cbn. destruct (String.eqb k k0) eqn:Hk.
      * apply String.eqb_eq in Hk as ->.
        rewrite String.eqb_sym, Hk'. reflexivity.
      * exact IH.
Qed.

Ltac attr :=
  unfold getattr, setattr;
  repeat first [rewrite lookup_insert_eq
               | rewrite lookup_insert_ne by discriminate
               | rewrite lookup_empty];
  cbn [default from_option id].

(** What [Datapoint(kwargs)] holds: each of the two values when it is
    true in a condition, [None] otherwise. *)
Lemma Datapoint_new_attributes kwargs :
  getattr (Datapoint.new kwargs) "at"
  = (if truthy (get kwargs "at") then get kwargs "at" else JNull) /\
  getattr (Datapoint.new kwargs) "value"
  = (if truthy (get kwargs "value") then get kwargs "value" else JNull).
Proof.
  unfold Datapoint.new, Datapoint.fromDict, Datapoint._attributes.
  cbn [fromDict_loop].
  destruct (truthy (get kwargs "at")), (truthy (get kwargs "value"));
    split; attr; reflexivity.
Qed.

(** X24.  A datapoint made from keyword arguments whose time and
    value are each absent or a string that is not empty goes to a dict
    and back unchanged: [toDict] gives back the two entries as they
    were passed, and a datapoint made from that dict is the same
    object. *)
Theorem Datapoint_round_trip unicode kwargs :
  (forall s, unicode (JStr s) = s) ->
  text_or_none (get kwargs "at") = true ->
  text_or_none (get kwargs "value") = true ->
  let self := Datapoint.new kwargs in
  get (Datapoint.toDict unicode self) "at" = get kwargs "at" /\
  get (Datapoint.toDict unicode self) "value" = get kwargs "value" /\
  Datapoint.new (Datapoint.toDict unicode self) = self.
Proof.
  intros Hu Hat Hval self. unfold self.
  unfold Datapoint.new, Datapoint.fromDict, Datapoint.toDict,
    Datapoint._attributes.
  cbn [fromDict_loop].
  destruct (get kwargs "at") as [| | |[|a s]| |] eqn:Ea;
    try discriminate Hat;
    destruct (get kwargs "value") as [| | |[|b t]| |] eqn:Ev;
    try discriminate Hval;
    cbn [truthy String.eqb negb toDict_loop]; attr;
    cbn [truthy String.eqb negb set_key]; rewrite ?Hu;
    unfold get; cbn -[insert];
    rewrite ?Ea, ?Ev; cbn -[insert];
    repeat split; reflexivity.
Qed.

Lemma Datapoint_round_trip_witness :
  let self := Datapoint.new [("at", JStr "2012-06-01T12:00:00Z");
                             ("value", JStr "21.5")] in
  get (Datapoint.toDict scalar_text self) "at"
  = JStr "2012-06-01T12:00:00Z" /\
  get (Datapoint.toDict scalar_text self) "value" = JStr "21.5" /\
  Datapoint.new (Datapoint.toDict scalar_text self) = self.
Proof.
  apply (Datapoint_round_trip scalar_text
           [("at", JStr "2012-06-01T12:00:00Z"); ("value", JStr "21.5")]).
  - reflexivity.
  - reflexivity.
  - reflexivity.
Defined.

Import Datastream.

(** A key that [toDict] does not come to keeps what the dict had. *)
Lemma toDict_loop_assoc unicode self attributes d a :
  a <> "datapoints" -> a <> "unit" -> NoDup attributes ->
  assoc a (Datastream.toDict_loop unicode self attributes d)
  = if bool_decide (a ∈ attributes) then
      let v := getattr (plain self) a in
      if present v then Some (JStr (unicode v)) else assoc a d
    else assoc a d.
Proof.
  intros Hdp Hun. revert d.
  induction attributes as [|x rest IH]; intros d Hnd.
  - reflexivity.
  - apply NoDup_cons in Hnd as [Hx Hnd].
    cbn [Datastream.toDict_loop].
    match goal with
    | |- context [Datastream.toDict_loop _ _ _ ?d'] => set (d1 := d')
    end.
    rewrite (IH _ Hnd). clear IH. cbv zeta.
    destruct (decide (a = x)) as [->|Hax].
    + rewrite (bool_decide_eq_false_2 (x ∈ rest)) by exact Hx.
      rewrite (bool_decide_eq_true_2 (x ∈ x :: rest))
        by apply list_elem_of_here.
      unfold d1.
      apply String.eqb_neq in Hdp, Hun. rewrite Hdp, Hun. cbv zeta.
      destruct (present (getattr (plain self) x)); [|reflexivity].
      rewrite assoc_set_key, String.eqb_refl. reflexivity.
    + assert (Hstep : forall d', assoc a (set_key x d' d) = assoc a d).
      { intros d'. rewrite assoc_set_key.
        apply String.eqb_neq in Hax. rewrite Hax. reflexivity. }
      assert (Hsame : assoc a d1 = assoc a d).
      { unfold d1. destruct (String.eqb x "datapoints").
        - destruct (datapoints self); [reflexivity | apply Hstep].
        - destruct (String.eqb x "unit").
          + destruct (unit self); [apply Hstep | reflexivity].
          + cbv zeta. destruct (present (getattr (plain self) x));
              [apply Hstep | reflexivity]. }
      rewrite Hsame.
      destruct (decide (a ∈ rest)) as [Hin|Hin].
      * rewrite (bool_decide_eq_true_2 _ Hin).
        rewrite (bool_decide_eq_true_2 (a ∈ x :: rest))
          by (apply list_elem_of_further; exact Hin).
        reflexivity.
      * rewrite (bool_decide_eq_false_2 _ Hin).
        rewrite (bool_decide_eq_false_2 (a ∈ x :: rest)).
        -- reflexivity.
        -- intros [?|?]%elem_of_cons; congruence.
Qed.

Lemma _attributes_NoDup : NoDup Datastream._attributes.
Proof. apply (bool_decide_unpack _). vm_compute. exact I. Qed.

(** X25.  A value that is false in a condition without being [None]
    or the empty list, the number 0 or the empty string for instance,
    is kept as the current value of a datastream and sent as its text,
    but is lost as the value of a datapoint: the datapoint that
    [addDatapoint] appends has no value, and its dict has no value
    entry. *)
Theorem falsy_value_kept_as_current_lost_as_datapoint unicode timestamp
    value self :
  truthy value = false ->
  present value = true ->
  let self' := addDatapoint timestamp value (setCurrentValue value self) in
  exists datapoint,
    datapoints self' = datapoints self ++ [datapoint] /\
    getattr datapoint "value" = JNull /\
    assoc "value" (Datapoint.toDict unicode datapoint) = None /\
    assoc "current_value" (Datastream.toDict unicode self')
    = Some (JStr (unicode value)).
Proof.
  intros Hfalse Hpresent self'.
  exists (Datapoint.new [("at", timestamp); ("value", value)]).
  split; [reflexivity|].
  pose proof (Datapoint_new_attributes [("at", timestamp); ("value", value)])
    as [_ Hv].
  change (get [("at", timestamp); ("value", value)] "value") with value in Hv.
  rewrite Hfalse in Hv.
  split; [exact Hv|]. split.
  - unfold Datapoint.toDict, Datapoint._attributes.
    cbn [txcosm.toDict_loop]. rewrite Hv. cbn [truthy].
    destruct (truthy (getattr _ "at")); reflexivity.
  - unfold Datastream.toDict.
    rewrite toDict_loop_assoc; [|discriminate|discriminate|].
    + rewrite bool_decide_eq_true_2
        by (apply (bool_decide_unpack _); vm_compute; exact I).
      cbv zeta. unfold self', addDatapoint, setCurrentValue.
      cbn [plain set_datapoints set_plain]. attr.
      rewrite Hpresent. reflexivity.
    + exact _attributes_NoDup.
Qed.

Lemma falsy_value_kept_as_current_lost_as_datapoint_witness :
  let self' := addDatapoint (JStr "2012-06-01T12:00:00Z") (JNum 0)
                 (setCurrentValue (JNum 0) Datastream.init) in
  exists datapoint,
    datapoints self' = datapoints Datastream.init ++ [datapoint] /\
    getattr datapoint "value" = JNull /\
    assoc "value" (Datapoint.toDict scalar_text datapoint) = None /\
    assoc "current_value" (Datastream.toDict scalar_text self')
    = Some (JStr (scalar_text (JNum 0))).
Proof.
  apply (falsy_value_kept_as_current_lost_as_datapoint scalar_text
           (JStr "2012-06-01T12:00:00Z") (JNum 0) Datastream.init).
  - reflexivity.
  - reflexivity.
Defined.

Lemma fromDict_loop_cons unicode inDict attribute rest self :
  Datastream.fromDict_loop unicode inDict (attribute :: rest) self
  = ((let attribute_value := get inDict attribute in
      if present attribute_value then
        if String.eqb attribute "datapoints" then
          datapoints_list <- lift (iterate attribute_value) ;;
          append_datapoints datapoints_list
        else if String.eqb attribute "unit" then
          unitKwargs <- lift (keywords attribute_value) ;;
          u <- lift (Unit.new unicode unitKwargs) ;;
          modify (set_unit (Some u))
        else
          modify (fun self =>
            set_plain (setattr attribute attribute_value (plain self)) self)
      else ret tt) ;;;
     Datastream.fromDict_loop unicode inDict rest)%py self.
Proof. reflexivity. Qed.

Lemma fromDict_loop_plain unicode inDict a rest self :
  a <> "datapoints" -> a <> "unit" ->
  Datastream.fromDict_loop unicode inDict (a :: rest) self
  = Datastream.fromDict_loop unicode inDict rest (apply_plain inDict a self).
Proof.
  intros Hdp Hun. apply String.eqb_neq in Hdp, Hun.
  rewrite fromDict_loop_cons. cbv zeta. unfold apply_plain.
  rewrite Hdp, Hun. unfold bind, modify, ret.
  destruct (present (get inDict a)); reflexivity.
Qed.

Lemma apply_plain_fields inDict a self :
  datapoints (apply_plain inDict a self) = datapoints self /\
  unit (apply_plain inDict a self) = unit self.
Proof. unfold apply_plain. destruct (present _); auto. Qed.

Lemma getattr_apply_plain inDict a self b :
  getattr (plain (apply_plain inDict a self)) b
  = if String.eqb a b && present (get inDict a)
    then get inDict a
    else getattr (plain self) b.
Proof.
  unfold apply_plain.
  destruct (present (get inDict a)); [|rewrite andb_false_r; reflexivity].
  rewrite andb_true_r. cbn [plain set_plain]. unfold getattr, setattr.
  destruct (String.eqb a b) eqn:Hab.
  - apply String.eqb_eq in Hab as ->. rewrite lookup_insert_eq. reflexivity.
  - apply String.eqb_neq in Hab. rewrite lookup_insert_ne by exact Hab.
    reflexivity.
Qed.

Lemma append_datapoints_effect kws self :
  Forall (fun kwargs => assoc "self" kwargs = None) kws ->
  append_datapoints (List.map JDict kws) self
  = Return tt
      (set_datapoints (datapoints self ++ List.map Datapoint.new kws) self).
Proof.
  intros Hall. revert self.
  induction Hall as [|kwargs kws Hk _ IH]; intros self.
  - cbn. unfold ret. rewrite app_nil_r. destruct self; reflexivity.
  - cbn [List.map append_datapoints]. unfold bind at 1, lift, keywords.
    rewrite Hk. unfold ret at 1. unfold bind at 1, modify. rewrite IH.
    cbn [datapoints set_datapoints plain unit]. rewrite <- app_assoc.
    reflexivity.
Qed.

(** The part of [fromDict] up to the unit, on a dict whose datapoints
    are a list of dicts. *)
Lemma fromDict_to_unit unicode inDict kws rest self :
  get inDict "datapoints" = JList (List.map JDict kws) ->
  Forall (fun kwargs => assoc "self" kwargs = None) kws ->
  let before :=
    apply_plain inDict "tags"
      (apply_plain inDict "min_value"
         (apply_plain inDict "max_value"
            (apply_plain inDict "id"
               (set_datapoints
                  (datapoints self ++ List.map Datapoint.new kws)
                  (apply_plain inDict "current_value"
                     (apply_plain inDict "at" self)))))) in
  Datastream.fromDict_loop unicode inDict
    ("at" :: "current_value" :: "datapoints" :: "id" :: "max_value"
     :: "min_value" :: "tags" :: rest) self
  = Datastream.fromDict_loop unicode inDict rest before.
Proof.
  intros Hdp Hall before.
  rewrite !fromDict_loop_plain by discriminate.
  rewrite fromDict_loop_cons. cbv zeta. rewrite Hdp.
  change (String.eqb "datapoints" "datapoints") with true. cbv iota.
  set (self1 := apply_plain inDict "current_value"
                  (apply_plain inDict "at" self)).
  assert (Hd1 : datapoints self1 = datapoints self).
  { unfold self1.
    rewrite (proj1 (apply_plain_fields _ _ _)).
    apply (proj1 (apply_plain_fields _ _ _)). }
  assert (Hstep :
    (if present (JList (List.map JDict kws))
     then (datapoints_list <- lift (iterate (JList (List.map JDict kws))) ;;
           append_datapoints datapoints_list)%py
     else ret tt) self1
    = Return tt
        (set_datapoints (datapoints self ++ List.map Datapoint.new kws)
           self1)).
  { destruct kws as [|kwargs kws].
    - cbn. unfold ret. rewrite app_nil_r, <- Hd1. destruct self1; reflexivity.
    - cbn [List.map present]. unfold bind, lift, iterate, ret.
      change (JDict kwargs :: List.map JDict kws)
        with (List.map JDict (kwargs :: kws)).
      rewrite (append_datapoints_effect _ _ Hall), Hd1. reflexivity. }
  unfold bind at 1. rewrite Hstep. cbv beta iota.
  rewrite !fromDict_loop_plain by discriminate. reflexivity.
Qed.

(** X26.  [Datastream.fromDict] adds to the datapoints, it does not
    replace them: on a dict whose datapoints are a list of dicts and
    which has no unit, the datapoints of the dict are appended, in
    their order, to those the datastream holds.  So the same dict
    taken in twice leaves every datapoint twice. *)
Theorem fromDict_appends_datapoints unicode inDict kws self :
  get inDict "datapoints" = JList (List.map JDict kws) ->
  Forall (fun kwargs => assoc "self" kwargs = None) kws ->
  get inDict "unit" = JNull ->
  exists self1 self2,
    Datastream.fromDict unicode inDict self = Return tt self1 /\
    datapoints self1 = datapoints self ++ List.map Datapoint.new kws /\
    Datastream.fromDict unicode inDict self1 = Return tt self2 /\
    datapoints self2
    = datapoints self ++ List.map Datapoint.new kws
      ++ List.map Datapoint.new kws /\
    unit self2 = unit self.
Proof.
  intros Hdp Hall Hunit.
  assert (Hrun : forall self0, exists self1,
             Datastream.fromDict unicode inDict self0 = Return tt self1 /\
             datapoints self1
             = datapoints self0 ++ List.map Datapoint.new kws /\
             unit self1 = unit self0).
  { intros self0. unfold Datastream.fromDict, Datastream._attributes.
    rewrite (fromDict_to_unit unicode inDict kws _ self0 Hdp Hall). cbv zeta.
    rewrite fromDict_loop_cons. cbv zeta. rewrite Hunit.
    cbn [present]. unfold ret at 1. unfold bind at 1.
    rewrite fromDict_loop_plain by discriminate.
    cbn [Datastream.fromDict_loop]. unfold ret.
    eexists. split; [reflexivity|].
    rewrite !(proj1 (apply_plain_fields _ _ _)).
    rewrite !(proj2 (apply_plain_fields _ _ _)).
    cbn [datapoints unit set_datapoints].
    rewrite !(proj2 (apply_plain_fields _ _ _)). auto. }
  destruct (Hrun self) as (self1 & Hrun1 & Hd1 & Hu1).
  destruct (Hrun self1) as (self2 & Hrun2 & Hd2 & Hu2).
  exists self1, self2. repeat split; try assumption.
  - rewrite Hd2, Hd1, <- app_assoc. reflexivity.
  - congruence.
Qed.

Lemma fromDict_appends_datapoints_witness :
  exists self1 self2,
    Datastream.fromDict scalar_text
      [("datapoints", JList [JDict (point_kwargs ("t1", "1"));
                             JDict (point_kwargs ("t2", "2"))])]
      Datastream.init = Return tt self1 /\
    datapoints self1
    = datapoints Datastream.init
      ++ List.map Datapoint.new [point_kwargs ("t1", "1");
                                 point_kwargs ("t2", "2")] /\
    Datastream.fromDict scalar_text
      [("datapoints", JList [JDict (point_kwargs ("t1", "1"));
                             JDict (point_kwargs ("t2", "2"))])]
      self1 = Return tt self2 /\
    datapoints self2
    = datapoints Datastream.init
      ++ List.map Datapoint.new [point_kwargs ("t1", "1");
                                 point_kwargs ("t2", "2")]
      ++ List.map Datapoint.new [point_kwargs ("t1", "1");
                                 point_kwargs ("t2", "2")] /\
    unit self2 = unit Datastream.init.
Proof.
  apply (fromDict_appends_datapoints scalar_text
           [("datapoints", JList [JDict (point_kwargs ("t1", "1"));
                                  JDict (point_kwargs ("t2", "2"))])]
           [point_kwargs ("t1", "1"); point_kwargs ("t2", "2")]
           Datastream.init).
  - reflexivity.
  - repeat constructor.
  - reflexivity.
Defined.

(** A unit whose type is given and is none of the five names cannot
    be made. *)
Lemma Unit_new_invalid_type unicode kwargs :
  truthy (get kwargs "type") = true ->
  Unit.not_in (get kwargs "type") Unit.Valid_Unit_Types = true ->
  Unit.new unicode kwargs = inl (Exception (Unit.invalid_unit_type unicode (get kwargs "type"))).
Proof.
  intros Ht Hn. unfold Unit.new, Unit.fromDict, Unit._attributes.
  cbn [Unit.fromDict_loop]. cbv zeta.
  change (String.eqb "label" "type") with false.
  change (String.eqb "type" "type") with true.
  rewrite Ht, Hn. cbn [andb].
  unfold bind, modify, ret, raise.
  destruct (truthy (get kwargs "label")); reflexivity.
Qed.

(** X27.  A dict whose unit has a type that is none of the five names
    of [Valid_Unit_Types] cannot be taken in: [fromDict] raises, and no
    [Datastream] can be made from the dict.  The datastream that
    [fromDict] was called on is left half updated: the attributes that
    come before the unit are set and the datapoints appended, while the
    unit and the time of the last update are as before. *)
Theorem invalid_unit_type_half_updates unicode inDict kws unitKwargs self :
  get inDict "datapoints" = JList (List.map JDict kws) ->
  Forall (fun kwargs => assoc "self" kwargs = None) kws ->
  get inDict "unit" = JDict unitKwargs ->
  assoc "self" unitKwargs = None ->
  truthy (get unitKwargs "type") = true ->
  Unit.not_in (get unitKwargs "type") Unit.Valid_Unit_Types = true ->
  Datastream.new unicode inDict = inl (Exception (Unit.invalid_unit_type unicode (get unitKwargs "type"))) /\
  exists self',
    Datastream.fromDict unicode inDict self
    = Raise (Exception (Unit.invalid_unit_type unicode (get unitKwargs "type"))) self' /\
    unit self' = unit self /\
    datapoints self' = datapoints self ++ List.map Datapoint.new kws /\
    getattr (plain self') "updated" = getattr (plain self) "updated" /\
    forall a,
      a ∈ ["at"; "current_value"; "id"; "max_value"; "min_value"; "tags"] ->
      getattr (plain self') a
      = if present (get inDict a) then get inDict a
        else getattr (plain self) a.
Proof.
  intros Hdp Hall Hunit Hself Ht Hn.
  assert (Hrun : forall self0, exists self',
    Datastream.fromDict unicode inDict self0
    = Raise (Exception (Unit.invalid_unit_type unicode (get unitKwargs "type"))) self' /\
    unit self' = unit self0 /\
    datapoints self' = datapoints self0 ++ List.map Datapoint.new kws /\
    getattr (plain self') "updated" = getattr (plain self0) "updated" /\
    forall a,
      a ∈ ["at"; "current_value"; "id"; "max_value"; "min_value"; "tags"] ->
      getattr (plain self') a
      = if present (get inDict a) then get inDict a
        else getattr (plain self0) a).
  { intros self0. unfold Datastream.fromDict, Datastream._attributes.
    rewrite (fromDict_to_unit unicode inDict kws _ self0 Hdp Hall). cbv zeta.
    rewrite fromDict_loop_cons. cbv zeta. rewrite Hunit.
    cbn [present]. change (String.eqb "unit" "datapoints") with false.
    change (String.eqb "unit" "unit") with true. cbv iota.
    unfold bind at 1. unfold bind at 1. unfold lift at 1, keywords.
    rewrite Hself. unfold ret at 1. unfold bind at 1.
    rewrite (Unit_new_invalid_type unicode _ Ht Hn). unfold lift, raise.
    eexists. split; [reflexivity|].
    rewrite !(proj2 (apply_plain_fields _ _ _)).
    rewrite !(proj1 (apply_plain_fields _ _ _)).
    cbn [datapoints unit set_datapoints].
    rewrite !(proj2 (apply_plain_fields _ _ _)).
    split; [reflexivity|]. split; [reflexivity|].
    assert (Hplain : forall b,
      getattr
        (plain
           (apply_plain inDict "tags"
              (apply_plain inDict "min_value"
                 (apply_plain inDict "max_value"
                    (apply_plain inDict "id"
                       (set_datapoints
                          (datapoints self0 ++ List.map Datapoint.new kws)
                          (apply_plain inDict "current_value"
                             (apply_plain inDict "at" self0)))))))) b
      = if String.eqb "tags" b && present (get inDict "tags")
        then get inDict "tags"
        else if String.eqb "min_value" b && present (get inDict "min_value")
        then get inDict "min_value"
        else if String.eqb "max_value" b && present (get inDict "max_value")
        then get inDict "max_value"
        else if String.eqb "id" b && present (get inDict "id")
        then get inDict "id"
        else if String.eqb "current_value" b
                && present (get inDict "current_value")
        then get inDict "current_value"
        else if String.eqb "at" b && present (get inDict "at")
        then get inDict "at"
        else getattr (plain self0) b).
    { intros b. rewrite !getattr_apply_plain.
      change (plain (set_datapoints ?l ?x)) with (plain x).
      rewrite !getattr_apply_plain. reflexivity. }
    split.
    - rewrite Hplain. reflexivity.
    - intros a Ha. rewrite Hplain.
      repeat (apply elem_of_cons in Ha as [->|Ha];
              [cbn [String.eqb Ascii.eqb Bool.eqb andb];
               repeat match goal with
                      | |- context [present ?x] => destruct (present x)
                      end; reflexivity|]).
      apply elem_of_nil in Ha. destruct Ha. }
  split.
  - unfold Datastream.new.
    destruct (Hrun Datastream.init) as (self' & -> & _). reflexivity.
  - apply Hrun.
Qed.

Lemma invalid_unit_type_half_updates_witness :
  Datastream.new scalar_text
    [("id", JStr "temperature");
     ("datapoints", JList [JDict (point_kwargs ("t1", "1"))]);
     ("updated", JStr "2012-06-01T12:00:00Z");
     ("unit", JDict [("label", JStr "Celsius"); ("type", JStr "metric")])]
  = inl (Exception "Invalid unit type 'metric' not in ['basicSI', 'derivedSI', 'conversionBasedUnits', 'derivedUnits', 'contextDependentUnits']") /\
  exists self',
    Datastream.fromDict scalar_text
      [("id", JStr "temperature");
     ("datapoints", JList [JDict (point_kwargs ("t1", "1"))]);
     ("updated", JStr "2012-06-01T12:00:00Z");
       ("unit", JDict [("label", JStr "Celsius"); ("type", JStr "metric")])]
      Datastream.init
    = Raise (Exception "Invalid unit type 'metric' not in ['basicSI', 'derivedSI', 'conversionBasedUnits', 'derivedUnits', 'contextDependentUnits']") self' /\
    unit self' = unit Datastream.init /\
    datapoints self'
    = datapoints Datastream.init ++ List.map Datapoint.new [point_kwargs ("t1", "1")] /\
    getattr (plain self') "updated"
    = getattr (plain Datastream.init) "updated" /\
    forall a,
      a ∈ ["at"; "current_value"; "id"; "max_value"; "min_value"; "tags"] ->
      getattr (plain self') a
      = if present
             (get
                [("id", JStr "temperature");
                 ("datapoints", JList [JDict (point_kwargs ("t1", "1"))]);
                 ("updated", JStr "2012-06-01T12:00:00Z");
                 ("unit", JDict [("label", JStr "Celsius");
                                 ("type", JStr "metric")])] a)
        then get
               [("id", JStr "temperature");
                ("datapoints", JList [JDict (point_kwargs ("t1", "1"))]);
                ("updated", JStr "2012-06-01T12:00:00Z");
                ("unit", JDict [("label", JStr "Celsius");
                                ("type", JStr "metric")])] a
        else getattr (plain Datastream.init) a.
Proof.
  apply (invalid_unit_type_half_updates scalar_text
           [("id", JStr "temperature");
            ("datapoints", JList [JDict (point_kwargs ("t1", "1"))]);
            ("updated", JStr "2012-06-01T12:00:00Z");
            ("unit", JDict [("label", JStr "Celsius");
                            ("type", JStr "metric")])]
           [point_kwargs ("t1", "1")]
           [("label", JStr "Celsius"); ("type", JStr "metric")]
           Datastream.init).
  - reflexivity.
  - repeat constructor.
  - reflexivity.
  - reflexivity.
  - reflexivity.
  - reflexivity.
Defined.

Lemma record_points_effect points self :
  record_points points self
  = set_datapoints
      (datapoints self
       ++ List.map (fun point => Datapoint.new (point_kwargs point)) points)
      self.
Proof.
  unfold record_points. revert self.
  induction points as [|point points IH]; intros self.
  - cbn. rewrite app_nil_r. destruct self; reflexivity.
  - cbn [fold_left List.map]. rewrite IH. unfold addDatapoint.
    cbn [datapoints set_datapoints plain unit]. rewrite <- app_assoc.
    reflexivity.
Qed.

(** The dict of the datapoint of a time and a value that are not
    empty. *)
Lemma Datapoint_toDict_point unicode point :
  (forall s, unicode (JStr s) = s) ->
  fst point <> "" -> snd point <> "" ->
  Datapoint.toDict unicode (Datapoint.new (point_kwargs point))
  = point_kwargs point.
Proof.
  intros Hu Hat Hval. destruct point as [[|a s] [|b t]]; cbn in Hat, Hval;
    try congruence.
  unfold Datapoint.new, Datapoint.fromDict, Datapoint.toDict,
    Datapoint._attributes, point_kwargs.
  cbn [txcosm.fromDict_loop fst snd].
  change (get [("at", JStr (String a s)); ("value", JStr (String b t))] "at")
    with (JStr (String a s)).
  change (get [("at", JStr (String a s)); ("value", JStr (String b t))]
            "value")
    with (JStr (String b t)).
  cbn [truthy String.eqb negb txcosm.toDict_loop]. attr.
  cbn [truthy String.eqb negb]. rewrite !Hu. reflexivity.
Qed.

(** X28.  A datastream made from an identifier, given a current value
    with [setCurrentValue] and datapoints with [addDatapoint], their
    times and values strings that are not empty, goes out as the dict
    of exactly these: the current value, the datapoints in the order
    they were added (the entry is left out when there are none), and
    the identifier.  A datastream made from that dict is the same as
    the one that was built. *)
Theorem built_datastream_round_trip unicode i v points :
  (forall s, unicode (JStr s) = s) ->
  Forall (fun point => fst point <> "" /\ snd point <> "") points ->
  exists self0,
    Datastream.new unicode [("id", JStr i)] = inr self0 /\
    let self := record_points points (setCurrentValue (JStr v) self0) in
    Datastream.toDict unicode self
    = [("current_value", JStr v)]
      ++ match points with
         | [] => []
         | _ => [("datapoints",
                  JList (List.map (fun point => JDict (point_kwargs point))
                           points))]
         end
      ++ [("id", JStr i)] /\
    Datastream.new unicode (Datastream.toDict unicode self) = inr self.
Proof.
  intros Hu Hall.
  exists (set_plain (setattr "id" (JStr i) (plain Datastream.init))
            Datastream.init).
  split; [reflexivity|]. cbv zeta.
  rewrite record_points_effect.
  match goal with
  | |- context [Datastream.toDict unicode ?x] => set (self := x)
  end.
  assert (Hdicts :
    List.map (fun datapoint => JDict (Datapoint.toDict unicode datapoint))
      (List.map (fun point => Datapoint.new (point_kwargs point)) points)
    = List.map (fun point => JDict (point_kwargs point)) points).
  { rewrite List.map_map. apply List.map_ext_in. intros point Hin.
    rewrite List.Forall_forall in Hall. destruct (Hall _ Hin).
    rewrite Datapoint_toDict_point by assumption. reflexivity. }
  assert (Hout :
    Datastream.toDict unicode self
    = [("current_value", JStr v)]
      ++ match points with
         | [] => []
         | _ => [("datapoints",
                  JList (List.map (fun point => JDict (point_kwargs point))
                           points))]
         end
      ++ [("id", JStr i)]).
  { unfold self, Datastream.toDict, Datastream._attributes.
    cbn [Datastream.toDict_loop plain datapoints unit set_datapoints
         setCurrentValue set_plain Datastream.init String.eqb Ascii.eqb
         Bool.eqb app].
    cbv zeta. attr. cbn [present]. rewrite !Hu. rewrite Hdicts.
    destruct points; reflexivity. }
  split; [exact Hout|]. rewrite Hout. clear Hout Hdicts.
  destruct points as [|point points].
  - cbn [app]. unfold Datastream.new, Datastream.fromDict,
      Datastream._attributes.
    cbn -[insert]. unfold self, setattr. cbn -[insert].
    rewrite (insert_insert_ne _ "id" "current_value") by discriminate.
    reflexivity.
  - cbn [app]. unfold Datastream.new, Datastream.fromDict,
      Datastream._attributes.
    rewrite (fromDict_to_unit unicode _
               (List.map point_kwargs (point :: points))).
    + cbv zeta. cbn [Datastream.fromDict_loop]. cbv zeta.
      unfold apply_plain.
      cbn [get assoc String.eqb Ascii.eqb Bool.eqb default from_option id
           present bind ret modify].
      unfold self.
      cbn [datapoints Datastream.init app plain set_plain set_datapoints
           setCurrentValue unit].
      rewrite List.map_map. unfold setattr.
      rewrite (insert_insert_ne _ "id" "current_value") by discriminate.
      reflexivity.
    + rewrite List.map_map. reflexivity.
    + apply Forall_fmap. apply Forall_forall. intros; reflexivity.
Qed.

Lemma built_datastream_round_trip_witness :
  exists self0,
    Datastream.new scalar_text [("id", JStr "temperature")] = inr self0 /\
    let self := record_points [("t1", "20.5"); ("t2", "21.0")]
                  (setCurrentValue (JStr "21.0") self0) in
    Datastream.toDict scalar_text self
    = [("current_value", JStr "21.0")]
      ++ [("datapoints",
           JList (List.map (fun point => JDict (point_kwargs point))
                    [("t1", "20.5"); ("t2", "21.0")]))]
      ++ [("id", JStr "temperature")] /\
    Datastream.new scalar_text (Datastream.toDict scalar_text self) = inr self.
Proof.
  apply (built_datastream_round_trip scalar_text "temperature" "21.0"
           [("t1", "20.5"); ("t2", "21.0")]).
  - reflexivity.
  - repeat constructor; discriminate.
Defined.

(** X29.  The tags of a datastream do not come back from its dict.
    A datastream made with a list of tags holds the list, but
    [toDict] writes the tags as one text, the text of the whole list,
    and a datastream made from that dict has this text as its tags,
    not the list. *)
Theorem tags_come_back_as_text unicode i tag tags :
  exists self self',
    Datastream.new unicode [("id", JStr i); ("tags", JList (tag :: tags))]
    = inr self /\
    getattr (plain self) "tags" = JList (tag :: tags) /\
    get (Datastream.toDict unicode self) "tags"
    = JStr (unicode (JList (tag :: tags))) /\
    Datastream.new unicode (Datastream.toDict unicode self) = inr self' /\
    getattr (plain self') "tags" = JStr (unicode (JList (tag :: tags))).
Proof.
  set (self := set_plain
                 (setattr "tags" (JList (tag :: tags))
                    (setattr "id" (JStr i) (plain Datastream.init)))
                 Datastream.init).
  set (self' := set_plain
                  (setattr "tags" (JStr (unicode (JList (tag :: tags))))
                     (setattr "id" (JStr (unicode (JStr i)))
                        (plain Datastream.init)))
                  Datastream.init).
  exists self, self'.
  split; [reflexivity|].
  split; [unfold self; cbn [plain set_plain]; attr; reflexivity|].
  assert (Hout :
    Datastream.toDict unicode self
    = [("id", JStr (unicode (JStr i)));
       ("tags", JStr (unicode (JList (tag :: tags))))]).
  { unfold self, Datastream.toDict, Datastream._attributes.
    cbn [Datastream.toDict_loop plain datapoints unit set_plain
         Datastream.init String.eqb Ascii.eqb Bool.eqb].
    cbv zeta. attr. reflexivity. }
  rewrite Hout.
  split; [reflexivity|].
  split; [reflexivity|].
  unfold self'. cbn [plain set_plain]. attr. reflexivity.
Qed.

End DataFacts.
